(** * Transition pipelines of veo_clip_transitions: a shallow embedding

    The repository is a set of stand-alone Python scripts.  Each one lists
    the video objects of a bucket folder, downloads them into a local
    temporary directory, places them on a timeline (hard cut, fade,
    crossfade, blend, slide, wipe, ffmpeg xfade, or a generated bridge clip
    obtained from a long-running remote operation), renders the result and
    uploads it.

    Conventions of the embedding.
    - Durations, times and positions are Python floats in the source;
      they are modelled as exact rationals ([Q]) compared with [==], so
      their rounding is not modelled.  The one place where a result hangs
      on rounding, the [math.isclose] test of aspect_ratio.py, is modelled
      on IEEE 754 doubles.
    - A local path [os.path.join(d, name)] is the pair [(d, name)].
    - moviepy, cv2, ffmpeg, requests and the storage client are external.
      Their answers are read from an environment record ([Env]); the
      placement rules of moviepy's [CompositeVideoClip] and
      [concatenate_videoclips] are written out in [Module MoviePy].
    - Python control flow (exceptions, early [return], [try]/[finally],
      [with]) is a small state-and-exception monad over a [World] holding
      the local file system, the uploaded objects and the printed lines.
    - A printed line keeps the fixed ASCII part of its text and the level
      its own wording announces (a warning sign or "WARNING" is a warning,
      a cross or "ERROR"/"Error" an error); interpolated values are
      mostly left out. *)

From Stdlib Require Import Floats.
From Stdlib Require Import QArith Qminmax Lqa ZArith Lia String Ascii List Bool.
From Stdlib Require Import DecimalString Qround Qabs Sorted.
From stdpp Require Import base gmap strings list infinite.

Import ListNotations.
Local Open Scope string_scope.
Local Open Scope list_scope.

(** ** Python strings *)

Module PyStr.

(** [c.lower()] on one ASCII character. *)
Definition lower_ascii (c : ascii) : ascii :=
  let n := nat_of_ascii c in
  if (Nat.leb 65 n && Nat.leb n 90)%bool then ascii_of_nat (n + 32) else c.

(** [s.lower()]. *)
Fixpoint lower (s : string) : string :=
  match s with
  | EmptyString => EmptyString
  | String c s' => String (lower_ascii c) (lower s')
  end.

(** [s.endswith(suffix)]. *)
Fixpoint endswith (s suffix : string) : bool :=
  if String.eqb s suffix then true
  else match s with
       | EmptyString => false
       | String _ s' => endswith s' suffix
       end.

(** [s.endswith((a, b, ...))]. *)
Definition endswith_any (s : string) (suffixes : list string) : bool :=
  existsb (endswith s) suffixes.

(** [os.path.basename(s)]: what follows the last slash. *)
Fixpoint basename (s : string) : string :=
  match s with
  | EmptyString => EmptyString
  | String c s' =>
      if existsb (Ascii.eqb "/"%char) (list_ascii_of_string s')
      then basename s'
      else if Ascii.eqb c "/"%char then s' else s
  end.

(** [str(i)] for a non-negative integer. *)
Definition str_nat (i : nat) : string :=
  NilEmpty.string_of_uint (Nat.to_uint i).

(** [c in s]. *)
Definition has_char (c : ascii) (s : string) : bool :=
  existsb (Ascii.eqb c) (list_ascii_of_string s).

(** ['.' in s]. *)
Definition has_dot (s : string) : bool := has_char "."%char s.

(** A piece of a file name holding neither a dot nor a slash. *)
Definition plain (s : string) : bool :=
  negb (has_dot s) && negb (has_char "/"%char s).

(** The scan of [genericpath._splitext] over a file name: the extension
    starts at the last dot, unless only dots come before it, in which
    case there is none.  [seen_stem] tells whether a character other
    than a dot has been passed. *)
Fixpoint ext_from (seen_stem : bool) (s : string) : string :=
  match s with
  | EmptyString => EmptyString
  | String c s' =>
      if Ascii.eqb c "."%char then
        if has_dot s' then ext_from seen_stem s'
        else if seen_stem then s else EmptyString
      else ext_from true s'
  end.

(** [os.path.splitext(os.path.join(d, name))[1]]: the dots of the
    directory part do not count, so it is read off what follows the last
    slash of [name]. *)
Definition splitext_ext (name : string) : string :=
  ext_from false (basename name).

(** Insertion into a list kept in Python's string order of the keys. *)
Fixpoint insert_sorted {A} (key : A -> string) (a : A) (l : list A)
  : list A :=
  match l with
  | [] => [a]
  | x :: l' =>
      if String.leb (key a) (key x) then a :: l
      else x :: insert_sorted key a l'
  end.

(** [l.sort(key=...)]: a stable sort on string keys. *)
Definition sort_by {A} (key : A -> string) (l : list A) : list A :=
  fold_right (insert_sorted key) [] l.

End PyStr.

(** ** moviepy clips and compositions *)

Module MoviePy.

Local Open Scope Q_scope.

(** A local path: directory and file name. *)
Definition path : Type := string * string.

(** Effects attached to a clip by [fx], [fadein], [fadeout],
    [set_position] and [set_mask].  The two animated ones carry the
    values their Python closures capture: [position_slide w td] is
    [set_position(slide_in_position)] of slide.py and
    [mask_wipe video_size td] is [set_mask(VideoClip(create_wipe_mask,
    duration=td, ismask=True))] of wipe.py; the closures themselves are
    [Slide.slide_in_position] and [Wipe.create_wipe_mask] below. *)
Inductive Effect : Type :=
| fadein (d : Q)
| fadeout (d : Q)
| speedx (factor : Q)
| position_center
| position_slide (w : Z) (td : Q)
| mask_wipe (video_size : Z * Z) (td : Q).

(** The attributes of a moviepy clip the scripts read or set. *)
Record Clip : Type := mkClip {
  filename : path;
  duration : Q;
  size : Z * Z;
  start : Q;
  effects : list Effect
}.

(** [clip.end]. *)
Definition end_ (c : Clip) : Q := start c + duration c.

(** [clip.set_start(t)]. *)
Definition set_start (t : Q) (c : Clip) : Clip :=
  mkClip (filename c) (duration c) (size c) t (effects c).

(** [clip.fx(effect, ...)] for an effect that keeps the duration. *)
Definition fx (e : Effect) (c : Clip) : Clip :=
  mkClip (filename c) (duration c) (size c) (start c) (effects c ++ [e]).

(** [clip.fx(vfx.speedx, factor)]: the clip lasts [duration / factor]. *)
Definition fx_speedx (factor : Q) (c : Clip) : Clip :=
  mkClip (filename c) (duration c / factor) (size c) (start c)
         (effects c ++ [speedx factor]).

(** A composition: layers in paint order, canvas size and duration. *)
Record Composite : Type := mkComposite {
  layers : list Clip;
  comp_size : Z * Z;
  comp_duration : Q
}.

(** [comp.set_duration(t)]. *)
Definition set_duration (t : Q) (c : Composite) : Composite :=
  mkComposite (layers c) (comp_size c) t.

(** [max(c.end for c in clips)] on a list that starts with [c0]. *)
Definition max_end (c0 : Clip) (rest : list Clip) : Q :=
  fold_left (fun m c => Qmax m (end_ c)) rest (end_ c0).

(** [CompositeVideoClip(clips, size=...)]: the canvas is [size] or the
    first clip's size, the duration the latest end.  An empty list makes
    [clips[0]] raise. *)
Definition CompositeVideoClip (clips : list Clip) (sz : option (Z * Z))
  : option Composite :=
  match clips with
  | [] => None
  | c0 :: rest =>
      Some (mkComposite clips
              (match sz with Some s => s | None => size c0 end)
              (max_end c0 rest))
  end.

(** Running sum used by [concatenate_videoclips]:
    [tt = cumsum([0] + durations)]. *)
Fixpoint place_from (t : Q) (clips : list Clip) : list Clip :=
  match clips with
  | [] => []
  | c :: rest => set_start t c :: place_from (t + duration c) rest
  end.

Fixpoint sum_durations (clips : list Clip) : Q :=
  match clips with
  | [] => 0
  | c :: rest => duration c + sum_durations rest
  end.

Inductive Method : Type := chain | compose.

Definition max_width (clips : list Clip) : Z :=
  fold_right (fun c m => Z.max (fst (size c)) m) 0%Z clips.
Definition max_height (clips : list Clip) : Z :=
  fold_right (fun c m => Z.max (snd (size c)) m) 0%Z clips.

(** [concatenate_videoclips(clips, method=...)] with the default padding
    0: clip [i] starts at [tt[i]] and the result lasts [tt[-1]].  With
    "compose" each clip is centred on a canvas of the largest width and
    height; with "chain" the frames are the clips' own. *)
Definition concatenate_videoclips (clips : list Clip) (m : Method)
  : option Composite :=
  match clips with
  | [] => None
  | c0 :: _ =>
      Some (match m with
            | chain =>
                mkComposite (place_from 0 clips) (size c0)
                            (sum_durations clips)
            | compose =>
                mkComposite
                  (map (fx position_center) (place_from 0 clips))
                  (max_width clips, max_height clips)
                  (sum_durations clips)
            end)
  end.

End MoviePy.

(** ** Python control flow over a world of files, uploads and prints *)

Module Py.

Import MoviePy.

(** Exceptions the scripts can meet.  [SystemExit] is the only one that
    [except Exception] does not catch. *)
Inductive exn : Type :=
| GoogleCloudError
| GoogleAuthError
| OSError
| IndexError
| ValueError
| RequestException
| CalledProcessError
| SystemExit.

Definition is_Exception (e : exn) : bool :=
  match e with SystemExit => false | _ => true end.

(** A printed line, tagged with the level its own text announces. *)
Inductive Msg : Type :=
| info (text : string)
| warning (text : string)
| error (text : string).

(** What the outside can observe of a run besides files and uploads:
    printed lines, HTTP requests to the generation service, sleeps and
    ffmpeg invocations. *)
Inductive Event : Type :=
| Print (m : Msg)
| PostPredict
| PostFetch (op_name : string)
| Sleep (seconds : Z)
| Ffmpeg (video1 video2 output : path) (transition_effect : string)
         (transition_duration offset : Q).

(** What an uploaded object holds. *)
Inductive Media : Type :=
| Rendered (c : Composite)
| LocalFile (p : path).

(** [fs] maps each existing directory to the names of its files. *)
Record World : Type := mkWorld {
  fs : gmap string (list string);
  uploads : list (string * Media);
  trace : list Event
}.

(** How a statement ends: normally, by raising, or by [return]. *)
Inductive Outcome (A : Type) : Type :=
| Normal (a : A)
| Raised (e : exn)
| Returned.
Arguments Normal {A} a.
Arguments Raised {A} e.
Arguments Returned {A}.

Definition M (A : Type) : Type := World -> Outcome A * World.

Definition ret {A} (a : A) : M A := fun w => (Normal a, w).
Definition raise {A} (e : exn) : M A := fun w => (Raised e, w).
Definition return_ {A} : M A := fun w => (Returned, w).

Definition bind {A B} (m : M A) (k : A -> M B) : M B :=
  fun w =>
    match m w with
    | (Normal a, w1) => k a w1
    | (Raised e, w1) => (Raised e, w1)
    | (Returned, w1) => (Returned, w1)
    end.

Notation "x <- m ;; k" := (bind m (fun x => k))
  (at level 100, m at level 60, right associativity, only parsing).
Notation "m ;;; k" := (bind m (fun _ => k))
  (at level 100, right associativity, only parsing).

Definition emit (evs : list Event) : M unit :=
  fun w => (Normal tt, mkWorld (fs w) (uploads w) (trace w ++ evs)).

Definition print (m : Msg) : M unit := emit [Print m].

(** Go on when [b] holds, raise [e] otherwise: a call that either
    succeeds or fails, as its collaborator decides. *)
Definition guard (b : bool) (e : exn) : M unit :=
  if b then ret tt else raise e.

Definition of_option {A} (o : option A) (e : exn) : M A :=
  match o with Some a => ret a | None => raise e end.

(** Running a pure step that may raise. *)
Definition of_sum {A} (r : exn + A) : M A :=
  match r with inr a => ret a | inl e => raise e end.

(** A [for] loop that builds a list. *)
Fixpoint mapM {A B} (f : A -> M B) (l : list A) : M (list B) :=
  match l with
  | [] => ret []
  | a :: l' => b <- f a ;; bs <- mapM f l' ;; ret (b :: bs)
  end.

(** [tempfile.mkdtemp()]: a directory that did not exist. *)
Definition mkdtemp : M string :=
  fun w =>
    let d := fresh (dom (fs w)) in
    (Normal d, mkWorld (<[d := []]> (fs w)) (uploads w) (trace w)).

(** [os.path.exists(d)] for a directory. *)
Definition dir_exists (d : string) : M bool :=
  fun w => (Normal (bool_decide (is_Some (fs w !! d))), w).

(** Whether the file [p] is present in the world [w]. *)
Definition has_file (w : World) (p : path) : bool :=
  match fs w !! fst p with
  | Some files => bool_decide (snd p ∈ files)
  | None => false
  end.

(** [os.path.exists(p)] for a file, also used for "can be opened". *)
Definition file_exists (p : path) : M bool :=
  fun w => (Normal (has_file w p), w).

(** [shutil.rmtree(d)]. *)
Definition rmtree (d : string) : M unit :=
  fun w => (Normal tt, mkWorld (delete d (fs w)) (uploads w) (trace w)).

(** Creating or overwriting the file [p]; the directory must exist. *)
Definition write_file (p : path) : M unit :=
  fun w =>
    match fs w !! fst p with
    | Some files =>
        (Normal tt,
         mkWorld (<[fst p := snd p :: files]> (fs w)) (uploads w) (trace w))
    | None => (Raised OSError, w)
    end.

(** [try: body / except Exception as e: handler(e) / finally: final].
    A [return] inside [body] still runs [final]; whatever [final]
    raises replaces the pending outcome. *)
Definition try_except_finally
  (body : M unit) (handler : exn -> M unit) (final : M unit) : M unit :=
  fun w =>
    let '(r, w1) := body w in
    let '(r1, w2) :=
      match r with
      | Raised e => if is_Exception e then handler e w1 else (Raised e, w1)
      | _ => (r, w1)
      end in
    match final w2 with
    | (Normal _, w3) => (r1, w3)
    | (r2, w3) => (r2, w3)
    end.

(** [try: body / finally: final], also the shape of a [with] block whose
    context manager cleans up on exit. *)
Definition try_finally {A} (body : M A) (final : M unit) : M A :=
  fun w =>
    let '(r, w1) := body w in
    match final w1 with
    | (Normal _, w2) => (r, w2)
    | (Raised e, w2) => (Raised e, w2)
    | (Returned, w2) => (Returned, w2)
    end.

(** Calling a function whose body is [m]: a [return] ends the call
    normally. *)
Definition call (m : M unit) : M unit :=
  fun w =>
    match m w with
    | (Returned, w1) => (Normal tt, w1)
    | rw => rw
    end.

(** [m] leaves the local file system as it found it. *)
Definition untouched {A} (m : M A) : Prop :=
  forall w r w', m w = (r, w') -> fs w' = fs w.

(** [m] changes the local file system inside the directory [d] only. *)
Definition confined (d : string) {A} (m : M A) : Prop :=
  forall w r w',
    m w = (r, w') -> forall d', d' <> d -> fs w' !! d' = fs w !! d'.

End Py.

(** ** The collaborators: bucket, decoder, renderer *)

Module Collab.

Import MoviePy Py.

(** Answers of the storage client, of moviepy's decoder and renderer. *)
Record Env : Type := mkEnv {
  client_ok : bool;
  listing : option (list string);
  download_ok : string -> bool;
  upload_ok : bool;
  probe : path -> option (Q * (Z * Z));
  render_ok : bool
}.

Section WithEnv.
Variable env : Env.

(** [storage.Client()] and [client.bucket(BUCKET_NAME)]. *)
Definition storage_bucket : M unit := guard (client_ok env) GoogleCloudError.

(** [bucket.list_blobs(prefix=SOURCE_PREFIX)], as blob names. *)
Definition list_blobs : M (list string) :=
  of_option (listing env) GoogleCloudError.

(** [blob.download_to_filename(local_path)]. *)
Definition download_to_filename (blob_name : string) (local_path : path)
  : M unit :=
  guard (download_ok env blob_name) GoogleCloudError ;;;
  write_file local_path.

(** [bucket.blob(name).upload_from_filename(path)]; [content] is what
    the file at [path] holds. *)
Definition upload_from_filename (name : string) (content : Media) : M unit :=
  guard (upload_ok env) GoogleCloudError ;;;
  fun w => (Normal tt,
            mkWorld (fs w) (uploads w ++ [(name, content)]) (trace w)).

(** [VideoFileClip(path)]. *)
Definition VideoFileClip (p : path) : M Clip :=
  exists_ <- file_exists p ;;
  guard exists_ OSError ;;;
  match probe env p with
  | Some (d, sz) => ret (mkClip p d sz 0%Q [])
  | None => raise OSError
  end.

(** [clip.write_videofile(path, ...)]. *)
Definition write_videofile (p : path) : M unit :=
  guard (render_ok env) OSError ;;;
  write_file p.

(** The test guarding [continue] in the download loop:
    [not blob.name.lower().endswith(('.mp4', '.mov', '.avi'))
     or blob.name.endswith('/')]. *)
Definition skipped (name : string) : bool :=
  (negb (PyStr.endswith_any (PyStr.lower name) [".mp4"; ".mov"; ".avi"])
   || PyStr.endswith name "/")%bool.

(** The download loop every moviepy script starts with. *)
Fixpoint download_loop (local_temp_dir : string) (blobs : list string)
  : M (list path) :=
  match blobs with
  | [] => ret []
  | name :: rest =>
      if skipped name
      then download_loop local_temp_dir rest
      else
        let file_name := PyStr.basename name in
        let local_path := (local_temp_dir, file_name) in
        download_to_filename name local_path ;;;
        print (info ("   - Downloaded " +:+ file_name)) ;;;
        downloaded_files <- download_loop local_temp_dir rest ;;
        ret (local_path :: downloaded_files)
  end.

(** [downloaded_files.sort()]: all paths share the directory, so the
    order is that of the file names. *)
Definition sort_paths (l : list path) : list path :=
  PyStr.sort_by snd l.

Definition DESTINATION_PREFIX : string := "CRED_exps/output_videos/".

(** The body shared by the moviepy scripts:
[[
local_temp_dir = tempfile.mkdtemp()
try:
    ... download ...
    if not downloaded_files: print(...); return
    downloaded_files.sort()
    final_clip = <stitch>
    final_clip.write_videofile(final_video_path, ...)
    ... upload ...
except Exception as e: print(...)
finally: [if os.path.exists(local_temp_dir):] shutil.rmtree(local_temp_dir)
]]
    [stitch] is the part that differs from script to script,
    [no_videos_text] the wording of the warning printed before the early
    [return]; [checked_cleanup] tells whether the [finally] block tests
    [os.path.exists] first. *)
Definition moviepy_pipeline
  (FINAL_VIDEO_NAME : string)
  (no_videos_text : string)
  (stitch : string -> list path -> M Composite)
  (checked_cleanup : bool) : M unit :=
  call (
    local_temp_dir <- mkdtemp ;;
    print (info ("Created temporary directory: " +:+ local_temp_dir)) ;;;
    try_except_finally
      (storage_bucket ;;;
       print (info "Downloading videos...") ;;;
       blobs <- list_blobs ;;
       downloaded_files <- download_loop local_temp_dir blobs ;;
       match downloaded_files with
       | [] => print (warning no_videos_text) ;;; return_
       | _ :: _ =>
           let downloaded_files := sort_paths downloaded_files in
           final_clip <- stitch local_temp_dir downloaded_files ;;
           let final_video_path := (local_temp_dir, FINAL_VIDEO_NAME) in
           print (info "Writing final video locally...") ;;;
           write_videofile final_video_path ;;;
           let destination_blob_name :=
             DESTINATION_PREFIX +:+ FINAL_VIDEO_NAME in
           print (info "Uploading final video...") ;;;
           upload_from_filename destination_blob_name
                                (Rendered final_clip) ;;;
           print (info "Process complete!")
       end)
      (fun e => print (error "An error occurred"))
      (if checked_cleanup
       then
         exists_ <- dir_exists local_temp_dir ;;
         if (exists_ : bool)
         then print (info "Cleaning up temporary directory") ;;;
              rmtree local_temp_dir
         else ret tt
       else
         print (info "Cleaning up temporary directory...") ;;;
         rmtree local_temp_dir)).

End WithEnv.

End Collab.

(** ** concatenation.py: hard cuts *)

Module Concatenation.

Import MoviePy Py Collab.

Definition FINAL_VIDEO_NAME : string := "concatenated_video_no_transition.mp4".

(** [final_clip = concatenate_videoclips(clips_to_stitch)]. *)
Definition schedule (clips_to_stitch : list Clip) : exn + Composite :=
  match concatenate_videoclips clips_to_stitch chain with
  | Some final_clip => inr final_clip
  | None => inl ValueError
  end.

Definition stitch (env : Env) (local_temp_dir : string)
  (downloaded_files : list path) : M Composite :=
  print (info "Loading and concatenating videos...") ;;;
  clips_to_stitch <- mapM (VideoFileClip env) downloaded_files ;;
  of_sum (schedule clips_to_stitch).

Definition process_gcs_videos_concat_only (env : Env) : M unit :=
  moviepy_pipeline env FINAL_VIDEO_NAME "No video files found. Exiting."
    (stitch env) true.

End Concatenation.

(** ** fade-in-out.py: fade out, then fade in, clips end to end *)

Module FadeInOut.

Import MoviePy Py Collab.
Local Open Scope Q_scope.

Definition FINAL_VIDEO_NAME : string := "concatenated_fade_video.mp4".
Definition TRANSITION_DURATION : Q := 2 # 10.

Section Schedule.
Variable transition_duration : Q.

(** One turn of the loop body on an already opened clip. *)
Definition apply_fades (i num_clips : nat) (clip : Clip) : Clip :=
  let clip := if (0 <? i)%nat then fx (fadein transition_duration) clip
              else clip in
  let clip := if (i <? num_clips - 1)%nat
              then fx (fadeout transition_duration) clip
              else clip in
  clip.

Fixpoint processed_from (i num_clips : nat) (clips : list Clip)
  : list Clip :=
  match clips with
  | [] => []
  | clip :: rest =>
      apply_fades i num_clips clip :: processed_from (S i) num_clips rest
  end.

(** The clips fed to [concatenate_videoclips(..., method="compose")]. *)
Definition schedule (clips : list Clip) : exn + Composite :=
  let processed_clips := processed_from 0 (length clips) clips in
  match concatenate_videoclips processed_clips compose with
  | Some final_clip => inr final_clip
  | None => inl ValueError
  end.

Section WithEnv.
Variable env : Env.

(** The loop as written: each file is opened inside its turn. *)
Fixpoint fade_loop (i num_clips : nat) (files : list path)
  : M (list Clip) :=
  match files with
  | [] => ret []
  | file_path :: rest =>
      clip <- VideoFileClip env file_path ;;
      let clip := apply_fades i num_clips clip in
      print (info ("   - Processed " +:+ snd file_path)) ;;;
      processed_clips <- fade_loop (S i) num_clips rest ;;
      ret (clip :: processed_clips)
  end.

Definition stitch (local_temp_dir : string)
  (downloaded_files : list path) : M Composite :=
  print (info "Applying transitions and stitching videos...") ;;;
  let num_clips := length downloaded_files in
  processed_clips <- fade_loop 0 num_clips downloaded_files ;;
  of_option (concatenate_videoclips processed_clips compose) ValueError.
End WithEnv.
End Schedule.

Definition process_gcs_videos (env : Env) : M unit :=
  moviepy_pipeline env FINAL_VIDEO_NAME
    "No video files found in the source directory. Exiting."
    (stitch TRANSITION_DURATION env) true.

End FadeInOut.

(** ** crossfade.py: the next clip fades in over the end of the timeline *)

Module Crossfade.

Import MoviePy Py Collab.
Local Open Scope Q_scope.

Definition FINAL_VIDEO_NAME : string := "concatenated_video_crossfade.mp4".
Definition TRANSITION_DURATION : Q := 5 # 10.

Section Schedule.
Variable transition_duration : Q.

(** [for i, clip in enumerate(clips)] over the state
    [(composited_clips_list, current_duration)]. *)
Fixpoint crossfade_loop (i : nat) (clips : list Clip)
  (composited_clips_list : list Clip) (current_duration : Q)
  : list Clip * Q :=
  match clips with
  | [] => (composited_clips_list, current_duration)
  | clip :: rest =>
      if (i =? 0)%nat then
        crossfade_loop (S i) rest
          (composited_clips_list ++ [set_start 0 clip]) (duration clip)
      else
        let start_time := current_duration - transition_duration in
        let clip_with_fade :=
          set_start start_time (fx (fadein transition_duration) clip) in
        crossfade_loop (S i) rest
          (composited_clips_list ++ [clip_with_fade])
          (current_duration + (duration clip - transition_duration))
  end.

Definition schedule (clips : list Clip) : exn + Composite :=
  let '(composited_clips_list, current_duration) :=
    crossfade_loop 0 clips [] 0 in
  match CompositeVideoClip composited_clips_list None with
  | Some c => inr (set_duration current_duration c)
  | None => inl IndexError
  end.

(** The script prints one line per clip after the first. *)
Definition processed_lines (clips : list Clip) : list Event :=
  map (fun clip => Print (info ("   - Processed " +:+ snd (filename clip))))
      (tl clips).

Definition stitch (env : Env) (local_temp_dir : string)
  (downloaded_files : list path) : M Composite :=
  print (info "Applying a robust crossfade transition...") ;;;
  clips <- mapM (VideoFileClip env) downloaded_files ;;
  emit (processed_lines clips) ;;;
  of_sum (schedule clips).
End Schedule.

Definition process_gcs_videos_with_crossfade (env : Env) : M unit :=
  moviepy_pipeline env FINAL_VIDEO_NAME "No video files found. Exiting."
    (stitch TRANSITION_DURATION env) true.

End Crossfade.

(** ** blend.py: fade out and fade in, overlapping *)

Module Blend.

Import MoviePy Py Collab.
Local Open Scope Q_scope.

Definition FINAL_VIDEO_NAME : string := "concatenated_video_blend.mp4".
Definition TRANSITION_DURATION : Q := 15 # 10.

Section Schedule.
Variable transition_duration : Q.

(** [for i in range(1, len(clips))], with [prev = clips[i-1]]. *)
Fixpoint blend_loop (prev : Clip) (rest : list Clip) : list Clip :=
  match rest with
  | [] => []
  | clip_i :: rest' =>
      let clip := fx (fadein transition_duration) clip_i in
      set_start (duration prev - transition_duration) clip
      :: blend_loop clip_i rest'
  end.

(** [l[-1] = x] on a non-empty list. *)
Definition set_last (l : list Clip) (x : Clip) : list Clip :=
  removelast l ++ [x].

Definition schedule (clips : list Clip) : exn + Composite :=
  match clips with
  | [] => inl IndexError
  | clip0 :: rest =>
      let clips_to_stitch :=
        fx (fadeout transition_duration) clip0 :: blend_loop clip0 rest in
      (* clips[-1] and clips[-2] *)
      match nth_error (rev clips) 0, nth_error (rev clips) 1 with
      | Some last_clip, Some before_last =>
          let clips_to_stitch :=
            set_last clips_to_stitch
              (set_start (duration before_last - transition_duration)
                         (fx (fadein transition_duration) last_clip)) in
          match CompositeVideoClip clips_to_stitch None with
          | Some final_clip => inr final_clip
          | None => inl IndexError
          end
      | _, _ => inl IndexError
      end
  end.

Definition stitch (env : Env) (local_temp_dir : string)
  (downloaded_files : list path) : M Composite :=
  print (info "Applying blend (crossfade) transitions...") ;;;
  clips <- mapM (VideoFileClip env) downloaded_files ;;
  of_sum (schedule clips).
End Schedule.

Definition process_gcs_videos_with_blend (env : Env) : M unit :=
  moviepy_pipeline env FINAL_VIDEO_NAME "No video files found. Exiting."
    (stitch TRANSITION_DURATION env) true.

End Blend.

(** ** slide.py: the next clip slides in from the right *)

Module Slide.

Import MoviePy Py Collab.
Local Open Scope Q_scope.

Definition FINAL_VIDEO_NAME : string := "concatenated_video_slide.mp4".
Definition TRANSITION_DURATION : Q := 2.

Section Schedule.
Variable transition_duration : Q.

(** The closure [slide_in_position(t)] for canvas width [w]: the
    horizontal coordinate, or [None] for 'center'.  The vertical
    coordinate is always 'center'. *)
Definition slide_in_position (w : Z) (t : Q) : option Q :=
  if Qlt_le_dec t transition_duration
  then Some (inject_Z w - (inject_Z w / transition_duration) * t)
  else None.

Fixpoint slide_loop (w : Z) (i : nat) (clips : list Clip)
  (composited_clips_list : list Clip) (current_duration : Q)
  : list Clip * Q :=
  match clips with
  | [] => (composited_clips_list, current_duration)
  | clip :: rest =>
      if (i =? 0)%nat then
        slide_loop w (S i) rest
          (composited_clips_list ++ [set_start 0 clip]) (duration clip)
      else
        let start_time := current_duration - transition_duration in
        let clip_with_slide :=
          set_start start_time
            (fx (position_slide w transition_duration) clip) in
        slide_loop w (S i) rest
          (composited_clips_list ++ [clip_with_slide])
          (current_duration + (duration clip - transition_duration))
  end.

Definition schedule (clips : list Clip) : exn + Composite :=
  match clips with
  | [] => inl IndexError
  | clip0 :: _ =>
      let video_size := size clip0 in
      let w := fst video_size in
      let '(composited_clips_list, current_duration) :=
        slide_loop w 0 clips [] 0 in
      match CompositeVideoClip composited_clips_list (Some video_size) with
      | Some c => inr (set_duration current_duration c)
      | None => inl IndexError
      end
  end.

(** One line per clip, the first included. *)
Definition processed_lines (clips : list Clip) : list Event :=
  map (fun clip => Print (info ("   - Processed " +:+ snd (filename clip))))
      clips.

Definition stitch (env : Env) (local_temp_dir : string)
  (downloaded_files : list path) : M Composite :=
  print (info "Applying slide transitions...") ;;;
  clips <- mapM (VideoFileClip env) downloaded_files ;;
  emit (processed_lines clips) ;;;
  of_sum (schedule clips).
End Schedule.

Definition process_gcs_videos_with_slide (env : Env) : M unit :=
  moviepy_pipeline env FINAL_VIDEO_NAME "No video files found. Exiting."
    (stitch TRANSITION_DURATION env) true.

End Slide.

(** ** wipe.py: the next clip is revealed by a moving mask *)

Module Wipe.

Import MoviePy Py Collab.
Local Open Scope Q_scope.

Definition FINAL_VIDEO_NAME : string := "concatenated_video_wipe.mp4".
Definition TRANSITION_DURATION : Q := 1.

Section Schedule.
Variable transition_duration : Q.

(** Python's [int(x)] on a float: truncation towards zero. *)
Definition int (x : Q) : Z := Z.quot (Qnum x) (Zpos (Qden x)).

(** The closure [create_wipe_mask(t)]: column [x] of the mask frame is
    white (255) when [create_wipe_mask video_size t x] holds.  The
    frame always has the size of the first clip. *)
Definition create_wipe_mask (video_size : Z * Z) (t : Q) (x : Z) : bool :=
  let pos := int (inject_Z (fst video_size) * (t / transition_duration)) in
  ((0 <? pos)%Z && (0 <=? x)%Z && (x <? pos)%Z
   && (x <? fst video_size)%Z)%bool.

Fixpoint wipe_loop (video_size : Z * Z) (i : nat) (clips : list Clip)
  (composited_clips_list : list Clip) (current_duration : Q)
  : list Clip * Q :=
  match clips with
  | [] => (composited_clips_list, current_duration)
  | clip :: rest =>
      if (i =? 0)%nat then
        wipe_loop video_size (S i) rest
          (composited_clips_list ++ [set_start 0 clip]) (duration clip)
      else
        let start_time := current_duration - transition_duration in
        let clip_with_wipe :=
          fx (mask_wipe video_size transition_duration)
             (set_start start_time clip) in
        wipe_loop video_size (S i) rest
          (composited_clips_list ++ [clip_with_wipe])
          (current_duration + (duration clip - transition_duration))
  end.

Definition schedule (clips : list Clip) : exn + Composite :=
  match clips with
  | [] => inl IndexError
  | clip0 :: _ =>
      let video_size := size clip0 in
      let '(composited_clips_list, current_duration) :=
        wipe_loop video_size 0 clips [] 0 in
      match CompositeVideoClip composited_clips_list (Some video_size) with
      | Some c => inr (set_duration current_duration c)
      | None => inl IndexError
      end
  end.

Definition processed_lines (clips : list Clip) : list Event :=
  map (fun clip => Print (info ("   - Processed " +:+ snd (filename clip))))
      clips.

Definition stitch (env : Env) (local_temp_dir : string)
  (downloaded_files : list path) : M Composite :=
  print (info "Applying wipe transitions...") ;;;
  clips <- mapM (VideoFileClip env) downloaded_files ;;
  emit (processed_lines clips) ;;;
  of_sum (schedule clips).
End Schedule.

Definition process_gcs_videos_with_wipe (env : Env) : M unit :=
  moviepy_pipeline env FINAL_VIDEO_NAME "No video files found. Exiting."
    (stitch TRANSITION_DURATION env) true.

End Wipe.

(** ** xfade.py: pairwise stitching with ffmpeg's xfade filter *)

Module Xfade.

Import MoviePy Py Collab.
Local Open Scope Q_scope.

Definition SOURCE_PREFIX : string := "CRED_exps/input_videos".
Definition FINAL_FILENAME : string := "final_video_with_xfade_transitions.mp4".

(** Answers of the local ffmpeg installation. *)
Record Tools : Type := mkTools {
  which_ffmpeg : bool;
  which_ffprobe : bool;
  ffprobe : path -> option Q;
  ffmpeg_ok : path -> bool
}.

Section WithEnv.
Variable env : Env.
Variable tools : Tools.

(** [exit()] raises [SystemExit]. *)
Definition check_for_ffmpeg : M unit :=
  if (negb (which_ffmpeg tools) || negb (which_ffprobe tools))%bool
  then
    print (error "CRITICAL ERROR: FFmpeg or ffprobe not found.") ;;;
    print (info "Please install FFmpeg and ensure it's in your system's PATH.") ;;;
    raise SystemExit
  else ret tt.

(** The filter of [list_blobs_in_folder]:
    [blob.name != folder_name and
     blob.name.lower().endswith(video_extensions)]. *)
Definition is_video_blob (folder_name name : string) : bool :=
  let video_extensions := [".mp4"; ".mov"; ".avi"; ".mkv"; ".webm"] in
  (negb (String.eqb name folder_name)
   && PyStr.endswith_any (PyStr.lower name) video_extensions)%bool.

Definition list_blobs_in_folder (folder_name : string) : M (list string) :=
  storage_bucket env ;;;
  blobs <- list_blobs env ;;
  let video_blobs := List.filter (is_video_blob folder_name) blobs in
  ret (PyStr.sort_by (fun name => name) video_blobs).

Definition download_blob (blob : string) (destination_dir : string)
  : M path :=
  let file_name := PyStr.basename blob in
  let destination_path := (destination_dir, file_name) in
  download_to_filename env blob destination_path ;;;
  print (info ("Downloaded " +:+ blob)) ;;;
  ret destination_path.

Definition upload_blob (source_file_path : path)
  (destination_blob_name : string) : M unit :=
  storage_bucket env ;;;
  upload_from_filename env destination_blob_name
                       (LocalFile source_file_path) ;;;
  print (info "Uploaded").

(** [float(result.stdout)] raises [ValueError] when ffprobe printed no
    number. *)
Definition get_video_duration (video_path : path) : M Q :=
  of_option (ffprobe tools video_path) ValueError.

Definition stitch_two_videos (video1_path video2_path output_path : path)
  (transition_effect : string) (transition_duration : Q) : M unit :=
  duration1 <- get_video_duration video1_path ;;
  let offset := duration1 - transition_duration in
  emit [Ffmpeg video1_path video2_path output_path transition_effect
               transition_duration offset] ;;;
  guard (ffmpeg_ok tools output_path) CalledProcessError ;;;
  write_file output_path ;;;
  print (info ("Stitched " +:+ snd video1_path +:+ " and "
               +:+ snd video2_path)).

(** [for i in range(1, len(local_video_paths))] over
    [current_video_path]. *)
Fixpoint stitch_loop (temp_dir : string) (i : nat)
  (current_video_path : path) (rest : list path) : M path :=
  match rest with
  | [] => ret current_video_path
  | next_video_path :: rest' =>
      let intermediate_output_path :=
        (temp_dir, "temp_stitch_" +:+ PyStr.str_nat i +:+ ".mp4") in
      stitch_two_videos current_video_path next_video_path
                        intermediate_output_path "fade" (6 # 10) ;;;
      stitch_loop temp_dir (S i) intermediate_output_path rest'
  end.

Definition main : M unit :=
  call (
    check_for_ffmpeg ;;;
    print (info "Listing videos...") ;;;
    video_blobs <- list_blobs_in_folder SOURCE_PREFIX ;;
    if (length video_blobs <? 2)%nat then
      print (error "Error: Found fewer than 2 videos. Need at least 2 to stitch.") ;;;
      return_
    else
      print (info "Found videos to stitch.") ;;;
      (* with tempfile.TemporaryDirectory() as temp_dir: *)
      (temp_dir <- mkdtemp ;;
       try_finally
         (print (info ("Created temporary directory: " +:+ temp_dir)) ;;;
          local_video_paths <-
            mapM (fun blob => download_blob blob temp_dir) video_blobs ;;
          match local_video_paths with
          | [] => raise IndexError
          | first :: rest =>
              final_video_path <- stitch_loop temp_dir 1 first rest ;;
              print (info "Final stitched video created") ;;;
              let destination_blob_name :=
                DESTINATION_PREFIX +:+ FINAL_FILENAME in
              upload_blob final_video_path destination_blob_name
          end)
         (rmtree temp_dir)) ;;;
      print (info "Process complete. Temporary files have been deleted.")).

End WithEnv.

End Xfade.

(** ** veo2_interpolation.py: a generated bridge clip between two clips *)

Module Veo2.

Import MoviePy Py Collab.
Local Open Scope Q_scope.

Definition FINAL_VIDEO_NAME : string :=
  "final_video_with_interpolated_transitions.mp4".
Definition TRANSITION_SPEED : Q := 5.
Definition INTERPOLATION_PROMPT : string :=
  "Smoothly transition from the first slate to the last slate without making the characters move too much".

Definition max_iterations : nat := 600.
Definition interval_sec : Z := 10.

(** Answer to the [predictLongRunning] request: [raise_for_status]
    raised, the request itself failed, anything else went wrong, or the
    operation started (with the ['name'] field of the reply, if any). *)
Inductive SubmitReply : Type :=
| SubmitHTTPError
| SubmitRequestError
| SubmitOtherError
| Initiated (name : option string).

(** Answer to one [fetchPredictOperation] request: a
    [requests.exceptions.RequestException], another exception, a body
    whose ["done"] is missing or false, or a body with ["done"] true.
    For the last, [videos] is [None] when ["response"]["videos"] is
    missing, else the ["gcsUri"] field (if any) of each listed video. *)
Inductive PollReply : Type :=
| PollRequestError
| PollOtherError
| NotDone
| Done (videos : option (list (option string))).

(** The remote generation service as seen by one call. *)
Record Service : Type := mkService {
  auth_ok : bool;
  submit : SubmitReply;
  poll : nat -> PollReply
}.

(** How the polling [for] loop is left. *)
Inductive LoopExit : Type :=
| ReturnedUri (generated_videos_uri : option string)
| Broke
| Exhausted.

(** [for i in range(max_iterations)], with [remaining] turns to go.
    The events list what the loop does, in order. *)
Fixpoint poll_loop (poll : nat -> PollReply) (op_name : string)
  (i remaining : nat) : LoopExit * list Event :=
  match remaining with
  | O => (Exhausted, [])
  | S remaining' =>
      match poll i with
      | PollRequestError =>
          (Broke, [PostFetch op_name;
                   Print (error "ERROR: Polling failed for operation")])
      | PollOtherError =>
          (Broke, [PostFetch op_name;
                   Print (error "ERROR: An unexpected error occurred during polling")])
      | NotDone =>
          let '(exit, events) := poll_loop poll op_name (S i) remaining' in
          (exit,
           PostFetch op_name
           :: Print (info ("Polling operation, iteration "
                           +:+ PyStr.str_nat (i + 1) +:+ ". Not done yet."))
           :: Sleep interval_sec
           :: events)
      | Done None =>
          (Broke, [PostFetch op_name;
                   Print (info "SUCCESS (LRO Complete)");
                   Print (error "ERROR: KeyError during polling")])
      | Done (Some []) =>
          (Broke, [PostFetch op_name;
                   Print (info "SUCCESS (LRO Complete)");
                   Print (error "ERROR: An unexpected error occurred during polling")])
      | Done (Some (video0 :: _)) =>
          (ReturnedUri video0,
           [PostFetch op_name;
            Print (info "SUCCESS (LRO Complete)");
            Print (info "Generated video available")])
      end
  end.

(** What [k] consecutive turns answered "not done" do, from turn [i] on:
    a status request, a printed line and a pause, [k] times. *)
Fixpoint waiting (op_name : string) (i k : nat) : list Event :=
  match k with
  | O => []
  | S k' =>
      PostFetch op_name
      :: Print (info ("Polling operation, iteration "
                      +:+ PyStr.str_nat (i + 1) +:+ ". Not done yet."))
      :: Sleep interval_sec
      :: waiting op_name (S i) k'
  end.

(** The MIME type chosen from [os.path.splitext(path)[1].lower()]: a
    name such as [.png] or [..jpg], with nothing but dots before its last
    dot, has no extension and is refused. *)
Definition mime_type (p : path) : option string :=
  let image_ext := PyStr.lower (PyStr.splitext_ext (snd p)) in
  if String.eqb image_ext ".png" then Some "image/png"
  else if existsb (String.eqb image_ext) [".jpg"; ".jpeg"]
       then Some "image/jpeg"
  else None.

Definition interpolate_video_veo2 (svc : Service)
  (start_image_path end_image_path : path) (prompt_text : string)
  (output_local_video_path : string) : M (option string) :=
  print (info "Performing Veo 2 Interpolation") ;;;
  start_readable <- file_exists start_image_path ;;
  end_readable <- file_exists end_image_path ;;
  if negb (start_readable && end_readable) then
    print (error "ERROR: Failed to read and encode local image files to base64") ;;;
    ret None
  else
    (* headers = get_auth_headers(), outside any try block *)
    guard (auth_ok svc) GoogleAuthError ;;;
    match mime_type start_image_path with
    | None =>
        print (error "ERROR: Unsupported file extension for start image") ;;;
        ret None
    | Some start_mime_type =>
    match mime_type end_image_path with
    | None =>
        print (error "ERROR: Unsupported file extension for end image") ;;;
        ret None
    | Some end_mime_type =>
        emit [PostPredict] ;;;
        match submit svc with
        | SubmitHTTPError =>
            print (error "ERROR: HTTP Error during Veo 2 API call (with bytes)") ;;;
            print (info "This may indicate the API does not support byte content for images, expecting gcsUri.") ;;;
            ret None
        | SubmitRequestError =>
            print (error "ERROR: Network or other Request Error during Veo 2 API call (with bytes)") ;;;
            ret None
        | SubmitOtherError =>
            print (error "ERROR: An unexpected error occurred during Veo 2 API call (with bytes)") ;;;
            ret None
        | Initiated name =>
            let op_name := default "N/A" name in
            print (info ("SUCCESS (LRO Initiated): Veo 2 API call successful. Operation: "
                         +:+ op_name)) ;;;
            let '(exit, events) :=
              poll_loop (poll svc) op_name 0 max_iterations in
            emit events ;;;
            match exit with
            | ReturnedUri generated_videos_uri => ret generated_videos_uri
            | Broke | Exhausted =>
                print (error "ERROR: Polling timed out for operation after 600 attempts.") ;;;
                ret None
            end
        end
    end
    end.

(** What a call that got as far as starting the operation returns and
    leaves in the trace, given how its polling loop ended. *)
Definition job_result (exit : LoopExit) : option string :=
  match exit with
  | ReturnedUri generated_videos_uri => generated_videos_uri
  | Broke | Exhausted => None
  end.

Definition job_events (op_name : string) (exit : LoopExit)
  (events : list Event) : list Event :=
  [Print (info "Performing Veo 2 Interpolation");
   PostPredict;
   Print (info ("SUCCESS (LRO Initiated): Veo 2 API call successful. Operation: "
                +:+ op_name))]
  ++ events
  ++ match exit with
     | ReturnedUri _ => []
     | Broke | Exhausted =>
         [Print (error "ERROR: Polling timed out for operation after 600 attempts.")]
     end.

(** The operation of [svc] is started and its polling loop is left by
    [break] (the job failed) or by running out of turns (it timed out). *)
Definition job_fails (svc : Service) : Prop :=
  auth_ok svc = true
  /\ exists name,
       submit svc = Initiated name
       /\ let exit :=
            fst (poll_loop (poll svc) (default "N/A" name) 0 max_iterations) in
          exit = Broke \/ exit = Exhausted.

(** The line printed when the transition of a pair is given up. *)
Definition skipping_line : Event :=
  Print (warning "WARNING: Veo 2 interpolation failed. Skipping this transition.").

(** Python truth of a [str | None]. *)
Definition truthy (uri : option string) : bool :=
  match uri with
  | Some s => negb (String.eqb s EmptyString)
  | None => false
  end.

(** What the run meets at each adjacent pair [i]: whether cv2 could read
    the two boundary frames, the generation service, and whether the
    generated clip could be downloaded. *)
Record Bridge : Type := mkBridge {
  success_A : nat -> bool;
  success_B : nat -> bool;
  service : nat -> Service;
  transition_download_ok : nat -> bool
}.

Section WithEnv.
Variable env : Env.
Variable bridge : Bridge.
Variable local_temp_dir : string.

(** The body of [for i in range(len(clips) - 1)] after
    [final_sequence.append(clip_A)]: the clips it appends. *)
Definition transition_step (i : nat) (clip_A clip_B : Clip)
  : M (list Clip) :=
  print (info "Processing transition") ;;;
  let frame_A_path :=
    (local_temp_dir, "frame_A_end_" +:+ PyStr.str_nat i +:+ ".png") in
  (if success_A bridge i then write_file frame_A_path else ret tt) ;;;
  let frame_B_path :=
    (local_temp_dir, "frame_B_start_" +:+ PyStr.str_nat i +:+ ".png") in
  (if success_B bridge i then write_file frame_B_path else ret tt) ;;;
  if negb (success_A bridge i && success_B bridge i) then
    print (warning "WARNING: Failed to extract frames. Skipping transition.") ;;;
    ret []
  else
    let transition_output_gcs_path :=
      DESTINATION_PREFIX +:+ "transitions/transition_" +:+ PyStr.str_nat i in
    transition_gcs_uri <-
      interpolate_video_veo2 (service bridge i) frame_A_path frame_B_path
        INTERPOLATION_PROMPT transition_output_gcs_path ;;
    if negb (truthy transition_gcs_uri) then
      print (warning "WARNING: Veo 2 interpolation failed. Skipping this transition.") ;;;
      ret []
    else
      storage_bucket env ;;;
      let local_transition_path :=
        (local_temp_dir, "transition_" +:+ PyStr.str_nat i +:+ ".mp4") in
      print (info "Downloading generated transition") ;;;
      guard (transition_download_ok bridge i) GoogleCloudError ;;;
      write_file local_transition_path ;;;
      exists_ <- file_exists local_transition_path ;;
      if negb exists_ then
        print (warning "WARNING: Failed to download transition video. Skipping.") ;;;
        ret []
      else
        transition_clip <- VideoFileClip env local_transition_path ;;
        let sped_up_transition :=
          fx_speedx TRANSITION_SPEED transition_clip in
        ret [sped_up_transition].

(** [for i in range(len(clips) - 1)]: [clips[i]] followed by what the
    pair [(clips[i], clips[i+1])] contributes. *)
Fixpoint transitions_loop (i : nat) (clips : list Clip)
  : M (list Clip) :=
  match clips with
  | clip_A :: ((clip_B :: _) as rest) =>
      appended <- transition_step i clip_A clip_B ;;
      final_sequence <- transitions_loop (S i) rest ;;
      ret (clip_A :: appended ++ final_sequence)
  | _ => ret []
  end.

(** The loop, then [final_sequence.append(clips[-1])]. *)
Definition build_final_sequence (clips : list Clip) : M (list Clip) :=
  final_sequence <- transitions_loop 0 clips ;;
  last_clip <- of_option (last clips) IndexError ;;
  ret (final_sequence ++ [last_clip]).

Definition stitch (downloaded_files : list path) : M Composite :=
  print (info "Processing videos and generating transitions...") ;;;
  clips <- mapM (VideoFileClip env) downloaded_files ;;
  final_sequence <- build_final_sequence clips ;;
  print (info "Concatenating final video...") ;;;
  of_option (concatenate_videoclips final_sequence chain) ValueError.

End WithEnv.

Definition process_gcs_videos (env : Env) (bridge : Bridge) : M unit :=
  moviepy_pipeline env FINAL_VIDEO_NAME "No video files found. Exiting."
    (stitch env bridge) false.

End Veo2.

(** ** The timeline seen across the scripts *)

Module Timeline.

Import MoviePy Py.
Local Open Scope Q_scope.

(** The transition kinds that shorten the timeline by overlapping, each
    with the script that implements it. *)
Inductive OverlapKind : Type := Fade | Crossfade | Slide | Wipe.

Definition plan (kind : OverlapKind) (d : Q) (clips : list Clip)
  : exn + Composite :=
  match kind with
  | Fade => FadeInOut.schedule d clips
  | Crossfade => Crossfade.schedule d clips
  | Slide => Slide.schedule d clips
  | Wipe => Wipe.schedule d clips
  end.

(** [N] as a rational. *)
Definition Qnat (n : nat) : Q := inject_Z (Z.of_nat n).

(** How long before the end of [a] the clip [b] starts. *)
Definition overlap (a b : Clip) : Q := end_ a - start b.

(** A relation holding between every two neighbours of a list. *)
Fixpoint neighbours (P : Clip -> Clip -> Prop) (l : list Clip) : Prop :=
  match l with
  | a :: ((b :: _) as rest) => P a b /\ neighbours P rest
  | _ => True
  end.

(** The plan [r] is a success and holds the single segment [segment]. *)
Definition one_segment (segment : Clip) (r : exn + Composite) : Prop :=
  exists p, r = inr p
            /\ layers p = [segment]
            /\ comp_duration p == duration segment.

(** The status requests among the events, the pauses among the events,
    and the events without the printed lines. *)
Definition is_status_request (e : Event) : bool :=
  match e with PostFetch _ => true | _ => false end.

Definition status_requests (events : list Event) : nat :=
  length (List.filter is_status_request events).

Definition is_print (e : Event) : bool :=
  match e with Print _ => true | _ => false end.

Definition silent (events : list Event) : list Event :=
  List.filter (fun e => negb (is_print e)) events.

Definition is_error_line (e : Event) : bool :=
  match e with Print (error _) => true | _ => false end.

End Timeline.

(** ** Closed forms used to describe what the loops produce *)

Module Placement.

Import MoviePy Py.
Local Open Scope Q_scope.

(** [layers] holds the clips of [clips] in order, each with its own
    duration, clip [i] starting [i] times [d] before the sum of the
    durations of the clips in front of it. *)
Definition staggered (d : Q) (clips layers : list Clip) : Prop :=
  length layers = length clips
  /\ forall (i : nat) (c : Clip),
       clips !! i = Some c ->
       exists x, layers !! i = Some x
                 /\ filename x = filename c
                 /\ duration x = duration c
                 /\ size x = size c
                 /\ start x
                    == sum_durations (take i clips)
                       - inject_Z (Z.of_nat i) * d.

End Placement.

(** ** More readings of the trace *)

Module Observed.

Import MoviePy Py.

(** The seconds spent in [time.sleep]. *)
Fixpoint pauses (events : list Event) : Z :=
  match events with
  | [] => 0
  | Sleep seconds :: rest => seconds + pauses rest
  | _ :: rest => pauses rest
  end.

(** The HTTP requests sent to the generation service. *)
Definition is_request (e : Event) : bool :=
  match e with PostPredict | PostFetch _ => true | _ => false end.

Definition requests (events : list Event) : list Event :=
  List.filter is_request events.

(** The ffmpeg invocations: first input, second input, output. *)
Fixpoint ffmpeg_runs (events : list Event) : list (path * path * path) :=
  match events with
  | [] => []
  | Ffmpeg video1 video2 output _ _ _ :: rest =>
      (video1, video2, output) :: ffmpeg_runs rest
  | _ :: rest => ffmpeg_runs rest
  end.

End Observed.

(** ** What a step may do to the bucket and to its caller *)

Module Conduct.

Import MoviePy Py.

(** [m] uploads nothing. *)
Definition offline {A} (m : M A) : Prop :=
  forall w r w', m w = (r, w') -> uploads w' = uploads w.

(** Whatever [m] raises derives from [Exception], so that
    [except Exception] catches it. *)
Definition catchable {A} (m : M A) : Prop :=
  forall w r w' e, m w = (r, w') -> r = Raised e -> is_Exception e = true.

(** [m] uploads at most one object, named [name], and only when it ends
    normally. *)
Definition uploads_once (name : string) {A} (m : M A) : Prop :=
  forall w r w',
    m w = (r, w') ->
    uploads w' = uploads w
    \/ ((exists a, r = Normal a)
        /\ exists content, uploads w' = uploads w ++ [(name, content)]).

End Conduct.

(** ** What a run works on *)

Module Inputs.

Import MoviePy Py Collab.

(** The local files of a run of a moviepy script that listed [blobs] and
    downloaded into [local_temp_dir], after [downloaded_files.sort()]. *)
Definition local_files (local_temp_dir : string) (blobs : list string)
  : list path :=
  sort_paths
    (map (fun name => (local_temp_dir, PyStr.basename name))
         (List.filter (fun name => negb (skipped name)) blobs)).

(** [c] is what [VideoFileClip(p)] returns when the decoder accepts the
    file: its duration and size are the probed ones, it starts at 0 and
    carries no effect. *)
Definition opened (env : Env) (p : path) (c : Clip) : Prop :=
  probe env p = Some (duration c, size c)
  /\ filename c = p /\ start c = 0%Q /\ effects c = [].

(** How a stitching step ends, from what its placement step returns. *)
Definition outcome_of (r : exn + Composite) : Outcome Composite :=
  match r with inr final_clip => Normal final_clip | inl e => Raised e end.

End Inputs.

(** ** resolution.py: every file resized to a height of 1080 *)

Module Resolution.

Import MoviePy Py Collab.

Definition DESTINATION_PREFIX : string := "CRED_exps/output_videos/1080p/".

(** The filter of the list comprehension:
    [not blob.name.endswith('/')]. *)
Definition to_process (blobs : list string) : list string :=
  List.filter (fun name => negb (PyStr.endswith name "/")) blobs.

(** What the script uploads for the blob [blob_name]: the resized file
    written in the temporary directory, under the base name of the
    blob. *)
Definition upload_of (local_temp_dir blob_name : string) : string * Media :=
  let video_filename := PyStr.basename blob_name in
  (DESTINATION_PREFIX +:+ video_filename,
   LocalFile (local_temp_dir, "resized_" +:+ video_filename)).

Section WithEnv.
Variable env : Env.

(** The body of [for blob in blobs_to_process].  The resized clip
    [clip.fx(vfx.resize, height=1080)] is what [write_videofile]
    renders. *)
Definition process_blob (local_temp_dir blob_name : string) : M unit :=
  let video_filename := PyStr.basename blob_name in
  let local_input_path := (local_temp_dir, video_filename) in
  let local_output_path := (local_temp_dir, "resized_" +:+ video_filename) in
  print (info ("Downloading " +:+ video_filename)) ;;;
  download_to_filename env blob_name local_input_path ;;;
  print (info ("Resizing " +:+ video_filename +:+ " to 1080p...")) ;;;
  clip <- VideoFileClip env local_input_path ;;
  write_videofile env local_output_path ;;;
  let destination_blob_name := DESTINATION_PREFIX +:+ video_filename in
  print (info "Uploading resized video") ;;;
  upload_from_filename env destination_blob_name
                       (LocalFile local_output_path) ;;;
  print (info ("Successfully processed and uploaded " +:+ video_filename)).

Fixpoint process_all (local_temp_dir : string) (blobs : list string)
  : M unit :=
  match blobs with
  | [] => ret tt
  | blob_name :: rest =>
      process_blob local_temp_dir blob_name ;;;
      process_all local_temp_dir rest
  end.

Definition resize_videos_in_gcs : M unit :=
  call (
    local_temp_dir <- mkdtemp ;;
    print (info ("Created temporary directory: " +:+ local_temp_dir)) ;;;
    try_except_finally
      (storage_bucket env ;;;
       blobs <- list_blobs env ;;
       let blobs_to_process := to_process blobs in
       match blobs_to_process with
       | [] => print (warning "No video files found") ;;; return_
       | _ :: _ =>
           print (info "Found videos to process.") ;;;
           process_all local_temp_dir blobs_to_process
       end)
      (fun e => print (error "An error occurred"))
      (print (info "Cleaning up temporary directory...") ;;;
       rmtree local_temp_dir)).

End WithEnv.

End Resolution.

(** ** aspect_ratio.py: 16:9 cropped to 9:16, 9:16 put on a 16:9 canvas *)

Module AspectRatio.

Import MoviePy Py Collab.
Local Open Scope Q_scope.

Definition DESTINATION_PREFIX : string :=
  "CRED_exps/output_videos/altered_aspect_ratio/".

(** What is done to a clip: [clip.crop(x1=x1, width=crop_width)], or
    the clip centred on a black [ColorClip] of size [target_size]. *)
Inductive Conversion : Type :=
| Crop (x1 crop_width : Q)
| Pillarbox (target_size : Z * Z).

(** *** The test of the script, on Python floats *)

(** [float(z)] for a Python [int]; exact as long as the integer has at
    most 53 bits, which the width and height of a frame have. *)
Definition float_of_int (z : Z) : float :=
  if (z <? 0)%Z then PrimFloat.opp (PrimFloat.of_uint63 (Uint63.of_Z (- z)))
  else PrimFloat.of_uint63 (Uint63.of_Z z).

(** [a / b] on two Python [int]s of at most 53 bits, [b] not 0: the
    quotient rounded to the nearest double. *)
Definition truediv (a b : Z) : float :=
  PrimFloat.div (float_of_int a) (float_of_int b).

(** [math.isclose(a, b, rel_tol=rel_tol)], with the default
    [abs_tol = 0.0], as mathmodule.c computes it. *)
Definition math_isclose (a b rel_tol : float) : bool :=
  let abs_tol := 0%float in
  if PrimFloat.eqb a b then true
  else if PrimFloat.is_infinity a || PrimFloat.is_infinity b then false
  else
    let diff := PrimFloat.abs (PrimFloat.sub b a) in
    PrimFloat.leb diff (PrimFloat.abs (PrimFloat.mul rel_tol b))
    || PrimFloat.leb diff (PrimFloat.abs (PrimFloat.mul rel_tol a))
    || PrimFloat.leb diff abs_tol.

(** The literal [0.02] of [rel_tol=0.02]: the double nearest to 2/100. *)
Definition rel_tol : float := 0x1.47ae147ae147bp-6%float.

(** The choice the script makes for a clip of size [(w, h)] with [h] not
    0: the [if]/[elif]/[else] on [ar = w / h].  The crop window is kept
    as exact rationals. *)
Definition processed (size : Z * Z) : option Conversion :=
  let '(w, h) := size in
  let ar := truediv w h in
  if math_isclose ar (truediv 16 9) rel_tol then
    let crop_width := inject_Z h * (9 / 16) in
    let x1 := inject_Z w / 2 - crop_width / 2 in
    Some (Crop x1 crop_width)
  else if math_isclose ar (truediv 9 16) rel_tol then
    let target_size := (h, w) in
    Some (Pillarbox target_size)
  else None.

(** *** The same test read over exact rationals

    [isclose] and [convert] are the test and the choice with every float
    replaced by the rational it stands for.  They are what the geometry
    of the conversion is stated on.  They are not what a run decides by:
    at a ratio exactly 2 percent off (784 by 450, for one) the exact test
    holds while the script's test on doubles fails. *)
Definition isclose (a b rel_tol : Q) : bool :=
  Qle_bool (Qabs (a - b)) (rel_tol * Qmax (Qabs a) (Qabs b)).

Definition convert (size : Z * Z) : option Conversion :=
  let '(w, h) := size in
  let ar := inject_Z w / inject_Z h in
  if isclose ar (16 / 9) (2 # 100) then
    let crop_width := inject_Z h * (9 / 16) in
    let x1 := inject_Z w / 2 - crop_width / 2 in
    Some (Crop x1 crop_width)
  else if isclose ar (9 / 16) (2 # 100) then
    let target_size := (h, w) in
    Some (Pillarbox target_size)
  else None.

(** What the script uploads for the blob [blob_name]. *)
Definition upload_of (local_temp_dir blob_name : string) : string * Media :=
  let video_filename := PyStr.basename blob_name in
  (DESTINATION_PREFIX +:+ video_filename,
   LocalFile (local_temp_dir, "processed_" +:+ video_filename)).

Section WithEnv.
Variable env : Env.

(** The body of [for blob in blobs_to_process]. *)
Definition process_blob (local_temp_dir blob_name : string) : M unit :=
  if PyStr.endswith blob_name "/" then ret tt
  else
    let video_filename := PyStr.basename blob_name in
    let local_input_path := (local_temp_dir, video_filename) in
    print (info ("Downloading " +:+ video_filename)) ;;;
    download_to_filename env blob_name local_input_path ;;;
    clip <- VideoFileClip env local_input_path ;;
    let '(w, h) := size clip in
    if (h =? 0)%Z then
      print (info "SKIPPING: Invalid video dimensions") ;;;
      ret tt
    else
      let ar := truediv w h in
      (if math_isclose ar (truediv 16 9) rel_tol
       then print (info "Processing 16:9 video -> 9:16 (Center Crop)...")
       else if math_isclose ar (truediv 9 16) rel_tol
       then print (info "Processing 9:16 video -> 16:9 (Pillarbox)...")
       else print (info "SKIPPING: not 16:9 or 9:16")) ;;;
      match processed (w, h) with
      | Some processed_clip =>
          let local_output_path :=
            (local_temp_dir, "processed_" +:+ video_filename) in
          print (info "Writing processed video locally...") ;;;
          write_videofile env local_output_path ;;;
          let destination_blob_name :=
            DESTINATION_PREFIX +:+ video_filename in
          print (info "Uploading") ;;;
          upload_from_filename env destination_blob_name
                               (LocalFile local_output_path) ;;;
          print (info ("Successfully processed and uploaded "
                       +:+ video_filename))
      | None => ret tt
      end.

Fixpoint process_all (local_temp_dir : string) (blobs : list string)
  : M unit :=
  match blobs with
  | [] => ret tt
  | blob_name :: rest =>
      process_blob local_temp_dir blob_name ;;;
      process_all local_temp_dir rest
  end.

Definition process_aspect_ratio_in_gcs : M unit :=
  call (
    local_temp_dir <- mkdtemp ;;
    print (info ("Created temporary directory: " +:+ local_temp_dir)) ;;;
    try_except_finally
      (storage_bucket env ;;;
       blobs_to_process <- list_blobs env ;;
       print (info "Found files to check in source folder.") ;;;
       process_all local_temp_dir blobs_to_process)
      (fun e => print (error "An error occurred"))
      (print (info "Cleaning up temporary directory...") ;;;
       rmtree local_temp_dir)).

(** Whether a run that gets as far as the blob [blob_name] without
    failing uploads something for it. *)
Definition converted (local_temp_dir blob_name : string) : bool :=
  (negb (PyStr.endswith blob_name "/")
   && match probe env (local_temp_dir, PyStr.basename blob_name) with
      | Some (_, (w, h)) =>
          negb (h =? 0)%Z
          && match processed (w, h) with Some _ => true | None => false end
      | None => false
      end)%bool.

End WithEnv.

End AspectRatio.

(** * Properties *)

(** ** Sanity checks of the string helpers *)

Example basename_example :
  PyStr.basename "CRED_exps/input_videos/a.mp4" = "a.mp4".
Proof. reflexivity. Qed.

Example skipped_examples :
  Collab.skipped "CRED_exps/input_videos/" = true
  /\ Collab.skipped "CRED_exps/input_videos/A.MP4" = false
  /\ Collab.skipped "CRED_exps/input_videos/notes.txt" = true.
Proof. repeat split; reflexivity. Qed.

Example sort_example :
  PyStr.sort_by (fun s => s) ["b.mp4"; "a.mp4"; "c.mp4"]
  = ["a.mp4"; "b.mp4"; "c.mp4"].
Proof. reflexivity. Qed.

(** ** Total duration of the overlap-based schedules *)

Section Totals.

Import MoviePy Py Timeline.
Local Open Scope Q_scope.

Lemma Qnat_S (n : nat) : Qnat (S n) == Qnat n + 1.
Proof.
  unfold Qnat. rewrite Nat2Z.inj_succ, <- Z.add_1_r, inject_Z_plus.
  reflexivity.
Qed.

(** The three accumulating loops share one proof: unfold one turn, use
    the induction hypothesis at the new accumulator, finish in [Q]. *)
Ltac loop_total IH :=
  cbn [snd length sum_durations]; rewrite ?IH, ?Qnat_S;
  cbn [snd length sum_durations]; try ring.

Lemma crossfade_loop_total (d : Q) (rest : list Clip) :
  forall (i : nat) (comp : list Clip) (cur : Q),
    snd (Crossfade.crossfade_loop d (S i) rest comp cur)
    == cur + sum_durations rest - Qnat (length rest) * d.
Proof.
  induction rest as [|c rest IH]; intros i comp cur.
  - cbn. unfold Qnat. cbn. ring.
  - cbn [Crossfade.crossfade_loop Nat.eqb]. loop_total IH.
Qed.

Lemma slide_loop_total (d : Q) (w : Z) (rest : list Clip) :
  forall (i : nat) (comp : list Clip) (cur : Q),
    snd (Slide.slide_loop d w (S i) rest comp cur)
    == cur + sum_durations rest - Qnat (length rest) * d.
Proof.
  induction rest as [|c rest IH]; intros i comp cur.
  - cbn. unfold Qnat. cbn. ring.
  - cbn [Slide.slide_loop Nat.eqb]. loop_total IH.
Qed.

Lemma wipe_loop_total (d : Q) (sz : Z * Z) (rest : list Clip) :
  forall (i : nat) (comp : list Clip) (cur : Q),
    snd (Wipe.wipe_loop d sz (S i) rest comp cur)
    == cur + sum_durations rest - Qnat (length rest) * d.
Proof.
  induction rest as [|c rest IH]; intros i comp cur.
  - cbn. unfold Qnat. cbn. ring.
  - cbn [Wipe.wipe_loop Nat.eqb]. loop_total IH.
Qed.

(** Every turn appends exactly one clip. *)
Lemma crossfade_loop_length (d : Q) (clips : list Clip) :
  forall (i : nat) (comp : list Clip) (cur : Q),
    length (fst (Crossfade.crossfade_loop d i clips comp cur))
    = (length comp + length clips)%nat.
Proof.
  induction clips as [|c rest IH]; intros i comp cur; cbn.
  - lia.
  - destruct (i =? 0)%nat; rewrite IH, length_app; cbn; lia.
Qed.

Lemma slide_loop_length (d : Q) (w : Z) (clips : list Clip) :
  forall (i : nat) (comp : list Clip) (cur : Q),
    length (fst (Slide.slide_loop d w i clips comp cur))
    = (length comp + length clips)%nat.
Proof.
  induction clips as [|c rest IH]; intros i comp cur; cbn.
  - lia.
  - destruct (i =? 0)%nat; rewrite IH, length_app; cbn; lia.
Qed.

Lemma wipe_loop_length (d : Q) (sz : Z * Z) (clips : list Clip) :
  forall (i : nat) (comp : list Clip) (cur : Q),
    length (fst (Wipe.wipe_loop d sz i clips comp cur))
    = (length comp + length clips)%nat.
Proof.
  induction clips as [|c rest IH]; intros i comp cur; cbn.
  - lia.
  - destruct (i =? 0)%nat; rewrite IH, length_app; cbn; lia.
Qed.

Lemma CompositeVideoClip_nonempty (l : list Clip) (sz : option (Z * Z)) :
  (0 < length l)%nat ->
  exists c, CompositeVideoClip l sz = Some c /\ layers c = l
            /\ comp_size c = match sz with
                             | Some s => s
                             | None =>
                                   size (List.hd (mkClip (EmptyString, EmptyString)
                                                         0 (0, 0)%Z 0 []) l)
                             end.
Proof.
  destruct l as [|c0 l]; cbn; [lia|]. intros _. eexists. repeat split.
Qed.

End Totals.

Section ScheduleTotals.

Import MoviePy Py Timeline.
Local Open Scope Q_scope.

Lemma crossfade_schedule_total (d : Q) (c0 : Clip) (rest : list Clip) :
  exists p, Crossfade.schedule d (c0 :: rest) = inr p
    /\ comp_duration p
       == sum_durations (c0 :: rest) - Qnat (length rest) * d
    /\ length (layers p) = S (length rest).
Proof.
  unfold Crossfade.schedule. cbn [Crossfade.crossfade_loop Nat.eqb app].
  pose proof (crossfade_loop_total d rest 0 [set_start 0 c0] (duration c0)) as Ht.
  pose proof (crossfade_loop_length d rest 1 [set_start 0 c0] (duration c0)) as Hl.
  destruct (Crossfade.crossfade_loop d 1 rest [set_start 0 c0] (duration c0))
    as [comp cur]. cbn [fst snd length] in *.
  destruct (CompositeVideoClip_nonempty comp None) as (c & -> & Hc & _); [lia|].
  eexists; split; [reflexivity|]. cbn. rewrite Hc. split; [|lia].
  rewrite Ht. ring.
Qed.

Lemma slide_schedule_total (d : Q) (c0 : Clip) (rest : list Clip) :
  exists p, Slide.schedule d (c0 :: rest) = inr p
    /\ comp_duration p
       == sum_durations (c0 :: rest) - Qnat (length rest) * d
    /\ length (layers p) = S (length rest)
    /\ comp_size p = size c0.
Proof.
  unfold Slide.schedule. cbn [Slide.slide_loop Nat.eqb app].
  pose proof (slide_loop_total d (fst (size c0)) rest 0
                [set_start 0 c0] (duration c0)) as Ht.
  pose proof (slide_loop_length d (fst (size c0)) rest 1
                [set_start 0 c0] (duration c0)) as Hl.
  destruct (Slide.slide_loop d (fst (size c0)) 1 rest
              [set_start 0 c0] (duration c0)) as [comp cur].
  cbn [fst snd length] in *.
  destruct (CompositeVideoClip_nonempty comp (Some (size c0)))
    as (c & -> & Hc & Hs); [lia|].
  eexists; split; [reflexivity|]. cbn. rewrite Hc.
  split; [rewrite Ht; ring|]. split; [lia|exact Hs].
Qed.

Lemma wipe_schedule_total (d : Q) (c0 : Clip) (rest : list Clip) :
  exists p, Wipe.schedule d (c0 :: rest) = inr p
    /\ comp_duration p
       == sum_durations (c0 :: rest) - Qnat (length rest) * d
    /\ length (layers p) = S (length rest)
    /\ comp_size p = size c0.
Proof.
  unfold Wipe.schedule. cbn [Wipe.wipe_loop Nat.eqb app].
  pose proof (wipe_loop_total d (size c0) rest 0
                [set_start 0 c0] (duration c0)) as Ht.
  pose proof (wipe_loop_length d (size c0) rest 1
                [set_start 0 c0] (duration c0)) as Hl.
  destruct (Wipe.wipe_loop d (size c0) 1 rest
              [set_start 0 c0] (duration c0)) as [comp cur].
  cbn [fst snd length] in *.
  destruct (CompositeVideoClip_nonempty comp (Some (size c0)))
    as (c & -> & Hc & Hs); [lia|].
  eexists; split; [reflexivity|]. cbn. rewrite Hc.
  split; [rewrite Ht; ring|]. split; [lia|exact Hs].
Qed.

(** Fading a clip in or out leaves its duration alone. *)
Lemma processed_from_durations (d : Q) (clips : list Clip) :
  forall i n,
    sum_durations (FadeInOut.processed_from d i n clips) = sum_durations clips.
Proof.
  induction clips as [|c rest IH]; intros i n; cbn; [reflexivity|].
  rewrite IH. unfold FadeInOut.apply_fades.
  destruct (0 <? i)%nat, (i <? n - 1)%nat; reflexivity.
Qed.

(** fade-in-out.py puts the clips end to end: nothing is subtracted. *)
Lemma fade_schedule_total (d : Q) (c0 : Clip) (rest : list Clip) :
  exists p, FadeInOut.schedule d (c0 :: rest) = inr p
    /\ comp_duration p = sum_durations (c0 :: rest).
Proof.
  unfold FadeInOut.schedule.
  pose proof (processed_from_durations d (c0 :: rest) 0 (length (c0 :: rest))) as Hs.
  destruct (FadeInOut.processed_from d 0 (length (c0 :: rest)) (c0 :: rest))
    as [|p0 ps] eqn:E; [discriminate E|].
  cbn [concatenate_videoclips]. eexists; split; [reflexivity|].
  cbn [comp_duration]. exact Hs.
Qed.

End ScheduleTotals.

(** ** Claims on total duration *)

Section TotalDuration.

Import MoviePy Py Timeline.
Local Open Scope Q_scope.

(** C1, as stated, fails for Fade: fade-in-out.py fades each clip out and
    the next one in but concatenates them end to end, so two clips of one
    second joined by a fade of 0.2 s last 2 s, not 1.8 s. *)
Lemma fade_total_counterexample :
  let a := mkClip ("tmp", "a.mp4") 1 (1920, 1080)%Z 0 [] in
  let b := mkClip ("tmp", "b.mp4") 1 (1920, 1080)%Z 0 [] in
  (2 <= length [a; b])%nat
  /\ Forall (fun c => (2 # 10) <= duration c) [a; b]
  /\ exists p, plan Fade (2 # 10) [a; b] = inr p
       /\ comp_duration p == 2
       /\ ~ comp_duration p
            == sum_durations [a; b] - Qnat (length [a; b] - 1) * (2 # 10).
Proof.
  cbn zeta. split; [cbn; lia|]. split.
  - repeat constructor; cbn; intro H; discriminate H.
  - eexists. split; [reflexivity|]. split; [reflexivity|].
    intro H. vm_compute in H. discriminate H.
Qed.

(** C1 (amended): for [N >= 2] clips and a transition duration [d] that no
    clip is shorter than, the Crossfade, Slide and Wipe schedules last the
    sum of the clip durations minus [(N-1) * d]; the Fade schedule of
    fade-in-out.py lasts the plain sum of the clip durations. *)
Theorem overlap_schedule_total_duration
  (kind : OverlapKind) (d : Q) (clips : list Clip) :
  (2 <= length clips)%nat ->
  Forall (fun c => d <= duration c) clips ->
  exists p, plan kind d clips = inr p
    /\ comp_duration p
       == match kind with
          | Fade => sum_durations clips
          | Crossfade | Slide | Wipe =>
              sum_durations clips - Qnat (length clips - 1) * d
          end.
Proof.
  intros HN _. destruct clips as [|c0 rest]; [cbn in HN; lia|].
  replace (length (c0 :: rest) - 1)%nat with (length rest) by (cbn; lia).
  destruct kind; cbn [plan].
  - destruct (fade_schedule_total d c0 rest) as (p & Hp & Hd).
    exists p. split; [exact Hp|]. rewrite Hd. reflexivity.
  - destruct (crossfade_schedule_total d c0 rest) as (p & Hp & Hd & _).
    exists p. split; assumption.
  - destruct (slide_schedule_total d c0 rest) as (p & Hp & Hd & _).
    exists p. split; assumption.
  - destruct (wipe_schedule_total d c0 rest) as (p & Hp & Hd & _).
    exists p. split; assumption.
Qed.

Lemma overlap_schedule_total_duration_witness :
  let a := mkClip ("tmp", "a.mp4") 3 (1920, 1080)%Z 0 [] in
  let b := mkClip ("tmp", "b.mp4") 4 (1920, 1080)%Z 0 [] in
  let c := mkClip ("tmp", "c.mp4") 5 (1920, 1080)%Z 0 [] in
  exists p, plan Crossfade (1 # 2) [a; b; c] = inr p
    /\ comp_duration p == sum_durations [a; b; c] - Qnat 2 * (1 # 2).
Proof.
  cbn zeta.
  apply (overlap_schedule_total_duration Crossfade (1 # 2)).
  - cbn. lia.
  - repeat constructor; cbn; intro H; discriminate H.
Defined.

End TotalDuration.

(** ** Hard cuts *)

Section Cuts.

Import MoviePy Py Timeline.
Local Open Scope Q_scope.

Lemma place_from_start_ge (clips : list Clip) :
  Forall (fun c => 0 <= duration c) clips ->
  forall (t : Q) (k : nat) (b : Clip),
    place_from t clips !! k = Some b -> t <= start b.
Proof.
  induction 1 as [|c rest Hc _ IH]; intros t k b Hk; [discriminate Hk|].
  destruct k as [|k]; cbn in Hk.
  - injection Hk as <-. cbn. apply Qle_refl.
  - apply IH in Hk. lra.
Qed.

Lemma place_from_disjoint (clips : list Clip) :
  Forall (fun c => 0 <= duration c) clips ->
  forall (t : Q) (i j : nat) (a b : Clip),
    (i < j)%nat ->
    place_from t clips !! i = Some a ->
    place_from t clips !! j = Some b ->
    end_ a <= start b.
Proof.
  induction 1 as [|c rest Hc Hrest IH]; intros t i j a b Hij Hi Hj;
    [discriminate Hi|].
  destruct j as [|j]; [lia|]. cbn in Hj.
  destruct i as [|i]; cbn in Hi.
  - injection Hi as <-. unfold end_. cbn.
    apply (place_from_start_ge rest Hrest _ _ _ Hj).
  - apply (IH (t + duration c) i j); [lia|assumption..].
Qed.

Lemma place_from_keeps (clips : list Clip) :
  forall t, map (fun c => (filename c, duration c, size c, effects c))
                (place_from t clips)
            = map (fun c => (filename c, duration c, size c, effects c)) clips.
Proof.
  induction clips as [|c rest IH]; intros t; cbn; [reflexivity|].
  now rewrite IH.
Qed.

(** C8: [N] clips joined by hard cuts (concatenation.py) last the sum of
    their durations, the plan holds the same clips in the same order, and
    no two placed clips overlap in time: an earlier one ends no later than
    a later one starts. *)
Theorem cut_schedule_sum_and_disjoint (clips : list Clip) :
  clips <> [] ->
  Forall (fun c => 0 <= duration c) clips ->
  exists p, Concatenation.schedule clips = inr p
    /\ comp_duration p == sum_durations clips
    /\ map (fun c => (filename c, duration c, size c, effects c)) (layers p)
       = map (fun c => (filename c, duration c, size c, effects c)) clips
    /\ forall (i j : nat) (a b : Clip),
         (i < j)%nat ->
         layers p !! i = Some a -> layers p !! j = Some b ->
         end_ a <= start b.
Proof.
  intros Hne Hpos. destruct clips as [|c0 rest]; [congruence|].
  unfold Concatenation.schedule. cbn [concatenate_videoclips].
  eexists. split; [reflexivity|]. cbn [comp_duration layers].
  split; [reflexivity|]. split; [apply place_from_keeps|].
  intros i j a b. apply place_from_disjoint. exact Hpos.
Qed.

Lemma cut_schedule_sum_and_disjoint_witness :
  let a := mkClip ("tmp", "a.mp4") 3 (1920, 1080)%Z 0 [] in
  let b := mkClip ("tmp", "b.mp4") (9 # 2) (1280, 720)%Z 0 [] in
  exists p, Concatenation.schedule [a; b] = inr p
    /\ comp_duration p == sum_durations [a; b]
    /\ map (fun c => (filename c, duration c, size c, effects c)) (layers p)
       = map (fun c => (filename c, duration c, size c, effects c)) [a; b]
    /\ forall (i j : nat) (x y : Clip),
         (i < j)%nat ->
         layers p !! i = Some x -> layers p !! j = Some y ->
         end_ x <= start y.
Proof.
  cbn zeta. apply cut_schedule_sum_and_disjoint.
  - discriminate.
  - repeat constructor; cbn; intro H; discriminate H.
Defined.

End Cuts.

(** ** Overlap between neighbours *)

Section Overlaps.

Import MoviePy Py Timeline.
Local Open Scope Q_scope.

Lemma neighbours_snoc (P : Clip -> Clip -> Prop) (l : list Clip) (x y : Clip) :
  neighbours P (l ++ [x]) -> P x y -> neighbours P ((l ++ [x]) ++ [y]).
Proof.
  induction l as [|a l IH]; intros Hl Hxy.
  - cbn. auto.
  - destruct l as [|b l].
    + cbn in *. tauto.
    + change (P a b /\ neighbours P ((b :: l) ++ [x])) in Hl.
      change (P a b /\ neighbours P (((b :: l) ++ [x]) ++ [y])).
      destruct Hl as [Hab Hl]. split; auto.
Qed.

Lemma neighbours_lookup (P : Clip -> Clip -> Prop) (l : list Clip) :
  neighbours P l ->
  forall (i : nat) (a b : Clip),
    l !! i = Some a -> l !! S i = Some b -> P a b.
Proof.
  induction l as [|x l IH]; intros Hl i a b Ha Hb; [discriminate Ha|].
  destruct l as [|y l]; [destruct i; discriminate Hb|].
  destruct Hl as [Hxy Hl]. destruct i as [|i].
  - cbn in Ha, Hb. injection Ha as <-. injection Hb as <-. exact Hxy.
  - apply (IH Hl i); assumption.
Qed.

(** The loop invariant of crossfade.py: the last placed clip ends at
    [current_duration], and each clip starts [d] before its predecessor
    ends. *)
Lemma crossfade_loop_neighbours (d : Q) (rest : list Clip) :
  forall (i : nat) (comp : list Clip) (x : Clip) (cur : Q),
    neighbours (fun a b => overlap a b == d) (comp ++ [x]) ->
    end_ x == cur ->
    neighbours (fun a b => overlap a b == d)
               (fst (Crossfade.crossfade_loop d (S i) rest (comp ++ [x]) cur)).
Proof.
  induction rest as [|c rest IH]; intros i comp x cur Hn Hx; [exact Hn|].
  cbn [Crossfade.crossfade_loop Nat.eqb]. apply IH.
  - apply neighbours_snoc; [exact Hn|].
    unfold overlap. cbn. rewrite Hx. ring.
  - unfold end_. cbn. ring.
Qed.

Lemma crossfade_schedule_neighbours (d : Q) (clips : list Clip) (p : Composite) :
  Crossfade.schedule d clips = inr p ->
  neighbours (fun a b => overlap a b == d) (layers p).
Proof.
  destruct clips as [|c0 rest]; [discriminate|].
  unfold Crossfade.schedule. cbn [Crossfade.crossfade_loop Nat.eqb].
  pose proof (crossfade_loop_neighbours d rest 0 [] (set_start 0 c0)
                (duration c0)) as Hn.
  destruct (Crossfade.crossfade_loop d 1 rest ([] ++ [set_start 0 c0])
              (duration c0)) as [comp cur].
  cbn [fst] in Hn. destruct comp as [|x comp]; [discriminate|].
  cbn [CompositeVideoClip]. intros [= <-]. cbn [set_duration layers].
  apply Hn; [exact I|]. unfold end_. cbn. ring.
Qed.

(** C2, as stated, fails: crossfade.py never clamps.  With two clips of
    one second and a requested duration of two seconds the second clip is
    placed at -1 s, two seconds (not one) before the first one ends; and
    with a second clip of half a second the composition is given the
    negative duration -0.5 s. *)
Lemma overlap_clamp_counterexample :
  let a := mkClip ("tmp", "a.mp4") 1 (1920, 1080)%Z 0 [] in
  let b := mkClip ("tmp", "b.mp4") 1 (1920, 1080)%Z 0 [] in
  let c := mkClip ("tmp", "c.mp4") (1 # 2) (1920, 1080)%Z 0 [] in
  (exists p x y,
      Crossfade.schedule 2 [a; b] = inr p
      /\ layers p = [x; y]
      /\ start y == - (1)
      /\ overlap x y == 2
      /\ ~ overlap x y == Qmin 2 (Qmin (duration a) (duration b)))
  /\ (exists p, Crossfade.schedule 2 [a; c] = inr p /\ comp_duration p < 0).
Proof.
  cbn zeta. split.
  - do 3 eexists. split; [reflexivity|]. split; [reflexivity|].
    split; [reflexivity|]. split; [reflexivity|].
    intro H. vm_compute in H. discriminate H.
  - eexists. split; [reflexivity|]. reflexivity.
Qed.

(** C2 (amended): in crossfade.py every later clip starts exactly the
    requested transition duration before its predecessor ends, whatever
    the clip durations are: the overlap is never clamped, no diagnostic
    is printed for it, and the total is the sum of the durations minus
    [(N-1) * d], which may be negative.  The overlap equals
    [min(d, duration of the earlier clip, duration of the later clip)]
    when [d] exceeds neither duration.  blend.py places the second of two
    clips the same way. *)
Theorem overlap_is_requested_duration (d : Q) :
  (forall (clips : list Clip) (p : Composite),
      Crossfade.schedule d clips = inr p ->
      (forall (i : nat) (a b : Clip),
          layers p !! i = Some a -> layers p !! S i = Some b ->
          overlap a b == d
          /\ start b == end_ a - d
          /\ (d <= duration a -> d <= duration b ->
              overlap a b == Qmin d (Qmin (duration a) (duration b))))
      /\ comp_duration p
         == sum_durations clips - Qnat (length clips - 1) * d
      /\ (forall e, e ∈ Crossfade.processed_lines clips ->
                    exists text, e = Print (info text)))
  /\ (forall (c0 c1 : Clip) (p : Composite),
         start c0 == 0 ->
         Blend.schedule d [c0; c1] = inr p ->
         exists a b, layers p = [a; b]
                     /\ overlap a b == d
                     /\ start b == duration c0 - d).
Proof.
  split.
  - intros clips p Hp. split; [|split].
    + intros i a b Ha Hb.
      pose proof (neighbours_lookup _ _ (crossfade_schedule_neighbours d clips p Hp)
                    i a b Ha Hb) as Ho.
      cbn beta in Ho. split; [exact Ho|]. split.
      * unfold overlap in Ho. lra.
      * intros H1 H2. rewrite Ho. symmetry.
        apply Q.min_l. apply Q.min_glb; assumption.
    + destruct clips as [|c0 rest]; [discriminate Hp|].
      destruct (crossfade_schedule_total d c0 rest) as (p' & Hp' & Hd & _).
      rewrite Hp in Hp'. injection Hp' as <-.
      replace (length (c0 :: rest) - 1)%nat with (length rest) by (cbn; lia).
      exact Hd.
    + intros e He. unfold Crossfade.processed_lines in He.
      apply list_elem_of_fmap in He. destruct He as (c & -> & _).
      eexists. reflexivity.
  - intros c0 c1 p H0 Hp. cbn in Hp. injection Hp as <-.
    do 2 eexists. split; [reflexivity|]. unfold overlap, end_. cbn.
    split; [lra|reflexivity].
Qed.

Lemma overlap_is_requested_duration_witness :
  let a := mkClip ("tmp", "a.mp4") 3 (1920, 1080)%Z 0 [] in
  let b := mkClip ("tmp", "b.mp4") 4 (1920, 1080)%Z 0 [] in
  (exists p x y,
      Crossfade.schedule (1 # 2) [a; b] = inr p
      /\ layers p !! 0%nat = Some x /\ layers p !! 1%nat = Some y
      /\ overlap x y == 1 # 2)
  /\ (exists p x y,
         Blend.schedule (1 # 2) [a; b] = inr p
         /\ layers p = [x; y] /\ overlap x y == 1 # 2).
Proof.
  intros a b. destruct (overlap_is_requested_duration (1 # 2)) as [Hc Hb].
  split.
  - edestruct (Hc [a; b]) as [Hpairs _]; [reflexivity|].
    destruct (Hpairs 0%nat _ _ eq_refl eq_refl) as [Ho _].
    do 3 eexists. split; [reflexivity|]. split; [reflexivity|].
    split; [reflexivity|]. exact Ho.
  - edestruct (Hb a b) as (x & y & Hl & Ho & _); [reflexivity|reflexivity|].
    do 3 eexists. split; [reflexivity|]. split; [exact Hl|exact Ho].
Defined.

End Overlaps.

(** ** The polling loop of the generation job *)

Section Polling.

Import MoviePy Py Timeline Veo2.

Lemma poll_loop_waiting (poll : nat -> PollReply) (op : string) (k : nat) :
  forall (i n : nat),
    (forall j, (j < k)%nat -> poll (i + j)%nat = NotDone) ->
    poll_loop poll op i (k + n)
    = (fst (poll_loop poll op (i + k) n),
       waiting op i k ++ snd (poll_loop poll op (i + k) n)).
Proof.
  induction k as [|k IH]; intros i n Hk.
  - cbn [waiting app Nat.add]. rewrite Nat.add_0_r.
    destruct (poll_loop poll op i n); reflexivity.
  - cbn [Nat.add poll_loop waiting].
    pose proof (Hk 0%nat ltac:(lia)) as H0. rewrite Nat.add_0_r in H0.
    rewrite H0, (IH (S i) n).
    + replace (S i + k)%nat with (i + S k)%nat by lia. reflexivity.
    + intros j Hj. replace (S i + j)%nat with (i + S j)%nat by lia.
      apply Hk. lia.
Qed.

Lemma status_requests_app (l1 l2 : list Event) :
  status_requests (l1 ++ l2) = (status_requests l1 + status_requests l2)%nat.
Proof.
  unfold status_requests. now rewrite List.filter_app, length_app.
Qed.

Lemma status_requests_waiting (op : string) (k : nat) :
  forall i, status_requests (waiting op i k) = k.
Proof.
  induction k as [|k IH]; intros i; [reflexivity|].
  cbn [waiting]. unfold status_requests in *. cbn. now rewrite IH.
Qed.

(** Between two status requests of a waiting job there is exactly one
    pause of [interval_sec] seconds. *)
Lemma silent_waiting (op : string) (k : nat) :
  forall i,
    silent (waiting op i k)
    = List.concat (repeat [PostFetch op; Sleep interval_sec] k).
Proof.
  induction k as [|k IH]; intros i; [reflexivity|].
  cbn [waiting repeat List.concat]. unfold silent in *. cbn. now rewrite IH.
Qed.

(** The loop never issues more than [remaining] status requests. *)
Lemma poll_loop_requests_bound (poll : nat -> PollReply) (op : string) :
  forall (n i : nat),
    (status_requests (snd (poll_loop poll op i n)) <= n)%nat.
Proof.
  induction n as [|n IH]; intros i; [cbn; lia|].
  cbn [poll_loop]. destruct (poll i) as [| | |[[|v vs]|]];
    try (cbn; lia).
  specialize (IH (S i)). destruct (poll_loop poll op (S i) n) as [e evs].
  cbn [snd] in *. unfold status_requests in *. cbn. lia.
Qed.

Lemma endswith_unfold (s suffix : string) :
  PyStr.endswith s suffix
  = if String.eqb s suffix then true
    else match s with
         | EmptyString => false
         | String _ s' => PyStr.endswith s' suffix
         end.
Proof. destruct s; reflexivity. Qed.

Lemma has_char_cons (x c : ascii) (s : string) :
  PyStr.has_char x (String c s) = Ascii.eqb x c || PyStr.has_char x s.
Proof. reflexivity. Qed.

Lemma has_char_app (x : ascii) (a b : string) :
  PyStr.has_char x (a +:+ b) = PyStr.has_char x a || PyStr.has_char x b.
Proof.
  induction a as [|c a IH]; [reflexivity|].
  change (String c a +:+ b) with (String c (a +:+ b)).
  rewrite !has_char_cons, IH. now rewrite orb_assoc.
Qed.

Lemma plain_app (a b : string) :
  PyStr.plain a = true -> PyStr.plain b = true -> PyStr.plain (a +:+ b) = true.
Proof.
  unfold PyStr.plain, PyStr.has_dot. rewrite !has_char_app.
  intros Ha Hb.
  destruct (PyStr.has_char "." a), (PyStr.has_char "/" a); try discriminate.
  exact Hb.
Qed.

(** The decimal writing of a number holds digits only. *)
Lemma plain_string_of_uint (u : Decimal.uint) :
  PyStr.plain (NilEmpty.string_of_uint u) = true.
Proof. induction u; [reflexivity|exact IHu..]. Qed.

Lemma plain_str_nat (i : nat) : PyStr.plain (PyStr.str_nat i) = true.
Proof. apply plain_string_of_uint. Qed.

(** A name without a slash is its own base name. *)
Lemma basename_plain (s : string) :
  PyStr.has_char "/" s = false -> PyStr.basename s = s.
Proof.
  destruct s as [|c s]; [reflexivity|].
  rewrite has_char_cons. intros H.
  apply orb_false_iff in H as [Hc Hs].
  cbn [PyStr.basename]. fold (PyStr.has_char "/" s). rewrite Hs.
  rewrite Ascii.eqb_sym, Hc. reflexivity.
Qed.

(** After a stem without a dot, [.png] is the extension. *)
Lemma ext_from_png (stem : string) :
  PyStr.has_dot stem = false ->
  PyStr.ext_from true (stem +:+ ".png") = ".png".
Proof.
  induction stem as [|c stem IH]; [reflexivity|].
  unfold PyStr.has_dot. rewrite has_char_cons. intros H.
  apply orb_false_iff in H as [Hc Hs].
  change (String c stem +:+ ".png") with (String c (stem +:+ ".png")).
  cbn [PyStr.ext_from]. rewrite Ascii.eqb_sym, Hc. exact (IH Hs).
Qed.

(** A file whose name is a stem without dot or slash followed by [.png]
    is sent as a PNG image. *)
Lemma mime_type_png (d stem : string) :
  PyStr.plain stem = true -> stem <> EmptyString ->
  mime_type (d, stem +:+ ".png") = Some "image/png".
Proof.
  unfold PyStr.plain. intros Hplain Hstem.
  apply andb_true_iff in Hplain as [Hdot Hslash].
  apply negb_true_iff in Hdot, Hslash.
  unfold mime_type, PyStr.splitext_ext. cbn [snd].
  rewrite basename_plain
    by (rewrite has_char_app, Hslash; reflexivity).
  destruct stem as [|c stem]; [contradiction|].
  unfold PyStr.has_dot in Hdot. rewrite has_char_cons in Hdot.
  apply orb_false_iff in Hdot as [Hc Hs].
  change (String c stem +:+ ".png") with (String c (stem +:+ ".png")).
  cbn [PyStr.ext_from]. rewrite Ascii.eqb_sym, Hc.
  rewrite (ext_from_png stem Hs). reflexivity.
Qed.

(** [splitext] wants a stem: a name made of dots and an extension has
    none, and the last component decides. *)
Example mime_type_examples :
  mime_type ("tmp", "a.PNG") = Some "image/png"
  /\ mime_type ("tmp", "b.jpeg") = Some "image/jpeg"
  /\ mime_type ("tmp", "a..jpg") = Some "image/jpeg"
  /\ mime_type ("tmp", ".png") = None
  /\ mime_type ("tmp", "..jpg") = None
  /\ mime_type ("tmp", "png") = None
  /\ mime_type ("tmp", "a.png.gif") = None
  /\ mime_type ("tmp", "frames.v2/png") = None.
Proof. repeat split; reflexivity. Qed.

Lemma string_app_assoc (a b c : string) :
  a +:+ (b +:+ c) = (a +:+ b) +:+ c.
Proof.
  induction a as [|x a IH]; [reflexivity|].
  change (String x a +:+ (b +:+ c)) with (String x (a +:+ (b +:+ c))).
  now rewrite IH.
Qed.

(** The frame files written by the script are PNG files. *)
Lemma mime_type_frame (d prefix : string) (i : nat) :
  PyStr.plain prefix = true -> prefix <> EmptyString ->
  mime_type (d, prefix +:+ PyStr.str_nat i +:+ ".png") = Some "image/png".
Proof.
  intros Hplain Hprefix. rewrite string_app_assoc. apply mime_type_png.
  - apply plain_app; [exact Hplain|apply plain_str_nat].
  - destruct prefix; [contradiction|discriminate].
Qed.

(** Once both frames can be read, the credentials are fresh and the
    operation is started, the call returns what the polling loop leaves. *)
Lemma interpolate_initiated
  (svc : Service) (a b : path) (prompt out : string) (w : World)
  (name : option string) (start_mime end_mime : string) :
  has_file w a = true -> has_file w b = true ->
  auth_ok svc = true ->
  mime_type a = Some start_mime -> mime_type b = Some end_mime ->
  submit svc = Initiated name ->
  interpolate_video_veo2 svc a b prompt out w
  = let op := default "N/A" name in
    let '(exit, events) := poll_loop (poll svc) op 0 max_iterations in
    (Normal (job_result exit),
     mkWorld (fs w) (uploads w) (trace w ++ job_events op exit events)).
Proof.
  intros Ha Hb Hauth Hma Hmb Hsub.
  unfold interpolate_video_veo2.
  generalize max_iterations as n. intros n.
  unfold bind, print, emit, file_exists, guard, ret. cbn [fs uploads trace].
  unfold has_file in *. cbn [fs]. rewrite Ha, Hb. cbn [andb negb].
  rewrite Hauth, Hma, Hmb, Hsub. cbn zeta.
  destruct (poll_loop (poll svc) (default "N/A" name) 0 n) as [exit events].
  unfold job_events.
  destruct exit; cbn [fs uploads trace job_result];
    rewrite <- ?app_assoc, ?app_nil_r; cbn [app]; reflexivity.
Qed.

(** C4: when the service answers "not done" to the first five status
    requests and "done" with result [X] to the sixth, the job succeeds:
    the polling loop returns [X] after exactly six status requests, with
    one pause of [interval_sec] = 10 seconds between consecutive
    requests, and [interpolate_video_veo2] returns [X]. *)
Theorem poll_five_waits_then_result
  (svc : Service) (a b : path) (prompt out : string) (w : World)
  (name : option string) (start_mime end_mime : string)
  (X : string) (others : list (option string)) :
  has_file w a = true -> has_file w b = true ->
  auth_ok svc = true ->
  mime_type a = Some start_mime -> mime_type b = Some end_mime ->
  submit svc = Initiated name ->
  (forall j, (j < 5)%nat -> poll svc j = NotDone) ->
  poll svc 5%nat = Done (Some (Some X :: others)) ->
  let op := default "N/A" name in
  exists events,
    poll_loop (poll svc) op 0 max_iterations = (ReturnedUri (Some X), events)
    /\ status_requests events = 6%nat
    /\ silent events
       = [PostFetch op; Sleep 10; PostFetch op; Sleep 10; PostFetch op;
          Sleep 10; PostFetch op; Sleep 10; PostFetch op; Sleep 10;
          PostFetch op]
    /\ interpolate_video_veo2 svc a b prompt out w
       = (Normal (Some X),
          mkWorld (fs w) (uploads w)
                  (trace w ++ job_events op (ReturnedUri (Some X)) events)).
Proof.
  intros Ha Hb Hauth Hma Hmb Hsub Hwait Hdone op.
  assert (exists events,
             poll_loop (poll svc) op 0 max_iterations
             = (ReturnedUri (Some X), events)
             /\ status_requests events = 6%nat
             /\ silent events
                = [PostFetch op; Sleep 10; PostFetch op; Sleep 10;
                   PostFetch op; Sleep 10; PostFetch op; Sleep 10;
                   PostFetch op; Sleep 10; PostFetch op])
    as (events & E & Hreq & Hsil).
  { change max_iterations with (5 + S 594)%nat.
    rewrite (poll_loop_waiting (poll svc) op 5 0 (S 594)) by exact Hwait.
    cbn [Nat.add poll_loop]. rewrite Hdone. cbn [fst snd].
    eexists. split; [reflexivity|]. split; reflexivity. }
  exists events. repeat (split; [assumption|]).
  rewrite (interpolate_initiated svc a b prompt out w name _ _
             Ha Hb Hauth Hma Hmb Hsub).
  cbn zeta. fold op. rewrite E. reflexivity.
Qed.

Lemma poll_five_waits_then_result_witness :
  let svc := mkService true (Initiated (Some "operations/42"))
               (fun j => if (j <? 5)%nat then NotDone
                         else Done (Some [Some "gs://veo_exps_prod/out/sample_0.mp4"])) in
  let w := mkWorld {[ "/tmp/tmpab12" := ["frame_B_start_0.png"; "frame_A_end_0.png"] ]}
                   [] [] in
  exists events,
    poll_loop (poll svc) "operations/42" 0 max_iterations
    = (ReturnedUri (Some "gs://veo_exps_prod/out/sample_0.mp4"), events)
    /\ status_requests events = 6%nat.
Proof.
  intros svc w.
  destruct (poll_five_waits_then_result svc
              ("/tmp/tmpab12", "frame_A_end_0.png")
              ("/tmp/tmpab12", "frame_B_start_0.png")
              INTERPOLATION_PROMPT "out" w (Some "operations/42")
              "image/png" "image/png"
              "gs://veo_exps_prod/out/sample_0.mp4" [])
    as (events & E & Hreq & _).
  - vm_compute. reflexivity.
  - vm_compute. reflexivity.
  - reflexivity.
  - reflexivity.
  - reflexivity.
  - reflexivity.
  - intros j Hj. cbn [poll svc].
    destruct (Nat.ltb_spec j 5) as [_|Hge]; [reflexivity|lia].
  - reflexivity.
  - exists events. split; [exact E|exact Hreq].
Defined.

(** C5: a transport error at status request number [k] (counting from 0,
    all earlier answers being "not done") ends the job at once: the
    polling loop is left by [break] after [k + 1] requests, the failing
    request is the last one and no pause follows it, and
    [interpolate_video_veo2] returns [None].  Whatever the service would
    have answered later is never asked for. *)
Theorem poll_transport_error_stops
  (svc : Service) (a b : path) (prompt out : string) (w : World)
  (name : option string) (start_mime end_mime : string) (k : nat) :
  has_file w a = true -> has_file w b = true ->
  auth_ok svc = true ->
  mime_type a = Some start_mime -> mime_type b = Some end_mime ->
  submit svc = Initiated name ->
  (k < max_iterations)%nat ->
  (forall j, (j < k)%nat -> poll svc j = NotDone) ->
  poll svc k = PollRequestError ->
  let op := default "N/A" name in
  let events :=
    waiting op 0 k
    ++ [PostFetch op; Print (error "ERROR: Polling failed for operation")] in
  poll_loop (poll svc) op 0 max_iterations = (Broke, events)
  /\ status_requests events = S k
  /\ interpolate_video_veo2 svc a b prompt out w
     = (Normal None,
        mkWorld (fs w) (uploads w) (trace w ++ job_events op Broke events)).
Proof.
  intros Ha Hb Hauth Hma Hmb Hsub Hk Hwait Herr op events.
  assert (poll_loop (poll svc) op 0 max_iterations = (Broke, events)) as E.
  { replace max_iterations with (k + S (max_iterations - S k))%nat by lia.
    rewrite (poll_loop_waiting (poll svc) op k 0 _) by exact Hwait.
    cbn [Nat.add poll_loop]. rewrite Herr. reflexivity. }
  split; [exact E|]. split.
  - unfold events. rewrite status_requests_app, status_requests_waiting.
    cbn. lia.
  - rewrite (interpolate_initiated svc a b prompt out w name _ _
               Ha Hb Hauth Hma Hmb Hsub).
    cbn zeta. fold op. rewrite E. reflexivity.
Qed.

Lemma poll_transport_error_stops_witness :
  let svc := mkService true (Initiated (Some "operations/42"))
               (fun j => if (j <? 2)%nat then NotDone
                         else if (j =? 2)%nat then PollRequestError
                         else Done (Some [Some "gs://veo_exps_prod/out/late.mp4"])) in
  let w := mkWorld {[ "/tmp/tmpab12" := ["frame_B_start_0.png"; "frame_A_end_0.png"] ]}
                   [] [] in
  fst (poll_loop (poll svc) "operations/42" 0 max_iterations) = Broke
  /\ status_requests (snd (poll_loop (poll svc) "operations/42" 0 max_iterations))
     = 3%nat
  /\ fst (interpolate_video_veo2 svc
            ("/tmp/tmpab12", "frame_A_end_0.png")
            ("/tmp/tmpab12", "frame_B_start_0.png")
            INTERPOLATION_PROMPT "out" w)
     = Normal None.
Proof.
  intros svc w.
  destruct (poll_transport_error_stops svc
              ("/tmp/tmpab12", "frame_A_end_0.png")
              ("/tmp/tmpab12", "frame_B_start_0.png")
              INTERPOLATION_PROMPT "out" w (Some "operations/42")
              "image/png" "image/png" 2)
    as (E & Hreq & Hcall).
  - vm_compute. reflexivity.
  - vm_compute. reflexivity.
  - reflexivity.
  - reflexivity.
  - reflexivity.
  - reflexivity.
  - unfold max_iterations. lia.
  - intros j Hj. cbn [poll svc].
    destruct (Nat.ltb_spec j 2) as [_|Hge]; [reflexivity|lia].
  - reflexivity.
  - cbv [default from_option id] in E, Hreq, Hcall.
    rewrite E, Hcall. cbn [fst snd].
    split; [reflexivity|]. split; [exact Hreq|reflexivity].
Defined.

End Polling.

(** ** Degradation of a failed bridge to a hard cut *)

Section Bridges.

Import MoviePy Py Collab Timeline Veo2.

(** A failed or timed-out job makes the pair contribute no clip: the step
    ends normally, prints the warning last and touches no upload. *)
Lemma transition_step_degrades
  (env : Env) (bridge : Bridge) (tmp : string) (i : nat) (clip_A clip_B : Clip)
  (w : World) :
  is_Some (fs w !! tmp) ->
  success_A bridge i = true -> success_B bridge i = true ->
  job_fails (service bridge i) ->
  exists w',
    transition_step env bridge tmp i clip_A clip_B w = (Normal [], w')
    /\ is_Some (fs w' !! tmp)
    /\ uploads w' = uploads w
    /\ last (trace w') = Some skipping_line
    /\ exists events, trace w' = trace w ++ events ++ [skipping_line].
Proof.
  intros [files Hd] HA HB (Hauth & name & Hsub & Hexit).
  unfold transition_step.
  unfold bind at 1. unfold print at 1, emit at 1. cbn [fs uploads trace].
  rewrite HA, HB. cbn [andb negb].
  unfold bind at 1. unfold write_file at 1. cbn [fs uploads trace fst snd].
  rewrite Hd.
  unfold bind at 1. unfold write_file at 1. cbn [fs uploads trace fst snd].
  rewrite lookup_insert_eq.
  unfold bind at 1.
  erewrite interpolate_initiated;
    [ | unfold has_file; cbn [fs fst snd]; rewrite lookup_insert_eq;
        apply bool_decide_eq_true; constructor 2; constructor 1
      | unfold has_file; cbn [fs fst snd]; rewrite lookup_insert_eq;
        apply bool_decide_eq_true; constructor 1
      | exact Hauth
      | apply mime_type_frame; [reflexivity|discriminate]
      | apply mime_type_frame; [reflexivity|discriminate]
      | exact Hsub ].
  cbn zeta in *.
  destruct (poll_loop (poll (service bridge i)) (default "N/A" name) 0
              max_iterations) as [exit events].
  cbn [fst] in Hexit.
  assert (job_result exit = None) as ->
      by (destruct Hexit as [-> | ->]; reflexivity).
  cbn [truthy negb]. unfold bind, print, emit, ret. cbn [fs uploads trace].
  eexists. split; [reflexivity|]. cbn [fs uploads trace].
  split; [rewrite lookup_insert_eq; eauto|]. split; [reflexivity|].
  split; [apply last_snoc|].
  exists ([Print (info "Processing transition")]
          ++ job_events (default "N/A" name) exit events).
  unfold skipping_line. now rewrite <- !app_assoc.
Qed.

Lemma transitions_loop_cons
  (env : Env) (bridge : Bridge) (tmp : string) (i : nat)
  (clip_A clip_B : Clip) (rest : list Clip) :
  transitions_loop env bridge tmp i (clip_A :: clip_B :: rest)
  = bind (transition_step env bridge tmp i clip_A clip_B)
      (fun appended =>
         bind (transitions_loop env bridge tmp (S i) (clip_B :: rest))
           (fun final_sequence =>
              ret (clip_A :: appended ++ final_sequence))).
Proof. reflexivity. Qed.

(** With every job failing, the loop appends exactly the clips before the
    last one, and prints the warning if there is a pair at all. *)
Lemma transitions_loop_all_failed
  (env : Env) (bridge : Bridge) (tmp : string) (clips : list Clip) :
  forall (i : nat) (w : World),
    is_Some (fs w !! tmp) ->
    (forall j, (j < length clips - 1)%nat ->
               success_A bridge (i + j) = true
               /\ success_B bridge (i + j) = true
               /\ job_fails (service bridge (i + j))) ->
    exists w',
      transitions_loop env bridge tmp i clips w = (Normal (removelast clips), w')
      /\ is_Some (fs w' !! tmp)
      /\ uploads w' = uploads w
      /\ exists events,
           trace w' = trace w ++ events
           /\ ((2 <= length clips)%nat -> In skipping_line events).
Proof.
  induction clips as [|clip_A rest IH]; intros i w Hd Hall.
  - exists w. split; [reflexivity|]. split; [exact Hd|].
    split; [reflexivity|]. exists []. rewrite app_nil_r.
    split; [reflexivity|]. cbn. lia.
  - destruct rest as [|clip_B rest].
    + exists w. split; [reflexivity|]. split; [exact Hd|].
      split; [reflexivity|]. exists []. rewrite app_nil_r.
      split; [reflexivity|]. cbn. lia.
    + rewrite transitions_loop_cons.
      destruct (Hall 0%nat) as (HA & HB & Hjob); [cbn; lia|].
      rewrite Nat.add_0_r in HA, HB, Hjob.
      destruct (transition_step_degrades env bridge tmp i clip_A clip_B w
                  Hd HA HB Hjob) as (w1 & E1 & Hd1 & Hu1 & _ & ev1 & Ht1).
      destruct (IH (S i) w1 Hd1) as (w2 & E2 & Hd2 & Hu2 & ev2 & Ht2 & _).
      { intros j Hj. replace (S i + j)%nat with (i + S j)%nat by lia.
        apply Hall. cbn in *. lia. }
      exists w2. unfold bind. rewrite E1, E2. unfold ret.
      split; [reflexivity|]. split; [exact Hd2|].
      split; [congruence|].
      exists ((ev1 ++ [skipping_line]) ++ ev2).
      split; [rewrite Ht2, Ht1; now rewrite <- !app_assoc|].
      intros _. apply in_or_app. left. apply in_or_app. right. now left.
Qed.

End Bridges.

(** ** Frame sizes in slide.py and wipe.py *)

Section FrameSizes.

Import MoviePy Py Timeline.
Local Open Scope Q_scope.

(** Placing a clip never changes or inspects its frame size. *)
Lemma slide_loop_sizes (d : Q) (w : Z) (clips : list Clip) :
  forall (i : nat) (comp : list Clip) (cur : Q),
    map size (fst (Slide.slide_loop d w i clips comp cur))
    = map size comp ++ map size clips.
Proof.
  induction clips as [|c rest IH]; intros i comp cur; cbn.
  - now rewrite app_nil_r.
  - destruct (i =? 0)%nat; rewrite IH, map_app, <- app_assoc; reflexivity.
Qed.

Lemma wipe_loop_sizes (d : Q) (sz : Z * Z) (clips : list Clip) :
  forall (i : nat) (comp : list Clip) (cur : Q),
    map size (fst (Wipe.wipe_loop d sz i clips comp cur))
    = map size comp ++ map size clips.
Proof.
  induction clips as [|c rest IH]; intros i comp cur; cbn.
  - now rewrite app_nil_r.
  - destruct (i =? 0)%nat; rewrite IH, map_app, <- app_assoc; reflexivity.
Qed.

(** The slide starts with the clip just outside the right edge and ends
    with the clip centred; the wipe mask starts black and ends white. *)
Example slide_in_position_example :
  Slide.slide_in_position 2 1920 0 = Some (1920 - 1920 / 2 * 0)
  /\ Slide.slide_in_position 2 1920 1 = Some (1920 - 1920 / 2 * 1)
  /\ Slide.slide_in_position 2 1920 2 = None.
Proof. repeat split; reflexivity. Qed.

Example create_wipe_mask_example :
  Wipe.create_wipe_mask 1 (1920, 1080)%Z 0 0 = false
  /\ Wipe.create_wipe_mask 1 (1920, 1080)%Z (1 # 2) 959 = true
  /\ Wipe.create_wipe_mask 1 (1920, 1080)%Z (1 # 2) 960 = false
  /\ Wipe.create_wipe_mask 1 (1920, 1080)%Z 1 1919 = true.
Proof. repeat split; reflexivity. Qed.

(** C9, as stated, fails: slide.py schedules a 1920x1080 clip followed
    by a 1280x720 clip without any error, on a 1920x1080 canvas. *)
Lemma frame_size_counterexample :
  let a := mkClip ("tmp", "a.mp4") 3 (1920, 1080)%Z 0 [] in
  let b := mkClip ("tmp", "b.mp4") 4 (1280, 720)%Z 0 [] in
  size a <> size b
  /\ exists p, Slide.schedule Slide.TRANSITION_DURATION [a; b] = inr p
               /\ comp_size p = (1920, 1080)%Z
               /\ map size (layers p) = [(1920, 1080)%Z; (1280, 720)%Z].
Proof.
  cbn zeta. split; [discriminate|].
  eexists. split; [reflexivity|]. split; reflexivity.
Qed.

(** C9 (amended): slide.py and wipe.py never compare frame sizes.  For
    every non-empty clip list, whatever the sizes, both scripts build
    their composition without error; the canvas takes the size of the
    first clip (which is also the size given to the wipe mask) and every
    clip is placed with its own size. *)
Theorem slide_and_wipe_ignore_frame_sizes
  (d : Q) (clip0 : Clip) (rest : list Clip) :
  (exists p, Slide.schedule d (clip0 :: rest) = inr p
             /\ comp_size p = size clip0
             /\ map size (layers p) = map size (clip0 :: rest))
  /\ (exists p, Wipe.schedule d (clip0 :: rest) = inr p
                /\ comp_size p = size clip0
                /\ map size (layers p) = map size (clip0 :: rest)).
Proof.
  split.
  - unfold Slide.schedule. cbn [Slide.slide_loop Nat.eqb app].
    pose proof (slide_loop_sizes d (fst (size clip0)) rest 1
                  [set_start 0 clip0] (duration clip0)) as Hs.
    destruct (Slide.slide_loop d (fst (size clip0)) 1 rest
                [set_start 0 clip0] (duration clip0)) as [comp cur].
    cbn [fst] in Hs. destruct comp as [|x comp]; [discriminate Hs|].
    cbn [CompositeVideoClip]. eexists. split; [reflexivity|].
    split; [reflexivity|]. exact Hs.
  - unfold Wipe.schedule. cbn [Wipe.wipe_loop Nat.eqb app].
    pose proof (wipe_loop_sizes d (size clip0) rest 1
                  [set_start 0 clip0] (duration clip0)) as Hs.
    destruct (Wipe.wipe_loop d (size clip0) 1 rest
                [set_start 0 clip0] (duration clip0)) as [comp cur].
    cbn [fst] in Hs. destruct comp as [|x comp]; [discriminate Hs|].
    cbn [CompositeVideoClip]. eexists. split; [reflexivity|].
    split; [reflexivity|]. exact Hs.
Qed.

End FrameSizes.

(** ** The temporary directory *)

Section Cleanup.

Import MoviePy Py Collab.

Lemma untouched_confined {A} (d : string) (m : M A) :
  untouched m -> confined d m.
Proof. intros H w r w' E d' _. now rewrite (H w r w' E). Qed.

Lemma untouched_ret {A} (a : A) : untouched (ret a).
Proof. intros w r w' [= _ <-]. reflexivity. Qed.

Lemma untouched_raise {A} (e : exn) : untouched (@raise A e).
Proof. intros w r w' [= _ <-]. reflexivity. Qed.

Lemma untouched_return {A} : untouched (@return_ A).
Proof. intros w r w' [= _ <-]. reflexivity. Qed.

Lemma untouched_emit (evs : list Event) : untouched (emit evs).
Proof. intros w r w' [= _ <-]. reflexivity. Qed.

Lemma untouched_print (m : Msg) : untouched (print m).
Proof. apply untouched_emit. Qed.

Lemma untouched_guard (b : bool) (e : exn) : untouched (guard b e).
Proof. destruct b; [apply untouched_ret|apply untouched_raise]. Qed.

Lemma untouched_of_option {A} (o : option A) (e : exn) :
  untouched (of_option o e).
Proof. destruct o; [apply untouched_ret|apply untouched_raise]. Qed.

Lemma untouched_of_sum {A} (r : exn + A) : untouched (of_sum r).
Proof. destruct r; [apply untouched_raise|apply untouched_ret]. Qed.

Lemma untouched_dir_exists (d : string) : untouched (dir_exists d).
Proof. intros w r w' [= _ <-]. reflexivity. Qed.

Lemma untouched_file_exists (p : path) : untouched (file_exists p).
Proof. intros w r w' [= _ <-]. reflexivity. Qed.

Lemma untouched_bind {A B} (m : M A) (k : A -> M B) :
  untouched m -> (forall a, untouched (k a)) -> untouched (bind m k).
Proof.
  intros Hm Hk w r w' E. unfold bind in E.
  destruct (m w) as [[a|e|] w1] eqn:Em.
  - rewrite (Hk a w1 r w' E). exact (Hm w _ w1 Em).
  - injection E as _ <-. exact (Hm w _ w1 Em).
  - injection E as _ <-. exact (Hm w _ w1 Em).
Qed.

Lemma untouched_call (m : M unit) : untouched m -> untouched (call m).
Proof.
  intros Hm w r w' E. unfold call in E.
  destruct (m w) as [[a|e|] w1] eqn:Em; injection E as _ <-;
    exact (Hm w _ w1 Em).
Qed.

Lemma confined_bind {A B} (d : string) (m : M A) (k : A -> M B) :
  confined d m -> (forall a, confined d (k a)) -> confined d (bind m k).
Proof.
  intros Hm Hk w r w' E d' Hd. unfold bind in E.
  destruct (m w) as [[a|e|] w1] eqn:Em.
  - rewrite (Hk a w1 r w' E d' Hd). exact (Hm w _ w1 Em d' Hd).
  - injection E as _ <-. exact (Hm w _ w1 Em d' Hd).
  - injection E as _ <-. exact (Hm w _ w1 Em d' Hd).
Qed.

Lemma confined_write_file (d name : string) : confined d (write_file (d, name)).
Proof.
  intros w r w' E d' Hd. unfold write_file in E. cbn [fst snd] in E.
  destruct (fs w !! d); injection E as _ <-; [|reflexivity].
  cbn [fs]. apply lookup_insert_ne. congruence.
Qed.

Lemma confined_mapM {A B} (d : string) (f : A -> M B) (l : list A) :
  (forall a, confined d (f a)) -> confined d (mapM f l).
Proof.
  intros Hf. induction l as [|a l IH]; cbn [mapM].
  - apply untouched_confined, untouched_ret.
  - apply confined_bind; [apply Hf|]. intros b.
    apply confined_bind; [exact IH|]. intros bs.
    apply untouched_confined, untouched_ret.
Qed.

Lemma untouched_mapM {A B} (f : A -> M B) (l : list A) :
  (forall a, untouched (f a)) -> untouched (mapM f l).
Proof.
  intros Hf. induction l as [|a l IH]; cbn [mapM].
  - apply untouched_ret.
  - apply untouched_bind; [apply Hf|]. intros b.
    apply untouched_bind; [exact IH|]. intros bs. apply untouched_ret.
Qed.

End Cleanup.

Create HintDb tmpdir discriminated.

#[local] Hint Resolve untouched_ret untouched_raise untouched_return
  untouched_emit untouched_print untouched_guard untouched_of_option
  untouched_of_sum untouched_dir_exists untouched_file_exists
  untouched_call confined_write_file : tmpdir.

(** Decompose a monadic term along its binds and case distinctions. *)
Ltac walk :=
  repeat first
    [ progress intros
    | progress cbv zeta
    | solve [eauto with tmpdir]
    | solve [apply untouched_confined; eauto with tmpdir]
    | apply untouched_bind
    | apply confined_bind
    | apply untouched_mapM
    | apply confined_mapM
    | match goal with
      | |- Py.untouched (if ?b then _ else _) => destruct b
      | |- Py.confined _ (if ?b then _ else _) => destruct b
      | |- Py.untouched (match ?x with _ => _ end) => destruct x
      | |- Py.confined _ (match ?x with _ => _ end) => destruct x
      end ].

Section CleanupPipelines.

Import MoviePy Py Collab.

Variable env : Env.

Lemma untouched_storage_bucket : untouched (storage_bucket env).
Proof. unfold storage_bucket. walk. Qed.

Lemma untouched_list_blobs : untouched (list_blobs env).
Proof. unfold list_blobs. walk. Qed.

Lemma untouched_upload (name : string) (content : Media) :
  untouched (upload_from_filename env name content).
Proof.
  unfold upload_from_filename. apply untouched_bind; [walk|].
  intros _ w r w' [= _ <-]. reflexivity.
Qed.

Lemma confined_download (d blob name : string) :
  confined d (download_to_filename env blob (d, name)).
Proof. unfold download_to_filename. walk. Qed.

Lemma untouched_VideoFileClip (p : path) : untouched (VideoFileClip env p).
Proof. unfold VideoFileClip. walk. Qed.

Lemma confined_write_videofile (d name : string) :
  confined d (write_videofile env (d, name)).
Proof. unfold write_videofile. walk. Qed.

Lemma confined_download_loop (d : string) (blobs : list string) :
  confined d (download_loop env d blobs).
Proof.
  induction blobs as [|name rest IH]; cbn [download_loop]; [walk|].
  destruct (skipped name); [exact IH|].
  apply confined_bind; [apply confined_download|]. walk.
Qed.

End CleanupPipelines.

#[local] Hint Resolve untouched_storage_bucket untouched_list_blobs
  untouched_upload confined_download untouched_VideoFileClip
  confined_write_videofile confined_download_loop : tmpdir.

Section TemporaryDirectory.

Import MoviePy Py Collab.

(** The directory made by [mkdtemp] did not exist before. *)
Lemma mkdtemp_fresh (w : World) : fs w !! fresh (dom (fs w)) = None.
Proof. apply not_elem_of_dom, is_fresh. Qed.

(** What survives when all changes were inside [d] and [d] is deleted. *)
Lemma delete_after_confined (d : string) (m0 m1 : gmap string (list string)) :
  (forall d', d' <> d -> m1 !! d' = m0 !! d') -> delete d m1 = delete d m0.
Proof.
  intros H. apply map_eq. intros d'. destruct (decide (d' = d)) as [->|Hne].
  - now rewrite !lookup_delete_eq.
  - rewrite !lookup_delete_ne by congruence. now apply H.
Qed.

(** Both shapes of the [finally] block delete [d] and nothing else. *)
Lemma cleanup_deletes (d : string) (checked_cleanup : bool) (w : World)
  (r : Outcome unit) (w' : World) :
  (if checked_cleanup
   then
     bind (dir_exists d)
       (fun exists_ : bool =>
          if exists_
          then bind (print (info "Cleaning up temporary directory"))
                 (fun _ => rmtree d)
          else ret tt)
   else
     bind (print (info "Cleaning up temporary directory..."))
       (fun _ => rmtree d)) w = (r, w') ->
  r = Normal tt /\ fs w' = delete d (fs w).
Proof.
  destruct checked_cleanup; unfold bind, dir_exists, print, emit, rmtree, ret;
    cbn [fs uploads trace].
  - destruct (bool_decide (is_Some (fs w !! d))) eqn:Hex.
    + intros [= <- <-]. split; reflexivity.
    + intros [= <- <-]. split; [reflexivity|].
      apply bool_decide_eq_false in Hex.
      symmetry. apply delete_id. destruct (fs w !! d) eqn:E; [|reflexivity].
      exfalso. apply Hex. eauto.
  - intros [= <- <-]. split; reflexivity.
Qed.

Lemma try_except_finally_deletes (d : string)
  (body : M unit) (handler : exn -> M unit) (final : M unit) :
  confined d body ->
  (forall e, untouched (handler e)) ->
  (forall w r w', final w = (r, w') -> r = Normal tt /\ fs w' = delete d (fs w)) ->
  forall w r w',
    try_except_finally body handler final w = (r, w') ->
    fs w' = delete d (fs w).
Proof.
  intros Hbody Hhandler Hfinal w r w' E. unfold try_except_finally in E.
  destruct (body w) as [rb w1] eqn:Eb.
  assert (delete d (fs w1) = delete d (fs w)) as H1
      by (apply delete_after_confined; exact (Hbody w rb w1 Eb)).
  destruct rb as [[]|e|].
  - destruct (final w1) as [rf w3] eqn:Ef.
    destruct (Hfinal w1 rf w3 Ef) as [-> Hfs]. injection E as _ <-. congruence.
  - destruct (is_Exception e).
    + destruct (handler e w1) as [rh w2] eqn:Eh.
      pose proof (Hhandler e w1 rh w2 Eh) as H2.
      destruct (final w2) as [rf w3] eqn:Ef.
      destruct (Hfinal w2 rf w3 Ef) as [-> Hfs]. injection E as _ <-.
      congruence.
    + destruct (final w1) as [rf w3] eqn:Ef.
      destruct (Hfinal w1 rf w3 Ef) as [-> Hfs]. injection E as _ <-.
      congruence.
  - destruct (final w1) as [rf w3] eqn:Ef.
    destruct (Hfinal w1 rf w3 Ef) as [-> Hfs]. injection E as _ <-. congruence.
Qed.

Lemma try_finally_rmtree_deletes {A} (d : string) (body : M A) :
  confined d body ->
  forall w r w',
    try_finally body (rmtree d) w = (r, w') -> fs w' = delete d (fs w).
Proof.
  intros Hbody w r w' E. unfold try_finally, rmtree in E.
  destruct (body w) as [rb w1] eqn:Eb. injection E as _ <-. cbn [fs].
  apply delete_after_confined. exact (Hbody w rb w1 Eb).
Qed.

(** Every script built on the shared body leaves the local file system
    as it was, provided its stitching step writes inside the temporary
    directory only. *)
Lemma moviepy_pipeline_untouched (env : Env)
  (FINAL_VIDEO_NAME no_videos_text : string)
  (stitch : string -> list path -> M Composite) (checked_cleanup : bool) :
  (forall d files, confined d (stitch d files)) ->
  untouched (moviepy_pipeline env FINAL_VIDEO_NAME no_videos_text stitch
               checked_cleanup).
Proof.
  intros Hstitch. unfold moviepy_pipeline. apply untouched_call.
  intros w r w' E. unfold bind at 1 in E. unfold mkdtemp at 1 in E.
  set (d := fresh (dom (fs w))) in *.
  unfold bind at 1 in E. unfold print at 1, emit at 1 in E.
  cbn [fs uploads trace] in E.
  apply (try_except_finally_deletes d) in E.
  - rewrite E. cbn [fs]. rewrite delete_insert_eq.
    apply delete_id, mkdtemp_fresh.
  - walk.
  - walk.
  - intros w0 r0 w0'. apply cleanup_deletes.
Qed.

End TemporaryDirectory.

Section StitchingSteps.

Import MoviePy Py Collab.

Variable env : Env.

Lemma confined_concatenation_stitch (d : string) (files : list path) :
  confined d (Concatenation.stitch env d files).
Proof. unfold Concatenation.stitch. walk. Qed.

Lemma untouched_fade_loop (td : Q) (files : list path) :
  forall i n, untouched (FadeInOut.fade_loop td env i n files).
Proof.
  induction files as [|f rest IH]; intros i n; cbn [FadeInOut.fade_loop]; walk.
Qed.

Lemma confined_fade_stitch (td : Q) (d : string) (files : list path) :
  confined d (FadeInOut.stitch td env d files).
Proof.
  unfold FadeInOut.stitch. apply untouched_confined.
  apply untouched_bind; [walk|]. intros _.
  apply untouched_bind; [apply untouched_fade_loop|]. walk.
Qed.

Lemma confined_crossfade_stitch (td : Q) (d : string) (files : list path) :
  confined d (Crossfade.stitch td env d files).
Proof. unfold Crossfade.stitch. walk. Qed.

Lemma confined_blend_stitch (td : Q) (d : string) (files : list path) :
  confined d (Blend.stitch td env d files).
Proof. unfold Blend.stitch. walk. Qed.

Lemma confined_slide_stitch (td : Q) (d : string) (files : list path) :
  confined d (Slide.stitch td env d files).
Proof. unfold Slide.stitch. walk. Qed.

Lemma confined_wipe_stitch (td : Q) (d : string) (files : list path) :
  confined d (Wipe.stitch td env d files).
Proof. unfold Wipe.stitch. walk. Qed.

Lemma untouched_interpolate (svc : Veo2.Service) (a b : path)
  (prompt out : string) :
  untouched (Veo2.interpolate_video_veo2 svc a b prompt out).
Proof.
  unfold Veo2.interpolate_video_veo2.
  generalize Veo2.max_iterations as n. intros n. walk.
Qed.

Lemma confined_transition_step (bridge : Veo2.Bridge) (d : string) (i : nat)
  (clip_A clip_B : Clip) :
  confined d (Veo2.transition_step env bridge d i clip_A clip_B).
Proof.
  pose proof untouched_interpolate as Hcall.
  unfold Veo2.transition_step. walk.
Qed.

Lemma confined_transitions_loop (bridge : Veo2.Bridge) (d : string)
  (clips : list Clip) :
  forall i, confined d (Veo2.transitions_loop env bridge d i clips).
Proof.
  induction clips as [|clip_A rest IH]; intros i; [cbn; walk|].
  destruct rest as [|clip_B rest]; [cbn; walk|].
  rewrite transitions_loop_cons.
  apply confined_bind; [apply confined_transition_step|]. intros appended.
  apply confined_bind; [apply IH|]. walk.
Qed.

Lemma confined_veo2_stitch (bridge : Veo2.Bridge) (d : string)
  (files : list path) :
  confined d (Veo2.stitch env bridge d files).
Proof.
  unfold Veo2.stitch, Veo2.build_final_sequence.
  apply confined_bind; [walk|]. intros _.
  apply confined_bind; [walk|]. intros clips.
  apply confined_bind; [|walk].
  apply confined_bind; [apply confined_transitions_loop|]. walk.
Qed.

Lemma confined_stitch_loop (tools : Xfade.Tools) (d : string)
  (rest : list path) :
  forall i current, confined d (Xfade.stitch_loop tools d i current rest).
Proof.
  induction rest as [|next rest IH]; intros i current;
    cbn [Xfade.stitch_loop]; [walk|].
  apply confined_bind; [|intros _; apply IH].
  unfold Xfade.stitch_two_videos, Xfade.get_video_duration. walk.
Qed.

Lemma xfade_main_untouched (tools : Xfade.Tools) :
  untouched (Xfade.main env tools).
Proof.
  unfold Xfade.main. apply untouched_call.
  apply untouched_bind; [unfold Xfade.check_for_ffmpeg; walk|]. intros _.
  apply untouched_bind; [walk|]. intros _.
  apply untouched_bind; [unfold Xfade.list_blobs_in_folder; walk|].
  intros video_blobs. destruct (_ <? _)%nat; [walk|].
  apply untouched_bind; [walk|]. intros _.
  apply untouched_bind; [|walk].
  intros w r w' E. unfold bind at 1 in E. unfold mkdtemp at 1 in E.
  set (d := fresh (dom (fs w))) in *.
  apply (try_finally_rmtree_deletes d) in E.
  - rewrite E. cbn [fs]. rewrite delete_insert_eq.
    apply delete_id, mkdtemp_fresh.
  - apply confined_bind; [walk|]. intros _.
    apply confined_bind.
    + apply confined_mapM. intros blob. unfold Xfade.download_blob. walk.
    + intros paths. destruct paths as [|first rest]; [walk|].
      apply confined_bind; [apply confined_stitch_loop|]. intros final.
      unfold Xfade.upload_blob. walk.
Qed.

End StitchingSteps.

(** ** Claims on whole runs *)

Section Runs.

Import MoviePy Py Collab.
Local Open Scope Q_scope.

(** A run of concatenation.py on a folder holding two videos (and the
    folder placeholder): the upload is the two clips end to end, and the
    local file system ends as it started. *)
Example concat_run_example :
  let env := mkEnv true
               (Some ["CRED_exps/input_videos/";
                      "CRED_exps/input_videos/b.mp4";
                      "CRED_exps/input_videos/a.mp4"])
               (fun _ => true) true
               (fun p => if String.eqb (snd p) "a.mp4"
                         then Some (3, (1920, 1080)%Z)
                         else Some (4, (1920, 1080)%Z))
               true in
  let w := mkWorld ∅ [] [] in
  let d := fresh (dom (fs w)) in
  let '(r, w') := Concatenation.process_gcs_videos_concat_only env w in
  r = Normal tt
  /\ fs w' = ∅
  /\ uploads w'
     = [("CRED_exps/output_videos/concatenated_video_no_transition.mp4",
         Rendered (mkComposite
                     [mkClip (d, "a.mp4") 3 (1920, 1080)%Z 0 [];
                      mkClip (d, "b.mp4") 4 (1920, 1080)%Z (0 + 3) []]
                     (1920, 1080)%Z (3 + (4 + 0))))].
Proof. vm_compute. repeat split; reflexivity. Qed.

(** C10: every pipeline run leaves the local file system exactly as it
    found it, whatever the collaborators answer and however the run ends:
    the temporary directory made by [mkdtemp] (or by
    [TemporaryDirectory]) is gone, with everything downloaded or written
    into it. *)
Theorem temporary_directory_always_removed
  (env : Env) (bridge : Veo2.Bridge) (tools : Xfade.Tools) (w : World) :
  Forall (fun run : M unit =>
            let '(_, w') := run w in
            fs w' = fs w /\ fs w' !! fresh (dom (fs w)) = None)
         [Concatenation.process_gcs_videos_concat_only env;
          FadeInOut.process_gcs_videos env;
          Crossfade.process_gcs_videos_with_crossfade env;
          Blend.process_gcs_videos_with_blend env;
          Slide.process_gcs_videos_with_slide env;
          Wipe.process_gcs_videos_with_wipe env;
          Veo2.process_gcs_videos env bridge;
          Xfade.main env tools].
Proof.
  assert (forall run : M unit,
             untouched run ->
             let '(_, w') := run w in
             fs w' = fs w /\ fs w' !! fresh (dom (fs w)) = None) as H.
  { intros run Hrun. destruct (run w) as [r w'] eqn:E.
    pose proof (Hrun w r w' E) as ->. split; [reflexivity|].
    apply mkdtemp_fresh. }
  repeat constructor; apply H.
  - apply moviepy_pipeline_untouched, confined_concatenation_stitch.
  - apply moviepy_pipeline_untouched, confined_fade_stitch.
  - apply moviepy_pipeline_untouched, confined_crossfade_stitch.
  - apply moviepy_pipeline_untouched, confined_blend_stitch.
  - apply moviepy_pipeline_untouched, confined_slide_stitch.
  - apply moviepy_pipeline_untouched, confined_wipe_stitch.
  - apply moviepy_pipeline_untouched, confined_veo2_stitch.
  - apply xfade_main_untouched.
Qed.

Lemma download_loop_all_skipped (env : Env) (d : string) (names : list string) :
  Forall (fun name => skipped name = true) names ->
  download_loop env d names = ret [].
Proof.
  induction 1 as [|name rest Hname _ IH]; cbn [download_loop]; [reflexivity|].
  now rewrite Hname.
Qed.

Lemma insert_sorted_length {A} (key : A -> string) (a : A) (l : list A) :
  length (PyStr.insert_sorted key a l) = S (length l).
Proof.
  induction l as [|x l IH]; cbn; [reflexivity|].
  destruct (String.leb (key a) (key x)); cbn; [reflexivity|now rewrite IH].
Qed.

Lemma sort_by_length {A} (key : A -> string) (l : list A) :
  length (PyStr.sort_by key l) = length l.
Proof.
  induction l as [|x l IH]; cbn; [reflexivity|].
  unfold PyStr.sort_by in IH. now rewrite insert_sorted_length, IH.
Qed.

(** xfade.py stops before creating anything when fewer than two videos
    are listed. *)
Lemma xfade_main_too_few (env : Env) (tools : Xfade.Tools) (w : World)
  (names : list string) :
  Xfade.which_ffmpeg tools = true -> Xfade.which_ffprobe tools = true ->
  client_ok env = true -> listing env = Some names ->
  (length (List.filter (Xfade.is_video_blob Xfade.SOURCE_PREFIX) names) < 2)%nat ->
  Xfade.main env tools w
  = (Normal tt,
     mkWorld (fs w) (uploads w)
       (trace w
        ++ [Print (info "Listing videos...");
            Print (error "Error: Found fewer than 2 videos. Need at least 2 to stitch.")])).
Proof.
  intros Hff Hfp Hcl Hls Hlen.
  unfold Xfade.main, call, Xfade.check_for_ffmpeg, Xfade.list_blobs_in_folder,
    storage_bucket, list_blobs, bind, print, emit, guard, of_option, ret,
    return_.
  rewrite Hff, Hfp, Hcl, Hls. cbn [negb orb fs uploads trace].
  rewrite sort_by_length.
  destruct (Nat.ltb_spec
              (length (List.filter (Xfade.is_video_blob Xfade.SOURCE_PREFIX) names))
              2) as [_|Hge]; [|lia].
  cbn [fs uploads trace]. rewrite <- app_assoc. reflexivity.
Qed.

(** C6, as stated, fails: on a folder without videos concatenation.py
    prints a warning, not an error, and the function returns normally;
    nothing is raised. *)
Lemma empty_clip_list_counterexample :
  let env := mkEnv true (Some ["CRED_exps/input_videos/"]) (fun _ => true)
                   true (fun _ => None) true in
  let w := mkWorld ∅ [] [] in
  let '(r, w') := Concatenation.process_gcs_videos_concat_only env w in
  r = Normal tt
  /\ existsb Timeline.is_error_line (trace w') = false
  /\ Print (warning "No video files found. Exiting.") ∈ trace w'
  /\ uploads w' = [].
Proof.
  vm_compute. split; [reflexivity|]. split; [reflexivity|].
  split; [|reflexivity]. do 2 constructor 2. constructor 1.
Qed.

(** C6 (amended): with no video to stitch, a run stops before any clip is
    opened or placed.  The moviepy scripts print the warning "No video
    files found. Exiting.", clean up and return; xfade.py prints an
    "Error: ... Need at least 2 to stitch." line and returns.  In both
    cases the pipeline function returns normally, no exception is raised,
    nothing is uploaded and the local file system is as before. *)
Theorem empty_clip_list_returns_early :
  (forall (env : Env) (FINAL_VIDEO_NAME no_videos_text : string)
          (stitch : string -> list path -> M Composite)
          (checked_cleanup : bool) (w : World) (names : list string),
      client_ok env = true ->
      listing env = Some names ->
      Forall (fun name => skipped name = true) names ->
      exists w',
        moviepy_pipeline env FINAL_VIDEO_NAME no_videos_text stitch
          checked_cleanup w
        = (Normal tt, w')
        /\ fs w' = fs w
        /\ uploads w' = uploads w
        /\ trace w'
           = trace w
             ++ [Print (info ("Created temporary directory: "
                              +:+ fresh (dom (fs w))));
                 Print (info "Downloading videos...");
                 Print (warning no_videos_text);
                 Print (info (if checked_cleanup
                              then "Cleaning up temporary directory"
                              else "Cleaning up temporary directory..."))])
  /\ (forall (env : Env) (tools : Xfade.Tools) (w : World)
             (names : list string),
         Xfade.which_ffmpeg tools = true ->
         Xfade.which_ffprobe tools = true ->
         client_ok env = true ->
         listing env = Some names ->
         List.filter (Xfade.is_video_blob Xfade.SOURCE_PREFIX) names = [] ->
         Xfade.main env tools w
         = (Normal tt,
            mkWorld (fs w) (uploads w)
              (trace w
               ++ [Print (info "Listing videos...");
                   Print (error "Error: Found fewer than 2 videos. Need at least 2 to stitch.")]))).
Proof.
  split.
  - intros env name text stitch chk w names Hcl Hls Hskip.
    unfold moviepy_pipeline, call.
    unfold bind at 1. unfold mkdtemp at 1.
    set (d := fresh (dom (fs w))).
    unfold bind at 1. unfold print at 1, emit at 1. cbn [fs uploads trace].
    unfold try_except_finally.
    cbv beta iota zeta.
    unfold storage_bucket, list_blobs, guard, of_option.
    rewrite Hcl, Hls.
    unfold bind, print, emit, ret, return_, dir_exists, rmtree.
    cbn [fs uploads trace].
    rewrite (download_loop_all_skipped env d names Hskip).
    unfold ret. cbn [fs uploads trace is_Exception].
    assert (delete d (<[d:=[]]> (fs w)) = fs w) as Hfs.
    { rewrite delete_insert_eq. apply delete_id, mkdtemp_fresh. }
    destruct chk.
    + cbn [fs uploads trace]. rewrite lookup_insert_eq.
      rewrite (bool_decide_eq_true_2 (is_Some (Some []))) by eauto.
      cbn [fs uploads trace]. eexists. split; [reflexivity|].
      cbn [fs uploads trace]. split; [exact Hfs|]. split; [reflexivity|].
      rewrite <- !app_assoc. reflexivity.
    + cbn [fs uploads trace]. eexists. split; [reflexivity|].
      cbn [fs uploads trace]. split; [exact Hfs|]. split; [reflexivity|].
      rewrite <- !app_assoc. reflexivity.
  - intros env tools w names Hff Hfp Hcl Hls Hnone.
    apply (xfade_main_too_few env tools w names Hff Hfp Hcl Hls).
    rewrite Hnone. cbn. lia.
Qed.

Lemma empty_clip_list_returns_early_witness :
  let env := mkEnv true (Some ["CRED_exps/input_videos/"; "CRED_exps/notes.txt"])
                   (fun _ => true) true (fun _ => None) true in
  let tools := Xfade.mkTools true true (fun _ => None) (fun _ => true) in
  let w := mkWorld ∅ [] [] in
  (exists w',
      Concatenation.process_gcs_videos_concat_only env w = (Normal tt, w')
      /\ fs w' = fs w /\ uploads w' = uploads w)
  /\ fst (Xfade.main env tools w) = Normal tt.
Proof.
  intros env tools w. destruct empty_clip_list_returns_early as [Hm Hx].
  split.
  - destruct (Hm env Concatenation.FINAL_VIDEO_NAME
                "No video files found. Exiting." (Concatenation.stitch env)
                true w
                ["CRED_exps/input_videos/"; "CRED_exps/notes.txt"])
      as (w' & E & Hfs & Hup & _).
    + reflexivity.
    + reflexivity.
    + repeat constructor.
    + exists w'. split; [exact E|]. split; assumption.
  - rewrite (Hx env tools w
               ["CRED_exps/input_videos/"; "CRED_exps/notes.txt"]);
      reflexivity.
Defined.

(** blend.py reads [clips[-2]] after its loop, which a single clip does
    not have. *)
Lemma blend_single_clip_index_error (d : Q) (c : Clip) :
  Blend.schedule d [c] = inl IndexError.
Proof. reflexivity. Qed.

(** C7, as stated, fails for xfade.py: with a single video listed it
    prints an error line and returns without creating or uploading
    anything. *)
Lemma single_clip_xfade_counterexample :
  let env := mkEnv true (Some ["CRED_exps/input_videos/a.mp4"])
                   (fun _ => true) true
                   (fun _ => Some (3, (1920, 1080)%Z)) true in
  let tools := Xfade.mkTools true true (fun _ => Some 3) (fun _ => true) in
  Xfade.main env tools (mkWorld ∅ [] [])
  = (Normal tt,
     mkWorld ∅ []
       [Print (info "Listing videos...");
        Print (error "Error: Found fewer than 2 videos. Need at least 2 to stitch.")]).
Proof. vm_compute. reflexivity. Qed.

(** C7 (amended): a single clip [c] is scheduled without error as one
    segment starting at 0 with no fade, slide or wipe attached, by
    concatenation.py, fade-in-out.py, crossfade.py, slide.py and wipe.py,
    and veo2_interpolation.py hands the lone clip to the concatenation
    without calling the generation service; xfade.py instead refuses
    fewer than two videos: it prints an error line and returns with no
    output. *)
Theorem single_clip_schedules (d : Q) (c : Clip) :
  Timeline.one_segment (set_start 0 c) (Concatenation.schedule [c])
  /\ Timeline.one_segment (fx position_center (set_start 0 c))
                          (FadeInOut.schedule d [c])
  /\ Timeline.one_segment (set_start 0 c) (Crossfade.schedule d [c])
  /\ Timeline.one_segment (set_start 0 c) (Slide.schedule d [c])
  /\ Timeline.one_segment (set_start 0 c) (Wipe.schedule d [c])
  /\ (forall (env : Env) (bridge : Veo2.Bridge) (tmp : string) (w : World),
         Veo2.build_final_sequence env bridge tmp [c] w = (Normal [c], w))
  /\ (forall (env : Env) (tools : Xfade.Tools) (w : World)
             (names : list string) (video : string),
         Xfade.which_ffmpeg tools = true ->
         Xfade.which_ffprobe tools = true ->
         client_ok env = true ->
         listing env = Some names ->
         List.filter (Xfade.is_video_blob Xfade.SOURCE_PREFIX) names = [video] ->
         Xfade.main env tools w
         = (Normal tt,
            mkWorld (fs w) (uploads w)
              (trace w
               ++ [Print (info "Listing videos...");
                   Print (error "Error: Found fewer than 2 videos. Need at least 2 to stitch.")]))).
Proof.
  unfold Timeline.one_segment.
  repeat split.
  - eexists. split; [reflexivity|]. split; [reflexivity|]. cbn. ring.
  - eexists. split; [reflexivity|]. split; [reflexivity|]. cbn. ring.
  - eexists. split; [reflexivity|]. split; [reflexivity|]. cbn. ring.
  - eexists. split; [reflexivity|]. split; [reflexivity|]. cbn. ring.
  - eexists. split; [reflexivity|]. split; [reflexivity|]. cbn. ring.
  - intros env tools w names video Hff Hfp Hcl Hls Hone.
    apply (xfade_main_too_few env tools w names Hff Hfp Hcl Hls).
    rewrite Hone. cbn. lia.
Qed.

Lemma single_clip_schedules_witness :
  let c := mkClip ("tmp", "a.mp4") 3 (1920, 1080)%Z 0 [] in
  let env := mkEnv true (Some ["CRED_exps/input_videos/a.mp4"])
                   (fun _ => true) true
                   (fun _ => Some (3, (1920, 1080)%Z)) true in
  let tools := Xfade.mkTools true true (fun _ => Some 3) (fun _ => true) in
  Timeline.one_segment (set_start 0 c) (Crossfade.schedule (1 # 2) [c])
  /\ fst (Xfade.main env tools (mkWorld ∅ [] [])) = Normal tt.
Proof.
  intros c env tools.
  destruct (single_clip_schedules (1 # 2) c) as (_ & _ & Hc & _ & _ & _ & Hx).
  split; [exact Hc|].
  rewrite (Hx env tools (mkWorld ∅ [] [])
              ["CRED_exps/input_videos/a.mp4"] "CRED_exps/input_videos/a.mp4");
    reflexivity.
Defined.

(** blend.py starts every later clip at [clips[i-1].duration - d], not at
    the running end of the timeline: the third of three clips starts at
    [duration c1 - d]. *)
Lemma blend_third_clip_start (d : Q) (c0 c1 c2 : Clip) :
  exists p x y z,
    Blend.schedule d [c0; c1; c2] = inr p
    /\ layers p = [x; y; z]
    /\ start y = duration c0 - d
    /\ start z = duration c1 - d.
Proof. do 4 eexists. repeat split; reflexivity. Qed.

(** A run of veo2_interpolation.py on three videos where the job of the
    first pair fails (a "done" answer without a response) and the job of
    the second pair succeeds at its third status request: the first pair
    is joined by a cut, the second by the generated clip played five
    times faster. *)
Example veo2_run_example :
  let env := mkEnv true
               (Some ["CRED_exps/input_videos/b.mp4";
                      "CRED_exps/input_videos/c.MOV";
                      "CRED_exps/input_videos/a.mp4"])
               (fun _ => true) true
               (fun p => if String.eqb (snd p) "transition_1.mp4"
                         then Some (5, (1280, 720)%Z)
                         else Some (4, (1920, 1080)%Z))
               true in
  let failing := Veo2.mkService true (Veo2.Initiated (Some "op0"))
                   (fun j => if (j <? 1)%nat then Veo2.NotDone
                             else Veo2.Done None) in
  let working := Veo2.mkService true (Veo2.Initiated (Some "op1"))
                   (fun j => if (j <? 2)%nat then Veo2.NotDone
                             else Veo2.Done (Some [Some "gs://veo_exps_prod/t.mp4"])) in
  let bridge := Veo2.mkBridge (fun _ => true) (fun _ => true)
                  (fun i => if (i =? 0)%nat then failing else working)
                  (fun _ => true) in
  let '(r, w') := Veo2.process_gcs_videos env bridge (mkWorld ∅ [] []) in
  r = Normal tt
  /\ fs w' = ∅
  /\ (exists p,
         uploads w'
         = [("CRED_exps/output_videos/final_video_with_interpolated_transitions.mp4",
             Rendered p)]
         /\ map (fun c => (snd (filename c), start c, duration c)) (layers p)
            = [("a.mp4", 0, 4); ("b.mp4", 0 + 4, 4);
               ("transition_1.mp4", 0 + 4 + 4, 5 / 5);
               ("c.MOV", 0 + 4 + 4 + 5 / 5, 4)])
  /\ Timeline.status_requests (trace w') = 5%nat
  /\ List.filter (fun e => match e with
                           | Print (warning _) => true
                           | _ => false
                           end) (trace w')
     = [Veo2.skipping_line].
Proof.
  vm_compute. split; [reflexivity|]. split; [reflexivity|].
  split; [eexists; split; reflexivity|]. split; reflexivity.
Qed.

End Runs.

(** * Further properties of the scripts *)

(** ** Where the accumulating loops place each clip *)

Section PlacedClips.

Import MoviePy Py Timeline Placement.
Local Open Scope Q_scope.

(** The accumulating loop of crossfade.py only ever appends to its list. *)
Lemma crossfade_loop_prefix (d : Q)  (clips : list Clip) :
  forall (i : nat) (comp : list Clip) (cur : Q),
    exists placed,
      fst (Crossfade.crossfade_loop d i clips comp cur) = comp ++ placed.
Proof.
  induction clips as [|c rest IH]; intros i comp cur; cbn.
  - exists []. now rewrite app_nil_r.
  - destruct (i =? 0)%nat;
      match goal with
      | |- context [Crossfade.crossfade_loop d ?j rest (comp ++ [?y]) ?cur'] =>
          destruct (IH j (comp ++ [y]) cur') as [placed ->];
          exists (y :: placed); now rewrite <- app_assoc
      end.
Qed.

(** Clip [k] of the clips after the first is placed [k + 1] transition
    durations before the sum of what precedes it. *)
Lemma crossfade_loop_placed (d : Q)  (rest : list Clip) :
  forall (i : nat) (comp : list Clip) (cur : Q) (k : nat) (c : Clip),
    rest !! k = Some c ->
    exists x,
      fst (Crossfade.crossfade_loop d (S i) rest comp cur) !! (length comp + k)%nat
      = Some x
      /\ filename x = filename c /\ duration x = duration c
      /\ size x = size c
      /\ effects x = effects c ++ [fadein d]
      /\ start x == cur + sum_durations (take k rest) - Qnat (S k) * d.
Proof.
  induction rest as [|c0 rest IH]; intros i comp cur k c Hk; [discriminate Hk|].
  cbn [Crossfade.crossfade_loop Nat.eqb].
  match goal with
  | |- context [Crossfade.crossfade_loop d _ rest (comp ++ [?y]) ?cur'] =>
      set (placed0 := y); set (next := cur')
  end.
  destruct k as [|k]; cbn in Hk.
  - injection Hk as <-.
    destruct (crossfade_loop_prefix d rest (S (S i)) (comp ++ [placed0]) next)
      as [placed ->].
    exists placed0. split.
    + rewrite <- app_assoc, Nat.add_0_r, lookup_app_r by lia.
      rewrite Nat.sub_diag. reflexivity.
    + cbn. repeat split; try reflexivity. unfold Qnat. cbn. ring.
  - destruct (IH (S i) (comp ++ [placed0]) next k c Hk)
      as (x & Hx & Hf & Hd & Hs & He & Hst).
    exists x. rewrite length_app in Hx. cbn [length] in Hx.
    replace (length comp + S k)%nat with (length comp + 1 + k)%nat by lia.
    split; [exact Hx|]. repeat (split; [assumption|]).
    rewrite Hst. unfold next. cbn [firstn sum_durations].
    rewrite (Qnat_S (S k)). ring.
Qed.

(** The accumulating loop of slide.py only ever appends to its list. *)
Lemma slide_loop_prefix (d : Q) (w : Z) (clips : list Clip) :
  forall (i : nat) (comp : list Clip) (cur : Q),
    exists placed,
      fst (Slide.slide_loop d w i clips comp cur) = comp ++ placed.
Proof.
  induction clips as [|c rest IH]; intros i comp cur; cbn.
  - exists []. now rewrite app_nil_r.
  - destruct (i =? 0)%nat;
      match goal with
      | |- context [Slide.slide_loop d w ?j rest (comp ++ [?y]) ?cur'] =>
          destruct (IH j (comp ++ [y]) cur') as [placed ->];
          exists (y :: placed); now rewrite <- app_assoc
      end.
Qed.

(** Clip [k] of the clips after the first is placed [k + 1] transition
    durations before the sum of what precedes it. *)
Lemma slide_loop_placed (d : Q) (w : Z) (rest : list Clip) :
  forall (i : nat) (comp : list Clip) (cur : Q) (k : nat) (c : Clip),
    rest !! k = Some c ->
    exists x,
      fst (Slide.slide_loop d w (S i) rest comp cur) !! (length comp + k)%nat
      = Some x
      /\ filename x = filename c /\ duration x = duration c
      /\ size x = size c
      /\ effects x = effects c ++ [position_slide w d]
      /\ start x == cur + sum_durations (take k rest) - Qnat (S k) * d.
Proof.
  induction rest as [|c0 rest IH]; intros i comp cur k c Hk; [discriminate Hk|].
  cbn [Slide.slide_loop Nat.eqb].
  match goal with
  | |- context [Slide.slide_loop d w _ rest (comp ++ [?y]) ?cur'] =>
      set (placed0 := y); set (next := cur')
  end.
  destruct k as [|k]; cbn in Hk.
  - injection Hk as <-.
    destruct (slide_loop_prefix d w rest (S (S i)) (comp ++ [placed0]) next)
      as [placed ->].
    exists placed0. split.
    + rewrite <- app_assoc, Nat.add_0_r, lookup_app_r by lia.
      rewrite Nat.sub_diag. reflexivity.
    + cbn. repeat split; try reflexivity. unfold Qnat. cbn. ring.
  - destruct (IH (S i) (comp ++ [placed0]) next k c Hk)
      as (x & Hx & Hf & Hd & Hs & He & Hst).
    exists x. rewrite length_app in Hx. cbn [length] in Hx.
    replace (length comp + S k)%nat with (length comp + 1 + k)%nat by lia.
    split; [exact Hx|]. repeat (split; [assumption|]).
    rewrite Hst. unfold next. cbn [firstn sum_durations].
    rewrite (Qnat_S (S k)). ring.
Qed.

(** The accumulating loop of wipe.py only ever appends to its list. *)
Lemma wipe_loop_prefix (d : Q) (sz : Z * Z) (clips : list Clip) :
  forall (i : nat) (comp : list Clip) (cur : Q),
    exists placed,
      fst (Wipe.wipe_loop d sz i clips comp cur) = comp ++ placed.
Proof.
  induction clips as [|c rest IH]; intros i comp cur; cbn.
  - exists []. now rewrite app_nil_r.
  - destruct (i =? 0)%nat;
      match goal with
      | |- context [Wipe.wipe_loop d sz ?j rest (comp ++ [?y]) ?cur'] =>
          destruct (IH j (comp ++ [y]) cur') as [placed ->];
          exists (y :: placed); now rewrite <- app_assoc
      end.
Qed.

(** Clip [k] of the clips after the first is placed [k + 1] transition
    durations before the sum of what precedes it. *)
Lemma wipe_loop_placed (d : Q) (sz : Z * Z) (rest : list Clip) :
  forall (i : nat) (comp : list Clip) (cur : Q) (k : nat) (c : Clip),
    rest !! k = Some c ->
    exists x,
      fst (Wipe.wipe_loop d sz (S i) rest comp cur) !! (length comp + k)%nat
      = Some x
      /\ filename x = filename c /\ duration x = duration c
      /\ size x = size c
      /\ effects x = effects c ++ [mask_wipe sz d]
      /\ start x == cur + sum_durations (take k rest) - Qnat (S k) * d.
Proof.
  induction rest as [|c0 rest IH]; intros i comp cur k c Hk; [discriminate Hk|].
  cbn [Wipe.wipe_loop Nat.eqb].
  match goal with
  | |- context [Wipe.wipe_loop d sz _ rest (comp ++ [?y]) ?cur'] =>
      set (placed0 := y); set (next := cur')
  end.
  destruct k as [|k]; cbn in Hk.
  - injection Hk as <-.
    destruct (wipe_loop_prefix d sz rest (S (S i)) (comp ++ [placed0]) next)
      as [placed ->].
    exists placed0. split.
    + rewrite <- app_assoc, Nat.add_0_r, lookup_app_r by lia.
      rewrite Nat.sub_diag. reflexivity.
    + cbn. repeat split; try reflexivity. unfold Qnat. cbn. ring.
  - destruct (IH (S i) (comp ++ [placed0]) next k c Hk)
      as (x & Hx & Hf & Hd & Hs & He & Hst).
    exists x. rewrite length_app in Hx. cbn [length] in Hx.
    replace (length comp + S k)%nat with (length comp + 1 + k)%nat by lia.
    split; [exact Hx|]. repeat (split; [assumption|]).
    rewrite Hst. unfold next. cbn [firstn sum_durations].
    rewrite (Qnat_S (S k)). ring.
Qed.

(** What crossfade.py hands to [CompositeVideoClip]: the first clip at 0 as it
    is, every later clip with one more effect and an earlier start. *)
Lemma crossfade_schedule_layers (d : Q) (clip0 : Clip) (rest : list Clip)
  (p : Composite) :
  Crossfade.schedule d (clip0 :: rest) = inr p ->
  length (layers p) = S (length rest)
  /\ layers p !! 0%nat = Some (set_start 0 clip0)
  /\ forall (k : nat) (c : Clip),
       rest !! k = Some c ->
       exists x,
         layers p !! S k = Some x
         /\ filename x = filename c /\ duration x = duration c
         /\ size x = size c
         /\ effects x = effects c ++ [fadein d]
         /\ start x
            == duration clip0 + sum_durations (take k rest) - Qnat (S k) * d.
Proof.
  unfold Crossfade.schedule. cbn [Crossfade.crossfade_loop Nat.eqb app].
  pose proof (crossfade_loop_length d rest 1 [set_start 0 clip0] (duration clip0))
    as Hlen.
  pose proof (crossfade_loop_prefix d rest 1 [set_start 0 clip0] (duration clip0))
    as [placed Hpre].
  pose proof (fun k c H =>
                crossfade_loop_placed d rest 0 [set_start 0 clip0] (duration clip0)
                  k c H) as Hplaced.
  destruct (Crossfade.crossfade_loop d 1 rest [set_start 0 clip0] (duration clip0))
    as [comp cur].
  cbn [fst] in *. subst comp.
  cbn [app CompositeVideoClip length] in *. intros [= <-].
  cbn [set_duration layers length].
  split; [lia|]. split; [reflexivity|].
  intros k c Hk. destruct (Hplaced k c Hk) as (x & Hx & Hrest).
  exists x. split; [exact Hx|exact Hrest].
Qed.

(** What slide.py hands to [CompositeVideoClip]: the first clip at 0 as it
    is, every later clip with one more effect and an earlier start. *)
Lemma slide_schedule_layers (d : Q) (clip0 : Clip) (rest : list Clip)
  (p : Composite) :
  Slide.schedule d (clip0 :: rest) = inr p ->
  length (layers p) = S (length rest)
  /\ layers p !! 0%nat = Some (set_start 0 clip0)
  /\ forall (k : nat) (c : Clip),
       rest !! k = Some c ->
       exists x,
         layers p !! S k = Some x
         /\ filename x = filename c /\ duration x = duration c
         /\ size x = size c
         /\ effects x = effects c ++ [position_slide (fst (size clip0)) d]
         /\ start x
            == duration clip0 + sum_durations (take k rest) - Qnat (S k) * d.
Proof.
  unfold Slide.schedule. cbn [Slide.slide_loop Nat.eqb app].
  pose proof (slide_loop_length d (fst (size clip0)) rest 1 [set_start 0 clip0] (duration clip0))
    as Hlen.
  pose proof (slide_loop_prefix d (fst (size clip0)) rest 1 [set_start 0 clip0] (duration clip0))
    as [placed Hpre].
  pose proof (fun k c H =>
                slide_loop_placed d (fst (size clip0)) rest 0 [set_start 0 clip0] (duration clip0)
                  k c H) as Hplaced.
  destruct (Slide.slide_loop d (fst (size clip0)) 1 rest [set_start 0 clip0] (duration clip0))
    as [comp cur].
  cbn [fst] in *. subst comp.
  cbn [app CompositeVideoClip length] in *. intros [= <-].
  cbn [set_duration layers length].
  split; [lia|]. split; [reflexivity|].
  intros k c Hk. destruct (Hplaced k c Hk) as (x & Hx & Hrest).
  exists x. split; [exact Hx|exact Hrest].
Qed.

(** What wipe.py hands to [CompositeVideoClip]: the first clip at 0 as it
    is, every later clip with one more effect and an earlier start. *)
Lemma wipe_schedule_layers (d : Q) (clip0 : Clip) (rest : list Clip)
  (p : Composite) :
  Wipe.schedule d (clip0 :: rest) = inr p ->
  length (layers p) = S (length rest)
  /\ layers p !! 0%nat = Some (set_start 0 clip0)
  /\ forall (k : nat) (c : Clip),
       rest !! k = Some c ->
       exists x,
         layers p !! S k = Some x
         /\ filename x = filename c /\ duration x = duration c
         /\ size x = size c
         /\ effects x = effects c ++ [mask_wipe (size clip0) d]
         /\ start x
            == duration clip0 + sum_durations (take k rest) - Qnat (S k) * d.
Proof.
  unfold Wipe.schedule. cbn [Wipe.wipe_loop Nat.eqb app].
  pose proof (wipe_loop_length d (size clip0) rest 1 [set_start 0 clip0] (duration clip0))
    as Hlen.
  pose proof (wipe_loop_prefix d (size clip0) rest 1 [set_start 0 clip0] (duration clip0))
    as [placed Hpre].
  pose proof (fun k c H =>
                wipe_loop_placed d (size clip0) rest 0 [set_start 0 clip0] (duration clip0)
                  k c H) as Hplaced.
  destruct (Wipe.wipe_loop d (size clip0) 1 rest [set_start 0 clip0] (duration clip0))
    as [comp cur].
  cbn [fst] in *. subst comp.
  cbn [app CompositeVideoClip length] in *. intros [= <-].
  cbn [set_duration layers length].
  split; [lia|]. split; [reflexivity|].
  intros k c Hk. destruct (Hplaced k c Hk) as (x & Hx & Hrest).
  exists x. split; [exact Hx|exact Hrest].
Qed.

End PlacedClips.

Section Staggering.

Import MoviePy Py Timeline Placement.
Local Open Scope Q_scope.

Lemma staggered_of_layers (d : Q) (clip0 : Clip) (rest layers_ : list Clip)
  (extra : Clip -> Clip -> Prop) :
  length layers_ = S (length rest) ->
  layers_ !! 0%nat = Some (set_start 0 clip0) ->
  (forall (k : nat) (c : Clip),
      rest !! k = Some c ->
      exists x,
        layers_ !! S k = Some x
        /\ filename x = filename c /\ duration x = duration c
        /\ size x = size c
        /\ extra x c
        /\ start x
           == duration clip0 + sum_durations (take k rest) - Qnat (S k) * d) ->
  staggered d (clip0 :: rest) layers_.
Proof.
  intros Hlen H0 Hlater. split; [exact Hlen|].
  intros [|k] c Hc; cbn in Hc.
  - injection Hc as <-. exists (set_start 0 clip0).
    split; [exact H0|]. cbn. repeat split; try reflexivity; try ring.
  - destruct (Hlater k c Hc) as (x & Hx & Hf & Hd & Hs & _ & Hst).
    exists x. repeat (split; [assumption|]).
    rewrite Hst. cbn [firstn sum_durations]. unfold Qnat. ring.
Qed.

Lemma place_from_lookup (clips : list Clip) :
  forall (t : Q) (i : nat) (c : Clip),
    clips !! i = Some c ->
    exists x, place_from t clips !! i = Some x
              /\ filename x = filename c /\ duration x = duration c
              /\ size x = size c /\ effects x = effects c
              /\ start x == t + sum_durations (take i clips).
Proof.
  induction clips as [|c0 rest IH]; intros t i c Hi; [discriminate Hi|].
  destruct i as [|i]; cbn in Hi.
  - injection Hi as <-. eexists. split; [reflexivity|]. cbn.
    repeat split; try reflexivity. ring.
  - destruct (IH (t + duration c0) i c Hi) as (x & Hx & Hf & Hd & Hs & He & Hst).
    exists x. split; [exact Hx|]. repeat (split; [assumption|]).
    rewrite Hst. cbn [firstn sum_durations]. ring.
Qed.

Lemma place_from_length (clips : list Clip) :
  forall t, length (place_from t clips) = length clips.
Proof.
  induction clips as [|c rest IH]; intros t; cbn; [reflexivity|].
  now rewrite IH.
Qed.

Lemma processed_from_lookup (d : Q) (clips : list Clip) :
  forall (i n k : nat) (c : Clip),
    clips !! k = Some c ->
    FadeInOut.processed_from d i n clips !! k
    = Some (FadeInOut.apply_fades d (i + k) n c).
Proof.
  induction clips as [|c0 rest IH]; intros i n k c Hk; [discriminate Hk|].
  cbn [FadeInOut.processed_from]. destruct k as [|k]; cbn in Hk.
  - injection Hk as <-. now rewrite Nat.add_0_r.
  - etrans; [exact (IH (S i) n k c Hk)|]. do 2 f_equal. lia.
Qed.

Lemma processed_from_length (d : Q) (clips : list Clip) :
  forall i n, length (FadeInOut.processed_from d i n clips) = length clips.
Proof.
  induction clips as [|c rest IH]; intros i n; cbn; [reflexivity|].
  now rewrite IH.
Qed.

Lemma take_processed_from_durations (d : Q) (clips : list Clip) :
  forall i n k,
    sum_durations (take k (FadeInOut.processed_from d i n clips))
    = sum_durations (take k clips).
Proof.
  induction clips as [|c rest IH]; intros i n k; [now destruct k|].
  destruct k as [|k]; cbn; [reflexivity|]. rewrite IH.
  unfold FadeInOut.apply_fades.
  destruct (0 <? i)%nat, (i <? n - 1)%nat; reflexivity.
Qed.

(** Every clip of fade-in-out.py keeps its place in the order and is
    placed at the sum of the durations in front of it; the first clip is
    not faded in, the last not faded out, every other end of a clip is
    faded for [d] seconds. *)
Lemma fade_schedule_layers (d : Q) (clips : list Clip) (p : Composite) :
  FadeInOut.schedule d clips = inr p ->
  length (layers p) = length clips
  /\ forall (i : nat) (c : Clip),
       clips !! i = Some c ->
       exists x,
         layers p !! i = Some x
         /\ filename x = filename c /\ duration x = duration c
         /\ size x = size c
         /\ effects x
            = effects c
              ++ (if (0 <? i)%nat then [fadein d] else [])
              ++ (if (i <? length clips - 1)%nat then [fadeout d] else [])
              ++ [position_center]
         /\ start x == sum_durations (take i clips).
Proof.
  unfold FadeInOut.schedule.
  destruct (concatenate_videoclips _ compose) as [q|] eqn:E; [|discriminate].
  intros [= <-]. unfold concatenate_videoclips in E.
  destruct (FadeInOut.processed_from d 0 (length clips) clips) as [|q0 qs] eqn:Ep;
    [discriminate E|].
  injection E as <-. cbn [layers].
  change (fx position_center (set_start 0 q0)
          :: map (fx position_center) (place_from (0 + duration q0) qs))
    with (map (fx position_center) (place_from 0 (q0 :: qs))).
  rewrite <- Ep. clear Ep q0 qs.
  split; [now rewrite length_map, place_from_length, processed_from_length|].
  intros i c Hc.
  pose proof (processed_from_lookup d clips 0 (length clips) i c Hc) as Hp.
  destruct (place_from_lookup _ 0 i _ Hp) as (x & Hx & Hf & Hd & Hs & He & Hst).
  exists (fx position_center x). split.
  - now rewrite list_lookup_fmap, Hx.
  - cbn [filename duration size effects start fx]. cbn [Nat.add] in *.
    rewrite Hf, Hd, Hs, He, Hst, take_processed_from_durations.
    unfold FadeInOut.apply_fades.
    destruct (0 <? i)%nat, (i <? length clips - 1)%nat; cbn;
      repeat split; try reflexivity; try ring;
      rewrite <- ?app_assoc; reflexivity.
Qed.

End Staggering.

Section StaggeredPlans.

Import MoviePy Py Timeline Placement.
Local Open Scope Q_scope.

Lemma plan_staggered
  (kind : OverlapKind) (d : Q) (clips : list Clip) (p : Composite) :
  plan kind d clips = inr p ->
  staggered (match kind with Fade => 0 | Crossfade | Slide | Wipe => d end)
            clips (layers p).
Proof.
  destruct kind; cbn [plan]; intros Hp.
  - destruct (fade_schedule_layers d clips p Hp) as [Hlen Hl].
    split; [exact Hlen|]. intros i c Hc.
    destruct (Hl i c Hc) as (x & Hx & Hf & Hd & Hs & _ & Hst).
    exists x. repeat (split; [assumption|]). rewrite Hst. ring.
  - destruct clips as [|clip0 rest]; [discriminate Hp|].
    destruct (crossfade_schedule_layers d clip0 rest p Hp) as (Hlen & H0 & Hl).
    exact (staggered_of_layers d clip0 rest (layers p) _ Hlen H0 Hl).
  - destruct clips as [|clip0 rest]; [discriminate Hp|].
    destruct (slide_schedule_layers d clip0 rest p Hp) as (Hlen & H0 & Hl).
    exact (staggered_of_layers d clip0 rest (layers p) _ Hlen H0 Hl).
  - destruct clips as [|clip0 rest]; [discriminate Hp|].
    destruct (wipe_schedule_layers d clip0 rest p Hp) as (Hlen & H0 & Hl).
    exact (staggered_of_layers d clip0 rest (layers p) _ Hlen H0 Hl).
Qed.

(** X1: where each script places clip [i]: at the sum of the durations in
    front of it, minus [i] transition durations for crossfade.py, slide.py
    and wipe.py, minus nothing for fade-in-out.py. The clips keep their
    order, file, duration and frame size. *)
Theorem overlap_plans_are_staggered
  (kind : OverlapKind) (d : Q) (clips : list Clip) (p : Composite) :
  plan kind d clips = inr p ->
  staggered (match kind with Fade => 0 | Crossfade | Slide | Wipe => d end)
            clips (layers p).
Proof. apply plan_staggered. Qed.

Lemma overlap_plans_are_staggered_witness :
  let a := mkClip ("tmp", "a.mp4") 3 (1920, 1080)%Z 0 [] in
  let b := mkClip ("tmp", "b.mp4") 4 (1920, 1080)%Z 0 [] in
  let c := mkClip ("tmp", "c.mp4") 5 (1920, 1080)%Z 0 [] in
  exists p, plan Wipe 1 [a; b; c] = inr p
            /\ staggered 1 [a; b; c] (layers p).
Proof.
  intros a b c. eexists. split; [reflexivity|].
  apply (overlap_plans_are_staggered Wipe 1 [a; b; c]). reflexivity.
Defined.

(** X2: the first clip is placed as it is; every later clip carries
    exactly one more effect: the fade-in of crossfade.py, the sliding
    position of slide.py, the wipe mask of wipe.py. The slide and the mask
    are built for the width and size of the first clip, whatever the size
    of the clip they are attached to. *)
Theorem later_clips_carry_one_transition_effect
  (d : Q) (clip0 : Clip) (rest : list Clip) :
  (forall p, Crossfade.schedule d (clip0 :: rest) = inr p ->
             layers p !! 0%nat = Some (set_start 0 clip0)
             /\ forall k c, rest !! k = Some c ->
                  exists x, layers p !! S k = Some x
                            /\ effects x = effects c ++ [fadein d])
  /\ (forall p, Slide.schedule d (clip0 :: rest) = inr p ->
                layers p !! 0%nat = Some (set_start 0 clip0)
                /\ forall k c, rest !! k = Some c ->
                     exists x, layers p !! S k = Some x
                               /\ effects x
                                  = effects c
                                    ++ [position_slide (fst (size clip0)) d])
  /\ (forall p, Wipe.schedule d (clip0 :: rest) = inr p ->
                layers p !! 0%nat = Some (set_start 0 clip0)
                /\ forall k c, rest !! k = Some c ->
                     exists x, layers p !! S k = Some x
                               /\ effects x
                                  = effects c ++ [mask_wipe (size clip0) d]).
Proof.
  split; [|split]; intros p Hp.
  - destruct (crossfade_schedule_layers d clip0 rest p Hp) as (_ & H0 & Hl).
    split; [exact H0|]. intros k c Hk.
    destruct (Hl k c Hk) as (x & Hx & _ & _ & _ & He & _). eauto.
  - destruct (slide_schedule_layers d clip0 rest p Hp) as (_ & H0 & Hl).
    split; [exact H0|]. intros k c Hk.
    destruct (Hl k c Hk) as (x & Hx & _ & _ & _ & He & _). eauto.
  - destruct (wipe_schedule_layers d clip0 rest p Hp) as (_ & H0 & Hl).
    split; [exact H0|]. intros k c Hk.
    destruct (Hl k c Hk) as (x & Hx & _ & _ & _ & He & _). eauto.
Qed.

Lemma later_clips_carry_one_transition_effect_witness :
  let a := mkClip ("tmp", "a.mp4") 3 (1920, 1080)%Z 0 [] in
  let b := mkClip ("tmp", "b.mp4") 4 (1280, 720)%Z 0 [] in
  exists p x, Slide.schedule 2 [a; b] = inr p
              /\ layers p !! 1%nat = Some x
              /\ effects x = [position_slide 1920 2].
Proof.
  intros a b.
  destruct (later_clips_carry_one_transition_effect 2 a [b]) as (_ & Hs & _).
  edestruct (Hs _ eq_refl) as (_ & Hl).
  destruct (Hl 0%nat b eq_refl) as (x & Hx & He).
  do 2 eexists. split; [reflexivity|]. split; [exact Hx|exact He].
Defined.

(** X3: the boundaries of fade-in-out.py: with [N] clips, clip [i] is
    faded in unless it is the first and faded out unless it is the last,
    always for [d] seconds, and it is played in full right after its
    predecessor. *)
Theorem fades_spare_the_two_ends (d : Q) (clips : list Clip) (p : Composite) :
  FadeInOut.schedule d clips = inr p ->
  length (layers p) = length clips
  /\ forall (i : nat) (c : Clip),
       clips !! i = Some c ->
       exists x,
         layers p !! i = Some x
         /\ filename x = filename c /\ duration x = duration c
         /\ size x = size c
         /\ effects x
            = effects c
              ++ (if (0 <? i)%nat then [fadein d] else [])
              ++ (if (i <? length clips - 1)%nat then [fadeout d] else [])
              ++ [position_center]
         /\ start x == sum_durations (take i clips).
Proof. apply fade_schedule_layers. Qed.

Lemma fades_spare_the_two_ends_witness :
  let a := mkClip ("tmp", "a.mp4") 3 (1920, 1080)%Z 0 [] in
  let b := mkClip ("tmp", "b.mp4") 4 (1920, 1080)%Z 0 [] in
  exists p x, FadeInOut.schedule (1 # 5) [a; b] = inr p
              /\ layers p !! 1%nat = Some x
              /\ effects x = [fadein (1 # 5); position_center].
Proof.
  intros a b.
  edestruct (fades_spare_the_two_ends (1 # 5) [a; b]) as (_ & Hl);
    [reflexivity|].
  destruct (Hl 1%nat b eq_refl) as (x & Hx & _ & _ & _ & He & _).
  do 2 eexists. split; [reflexivity|]. split; [exact Hx|exact He].
Defined.

End StaggeredPlans.

Section Ordering.

Import MoviePy Py Timeline Placement.
Local Open Scope Q_scope.

Lemma sum_durations_take_S (clips : list Clip) :
  forall (i : nat) (c : Clip),
    clips !! i = Some c ->
    sum_durations (take (S i) clips)
    == sum_durations (take i clips) + duration c.
Proof.
  induction clips as [|c0 rest IH]; intros i c Hi; [discriminate Hi|].
  destruct i as [|i]; cbn in Hi.
  - injection Hi as <-. rewrite (take_0 (c0 :: rest)).
    cbn [firstn sum_durations]. rewrite take_0. cbn [sum_durations]. ring.
  - cbn [firstn sum_durations]. rewrite (IH i c Hi).
    cbn [firstn sum_durations]. ring.
Qed.

Lemma staggered_clip (d : Q) (clips layers_ : list Clip) (i : nat) (x : Clip) :
  staggered d clips layers_ ->
  layers_ !! i = Some x ->
  exists c, clips !! i = Some c
            /\ duration x = duration c
            /\ start x == sum_durations (take i clips) - Qnat i * d.
Proof.
  intros [Hlen Hst] Hx.
  destruct (lookup_lt_is_Some_2 clips i) as [c Hc].
  { rewrite <- Hlen. eapply lookup_lt_Some, Hx. }
  destruct (Hst i c Hc) as (x' & Hx' & _ & Hd & _ & Hs).
  rewrite Hx in Hx'. injection Hx' as <-. exists c. auto.
Qed.

(** How far the start moves from one neighbour to the next. *)
Lemma staggered_step (d : Q) (clips layers_ : list Clip) (i : nat) (a b : Clip) :
  staggered d clips layers_ ->
  layers_ !! i = Some a -> layers_ !! S i = Some b ->
  start b == start a + duration a - d.
Proof.
  intros Hst Ha Hb.
  destruct (staggered_clip d clips layers_ i a Hst Ha) as (ca & Hca & Hda & Hsa).
  destruct (staggered_clip d clips layers_ (S i) b Hst Hb) as (cb & _ & _ & Hsb).
  rewrite Hsb, Hsa, Hda, (sum_durations_take_S clips i ca Hca), Qnat_S. ring.
Qed.

Lemma staggered_start_nonneg (d : Q) (clips layers_ : list Clip) :
  staggered d clips layers_ ->
  Forall (fun c => d <= duration c) clips ->
  forall (i : nat) (x : Clip), layers_ !! i = Some x -> 0 <= start x.
Proof.
  intros Hst Hd. induction i as [|i IH]; intros x Hx.
  - destruct (staggered_clip d clips layers_ 0 x Hst Hx) as (c & _ & _ & Hs).
    rewrite Hs, take_0. cbn [sum_durations].
    change (Qnat 0) with 0. lra.
  - destruct (lookup_lt_is_Some_2 layers_ i) as [a Ha].
    { apply lookup_lt_Some in Hx. lia. }
    pose proof (staggered_step d clips layers_ i a x Hst Ha Hx) as Hstep.
    destruct (staggered_clip d clips layers_ i a Hst Ha) as (c & Hc & Hda & _).
    pose proof (proj1 (Forall_lookup _ _) Hd i c Hc) as Hdc. cbn beta in Hdc.
    rewrite <- Hda in Hdc. specialize (IH a Ha). lra.
Qed.

(** Starts never go back when no clip is shorter than [d]. *)
Lemma staggered_start_mono (d : Q) (clips layers_ : list Clip) :
  staggered d clips layers_ ->
  Forall (fun c => d <= duration c) clips ->
  forall (n i : nat) (a b : Clip),
    layers_ !! i = Some a -> layers_ !! (i + n)%nat = Some b ->
    start a <= start b.
Proof.
  intros Hst Hd. induction n as [|n IH]; intros i a b Ha Hb.
  - rewrite Nat.add_0_r, Ha in Hb. injection Hb as <-. apply Qle_refl.
  - replace (i + S n)%nat with (S (i + n)) in Hb by lia.
    destruct (lookup_lt_is_Some_2 layers_ (i + n)) as [m Hm].
    { apply lookup_lt_Some in Hb. lia. }
    pose proof (IH i a m Ha Hm) as Ham.
    pose proof (staggered_step d clips layers_ (i + n) m b Hst Hm Hb) as Hstep.
    destruct (staggered_clip d clips layers_ (i + n) m Hst Hm) as (c & Hc & Hdm & _).
    pose proof (proj1 (Forall_lookup _ _) Hd (i + n)%nat c Hc) as Hdc.
    cbn beta in Hdc. rewrite <- Hdm in Hdc. lra.
Qed.

(** X4: with a transition no longer than any clip, crossfade.py, slide.py
    and wipe.py place every clip at a non-negative time, no earlier than
    its predecessor starts and no later than its predecessor ends. *)
Theorem overlap_starts_are_ordered
  (kind : OverlapKind) (d : Q) (clips : list Clip) (p : Composite) :
  kind <> Fade ->
  0 <= d ->
  Forall (fun c => d <= duration c) clips ->
  plan kind d clips = inr p ->
  (forall (i : nat) (x : Clip), layers p !! i = Some x -> 0 <= start x)
  /\ (forall (i : nat) (a b : Clip),
         layers p !! i = Some a -> layers p !! S i = Some b ->
         start a <= start b /\ start b <= end_ a
         /\ overlap a b == d).
Proof.
  intros Hkind Hd0 Hd Hp.
  assert (staggered d clips (layers p)) as Hst.
  { pose proof (plan_staggered kind d clips p Hp) as H.
    destruct kind; [congruence|exact H..]. }
  split.
  - apply (staggered_start_nonneg d clips (layers p) Hst Hd).
  - intros i a b Ha Hb.
    pose proof (staggered_step d clips (layers p) i a b Hst Ha Hb) as Hstep.
    destruct (staggered_clip d clips (layers p) i a Hst Ha) as (c & Hc & Hda & _).
    pose proof (proj1 (Forall_lookup _ _) Hd i c Hc) as Hdc. cbn beta in Hdc.
    rewrite <- Hda in Hdc. unfold overlap, end_. repeat split; lra.
Qed.

Lemma overlap_starts_are_ordered_witness :
  let a := mkClip ("tmp", "a.mp4") 3 (1920, 1080)%Z 0 [] in
  let b := mkClip ("tmp", "b.mp4") 4 (1920, 1080)%Z 0 [] in
  exists p x y, plan Crossfade (1 # 2) [a; b] = inr p
                /\ layers p = [x; y]
                /\ start x <= start y /\ start y <= end_ x.
Proof.
  intros a b.
  edestruct (overlap_starts_are_ordered Crossfade (1 # 2) [a; b]) as (_ & Hn).
  - discriminate.
  - cbn. intro H. discriminate H.
  - repeat constructor; cbn; intro H; discriminate H.
  - reflexivity.
  - destruct (Hn 0%nat _ _ eq_refl eq_refl) as (H1 & H2 & _).
    do 3 eexists. split; [reflexivity|]. split; [reflexivity|].
    split; [exact H1|exact H2].
Defined.

(** X5: with a transition of at most half of every clip's duration, a clip
    is over before the clip two or more places later starts: only
    neighbours are ever on screen together. *)
Theorem only_neighbours_overlap
  (kind : OverlapKind) (d : Q) (clips : list Clip) (p : Composite) :
  kind <> Fade ->
  0 <= d ->
  Forall (fun c => 2 * d <= duration c) clips ->
  plan kind d clips = inr p ->
  forall (i j : nat) (a b : Clip),
    (i + 2 <= j)%nat ->
    layers p !! i = Some a -> layers p !! j = Some b ->
    end_ a <= start b.
Proof.
  intros Hkind Hd0 Hd2 Hp i j a b Hij Ha Hb.
  assert (staggered d clips (layers p)) as Hst.
  { pose proof (plan_staggered kind d clips p Hp) as H.
    destruct kind; [congruence|exact H..]. }
  assert (Forall (fun c => d <= duration c) clips) as Hd.
  { eapply Forall_impl; [exact Hd2|]. cbn beta. intros c Hc. lra. }
  destruct (lookup_lt_is_Some_2 (layers p) (S i)) as [m Hm].
  { apply lookup_lt_Some in Hb. lia. }
  destruct (lookup_lt_is_Some_2 (layers p) (S (S i))) as [n Hn].
  { apply lookup_lt_Some in Hb. lia. }
  pose proof (staggered_step d clips (layers p) i a m Hst Ha Hm) as H1.
  pose proof (staggered_step d clips (layers p) (S i) m n Hst Hm Hn) as H2.
  destruct (staggered_clip d clips (layers p) (S i) m Hst Hm) as (c & Hc & Hdm & _).
  pose proof (proj1 (Forall_lookup _ _) Hd2 (S i) c Hc) as Hdc. cbn beta in Hdc.
  rewrite <- Hdm in Hdc.
  assert (start n <= start b) as Hnb.
  { apply (staggered_start_mono d clips (layers p) Hst Hd (j - S (S i)) (S (S i))).
    - exact Hn.
    - replace (S (S i) + (j - S (S i)))%nat with j by lia. exact Hb. }
  unfold end_. lra.
Qed.

Lemma only_neighbours_overlap_witness :
  let a := mkClip ("tmp", "a.mp4") 3 (1920, 1080)%Z 0 [] in
  let b := mkClip ("tmp", "b.mp4") 4 (1920, 1080)%Z 0 [] in
  let c := mkClip ("tmp", "c.mp4") 5 (1920, 1080)%Z 0 [] in
  exists p x y z, plan Slide 1 [a; b; c] = inr p
                  /\ layers p = [x; y; z]
                  /\ end_ x <= start z.
Proof.
  intros a b c.
  do 4 eexists. split; [reflexivity|]. split; [reflexivity|].
  eapply (only_neighbours_overlap Slide 1 [a; b; c])
    with (i := 0%nat) (j := 2%nat).
  - discriminate.
  - cbn. intro H. discriminate H.
  - repeat constructor; cbn; intro H; discriminate H.
  - reflexivity.
  - lia.
  - reflexivity.
  - reflexivity.
Defined.

End Ordering.

Section CompositionEnd.

Import MoviePy Py Timeline Placement.
Local Open Scope Q_scope.

Lemma overlap_plan_total (kind : OverlapKind) (d : Q) (clips : list Clip)
  (p : Composite) :
  kind <> Fade ->
  plan kind d clips = inr p ->
  comp_duration p == sum_durations clips - Qnat (length clips - 1) * d.
Proof.
  intros Hkind Hp. destruct clips as [|clip0 rest].
  - destruct kind; [congruence|discriminate Hp..].
  - replace (length (clip0 :: rest) - 1)%nat with (length rest) by (cbn; lia).
    destruct kind; [congruence|..]; cbn [plan] in Hp.
    + destruct (crossfade_schedule_total d clip0 rest) as (p' & Hp' & Ht & _).
      rewrite Hp in Hp'. injection Hp' as <-. exact Ht.
    + destruct (slide_schedule_total d clip0 rest) as (p' & Hp' & Ht & _).
      rewrite Hp in Hp'. injection Hp' as <-. exact Ht.
    + destruct (wipe_schedule_total d clip0 rest) as (p' & Hp' & Ht & _).
      rewrite Hp in Hp'. injection Hp' as <-. exact Ht.
Qed.

Lemma staggered_end (d : Q) (clips layers_ : list Clip) (i : nat) (x : Clip) :
  staggered d clips layers_ ->
  layers_ !! i = Some x ->
  end_ x == sum_durations (take (S i) clips) - Qnat i * d.
Proof.
  intros Hst Hx.
  destruct (staggered_clip d clips layers_ i x Hst Hx) as (c & Hc & Hd & Hs).
  unfold end_. rewrite Hs, Hd, (sum_durations_take_S clips i c Hc). ring.
Qed.

Lemma staggered_end_mono (d : Q) (clips layers_ : list Clip) :
  staggered d clips layers_ ->
  Forall (fun c => d <= duration c) clips ->
  forall (n i : nat) (a b : Clip),
    layers_ !! i = Some a -> layers_ !! (i + n)%nat = Some b ->
    end_ a <= end_ b.
Proof.
  intros Hst Hd. induction n as [|n IH]; intros i a b Ha Hb.
  - rewrite Nat.add_0_r, Ha in Hb. injection Hb as <-. apply Qle_refl.
  - replace (i + S n)%nat with (S (i + n)) in Hb by lia.
    destruct (lookup_lt_is_Some_2 layers_ (i + n)) as [m Hm].
    { apply lookup_lt_Some in Hb. lia. }
    pose proof (IH i a m Ha Hm) as Ham.
    pose proof (staggered_step d clips layers_ (i + n) m b Hst Hm Hb) as Hstep.
    destruct (staggered_clip d clips layers_ (S (i + n)) b Hst Hb)
      as (c & Hc & Hdb & _).
    pose proof (proj1 (Forall_lookup _ _) Hd (S (i + n)) c Hc) as Hdc.
    cbn beta in Hdc. rewrite <- Hdb in Hdc. unfold end_ in *. lra.
Qed.

(** X6: crossfade.py, slide.py and wipe.py give the composition the
    duration at which the last clip ends. When the transition is no longer
    than any clip, no clip ends later than that, so nothing is cut off. *)
Theorem composition_ends_with_last_clip
  (kind : OverlapKind) (d : Q) (clips : list Clip) (p : Composite) :
  kind <> Fade ->
  plan kind d clips = inr p ->
  (exists l, last (layers p) = Some l /\ comp_duration p == end_ l)
  /\ (0 <= d ->
      Forall (fun c => d <= duration c) clips ->
      forall (i : nat) (x : Clip),
        layers p !! i = Some x -> end_ x <= comp_duration p).
Proof.
  intros Hkind Hp.
  assert (staggered d clips (layers p)) as Hst.
  { pose proof (plan_staggered kind d clips p Hp) as H.
    destruct kind; [congruence|exact H..]. }
  pose proof (overlap_plan_total kind d clips p Hkind Hp) as Htot.
  assert (clips <> []) as Hne.
  { intros ->. destruct kind; [congruence|discriminate Hp..]. }
  assert (exists l, layers p !! (length clips - 1)%nat = Some l) as [l Hl].
  { apply lookup_lt_is_Some_2. destruct Hst as [-> _].
    destruct clips; [congruence|cbn; lia]. }
  assert (comp_duration p == end_ l) as Hend.
  { rewrite (staggered_end d clips (layers p) _ l Hst Hl), Htot.
    replace (S (length clips - 1)) with (length clips)
      by (destruct clips; [congruence|cbn; lia]).
    rewrite firstn_all. reflexivity. }
  split.
  - exists l. split; [|exact Hend].
    rewrite last_lookup. destruct Hst as [-> _].
    replace (Init.Nat.pred (length clips)) with (length clips - 1)%nat by lia.
    exact Hl.
  - intros Hd0 Hd i x Hx. rewrite Hend.
    apply (staggered_end_mono d clips (layers p) Hst Hd
             (length clips - 1 - i) i x l Hx).
    replace (i + (length clips - 1 - i))%nat with (length clips - 1)%nat;
      [exact Hl|].
    apply lookup_lt_Some in Hx. destruct Hst as [Hlen _]. lia.
Qed.

Lemma composition_ends_with_last_clip_witness :
  let a := mkClip ("tmp", "a.mp4") 3 (1920, 1080)%Z 0 [] in
  let b := mkClip ("tmp", "b.mp4") 4 (1920, 1080)%Z 0 [] in
  exists p l, plan Crossfade (1 # 2) [a; b] = inr p
              /\ last (layers p) = Some l
              /\ comp_duration p == end_ l.
Proof.
  intros a b.
  edestruct (composition_ends_with_last_clip Crossfade (1 # 2) [a; b])
    as ((l & Hl & He) & _).
  - discriminate.
  - reflexivity.
  - do 2 eexists. split; [reflexivity|]. split; [exact Hl|exact He].
Defined.

(** Without that precondition the early end is real: a last clip of 0.2 s
    after a clip of 10 s, with a crossfade of 0.5 s, ends the composition
    at 9.7 s, before the first clip is over. *)
Example short_last_clip_cuts_the_composition :
  let a := mkClip ("tmp", "a.mp4") 10 (1920, 1080)%Z 0 [] in
  let b := mkClip ("tmp", "b.mp4") (2 # 10) (1920, 1080)%Z 0 [] in
  exists p x, Crossfade.schedule Crossfade.TRANSITION_DURATION [a; b] = inr p
              /\ layers p !! 0%nat = Some x
              /\ comp_duration p == 97 # 10
              /\ comp_duration p < end_ x.
Proof.
  cbn zeta. do 2 eexists. split; [reflexivity|]. split; [reflexivity|].
  split; reflexivity.
Qed.

End CompositionEnd.

(** ** blend.py *)

Section BlendLayers.

Import MoviePy Py Timeline.
Local Open Scope Q_scope.

Lemma blend_loop_lookup (d : Q) (rest : list Clip) :
  forall (prev : Clip) (k : nat) (a b : Clip),
    (prev :: rest) !! k = Some a ->
    rest !! k = Some b ->
    Blend.blend_loop d prev rest !! k
    = Some (set_start (duration a - d) (fx (fadein d) b)).
Proof.
  induction rest as [|c rest IH]; intros prev k a b Ha Hb; [discriminate Hb|].
  destruct k as [|k]; cbn in Ha, Hb.
  - injection Ha as <-. injection Hb as <-. reflexivity.
  - exact (IH c k a b Ha Hb).
Qed.

Lemma blend_loop_last (d : Q) (rest : list Clip) :
  forall prev : Clip,
    rest <> [] ->
    exists front before_last last_clip out,
      prev :: rest = front ++ [before_last; last_clip]
      /\ Blend.blend_loop d prev rest
         = out ++ [set_start (duration before_last - d)
                             (fx (fadein d) last_clip)].
Proof.
  induction rest as [|c rest IH]; intros prev Hne; [congruence|].
  destruct rest as [|c' rest].
  - exists [], prev, c, []. split; reflexivity.
  - destruct (IH c) as (front & bl & l & out & Hsplit & Hloop); [discriminate|].
    exists (prev :: front), bl, l,
      (set_start (duration prev - d) (fx (fadein d) c) :: out).
    split.
    + cbn [app]. now rewrite <- Hsplit.
    + change (Blend.blend_loop d prev (c :: c' :: rest))
        with (set_start (duration prev - d) (fx (fadein d) c)
              :: Blend.blend_loop d c (c' :: rest)).
      now rewrite Hloop.
Qed.

(** X7: with two clips or more, blend.py fades out the first clip only and
    starts every later clip [d] before the duration of the clip in front
    of it, counted from 0 and not from where that clip was placed; the
    last assignment of the script, which sets the last clip again, changes
    nothing. *)
Theorem blend_layers (d : Q) (clip0 clip1 : Clip) (rest : list Clip) :
  exists p,
    Blend.schedule d (clip0 :: clip1 :: rest) = inr p
    /\ layers p
       = fx (fadeout d) clip0 :: Blend.blend_loop d clip0 (clip1 :: rest)
    /\ comp_size p = size clip0
    /\ forall (i : nat) (a b : Clip),
         (clip0 :: clip1 :: rest) !! i = Some a ->
         (clip0 :: clip1 :: rest) !! S i = Some b ->
         layers p !! S i
         = Some (set_start (duration a - d) (fx (fadein d) b)).
Proof.
  destruct (blend_loop_last d (clip1 :: rest) clip0)
    as (front & bl & l & out & Hsplit & Hloop); [discriminate|].
  assert (nth_error (rev (clip0 :: clip1 :: rest)) 0 = Some l
          /\ nth_error (rev (clip0 :: clip1 :: rest)) 1 = Some bl) as [H0 H1].
  { rewrite Hsplit, rev_app_distr. split; reflexivity. }
  unfold Blend.schedule. cbv beta iota zeta. rewrite H0, H1.
  rewrite Hloop. unfold Blend.set_last.
  change (fx (fadeout d) clip0
          :: out ++ [set_start (duration bl - d) (fx (fadein d) l)])
    with ((fx (fadeout d) clip0 :: out)
          ++ [set_start (duration bl - d) (fx (fadein d) l)]).
  rewrite removelast_last. cbn [app CompositeVideoClip].
  eexists. split; [reflexivity|]. cbn [layers comp_size].
  split; [reflexivity|]. split; [reflexivity|].
  intros i a b Ha Hb. rewrite <- Hloop.
  change ((fx (fadeout d) clip0 :: Blend.blend_loop d clip0 (clip1 :: rest)) !! S i)
    with (Blend.blend_loop d clip0 (clip1 :: rest) !! i).
  apply blend_loop_lookup; assumption.
Qed.

End BlendLayers.

(** ** The animations of slide.py and wipe.py *)

Section Animations.

Import MoviePy Py Timeline.
Local Open Scope Q_scope.

(** X8: during the transition the sliding clip moves from the right edge
    of the canvas towards its left edge, linearly and without ever leaving
    the canvas on the left or going back; from the end of the transition
    on it is centred. *)
Theorem slide_position_bounds (td : Q) (w : Z) :
  0 < td -> (0 <= w)%Z ->
  (forall t, td <= t -> Slide.slide_in_position td w t = None)
  /\ (forall t, 0 <= t -> t < td ->
        exists x, Slide.slide_in_position td w t = Some x
                  /\ 0 <= x /\ x <= inject_Z w
                  /\ x == inject_Z w * (1 - t / td))
  /\ Slide.slide_in_position td w 0 = Some (inject_Z w - inject_Z w / td * 0)
  /\ (forall t1 t2 x1 x2,
        t1 <= t2 ->
        Slide.slide_in_position td w t1 = Some x1 ->
        Slide.slide_in_position td w t2 = Some x2 ->
        x2 <= x1).
Proof.
  intros Htd Hw.
  assert (0 <= inject_Z w) as HW.
  { change 0 with (inject_Z 0). rewrite <- Zle_Qle. exact Hw. }
  set (k := inject_Z w / td).
  assert (0 <= k) as Hk.
  { unfold k. apply Qle_shift_div_l; [exact Htd|]. lra. }
  assert (k * td == inject_Z w) as Hktd.
  { unfold k. field. lra. }
  repeat split.
  - intros t Ht. unfold Slide.slide_in_position.
    destruct (Qlt_le_dec t td) as [Hlt|_]; [lra|reflexivity].
  - intros t Ht0 Ht. unfold Slide.slide_in_position.
    destruct (Qlt_le_dec t td) as [_|Hge]; [|lra].
    fold k. eexists. split; [reflexivity|].
    split; [nra|]. split; [nra|].
    unfold k. field. lra.
  - unfold Slide.slide_in_position.
    destruct (Qlt_le_dec 0 td) as [_|Hge]; [reflexivity|lra].
  - intros t1 t2 x1 x2 Ht H1 H2. unfold Slide.slide_in_position in H1, H2.
    destruct (Qlt_le_dec t1 td); [|discriminate H1].
    destruct (Qlt_le_dec t2 td); [|discriminate H2].
    injection H1 as <-. injection H2 as <-. fold k. nra.
Qed.

Lemma slide_position_bounds_witness :
  exists x, Slide.slide_in_position Slide.TRANSITION_DURATION 1920 (1 # 2) = Some x
            /\ 0 <= x /\ x <= 1920.
Proof.
  destruct (slide_position_bounds Slide.TRANSITION_DURATION 1920) as (_ & H & _).
  - reflexivity.
  - lia.
  - destruct (H (1 # 2)) as (x & Hx & H0 & H1 & _).
    + intro E. discriminate E.
    + reflexivity.
    + exists x. split; [exact Hx|]. split; [exact H0|exact H1].
Defined.

(** [int] is the floor on what is not negative. *)
Lemma int_nonneg (q : Q) : 0 <= q -> Wipe.int q = Qfloor q.
Proof.
  destruct q as [n den]. unfold Qle, Wipe.int, Qfloor. cbn.
  intros Hn. apply Z.quot_div_nonneg; lia.
Qed.

(** X9: the wipe mask of wipe.py is black at the start of the transition,
    white over the whole width of the first clip from the end of the
    transition on, and in between a column that has turned white stays
    white. *)
Theorem wipe_mask_grows (td : Q) (video_size : Z * Z) :
  0 < td ->
  (forall x, Wipe.create_wipe_mask td video_size 0 x = false)
  /\ (forall t x,
        td <= t -> (0 <= x < fst video_size)%Z ->
        Wipe.create_wipe_mask td video_size t x = true)
  /\ (forall t1 t2 x,
        0 <= t1 -> t1 <= t2 ->
        Wipe.create_wipe_mask td video_size t1 x = true ->
        Wipe.create_wipe_mask td video_size t2 x = true).
Proof.
  intros Htd. destruct video_size as [w h]. cbn [fst].
  assert (forall t, 0 <= t -> 0 <= t / td) as Hdiv.
  { intros t Ht. apply Qle_shift_div_l; [exact Htd|]. lra. }
  repeat split.
  - intros x. unfold Wipe.create_wipe_mask. cbn [fst].
    replace (Wipe.int (inject_Z w * (0 / td))) with 0%Z; [reflexivity|].
    unfold Wipe.int. cbn. rewrite Z.mul_0_r. reflexivity.
  - intros t x Ht [Hx0 Hxw]. unfold Wipe.create_wipe_mask. cbn [fst].
    assert (0 <= inject_Z w) as HW.
    { change 0 with (inject_Z 0). rewrite <- Zle_Qle. lia. }
    assert (1 <= t / td) as Hr.
    { apply Qle_shift_div_l; [exact Htd|]. lra. }
    assert (w <= Wipe.int (inject_Z w * (t / td)))%Z as Hpos.
    { rewrite int_nonneg by nra.
      rewrite <- (Qfloor_Z w) at 1. apply Qfloor_resp_le. nra. }
    repeat (apply andb_true_intro; split);
      first [apply Z.ltb_lt | apply Z.leb_le]; lia.
  - intros t1 t2 x Ht1 Ht12 Hm. unfold Wipe.create_wipe_mask in *.
    cbn [fst] in *.
    apply andb_prop in Hm. destruct Hm as [Hm Hxw].
    apply andb_prop in Hm. destruct Hm as [Hm Hxp].
    apply andb_prop in Hm. destruct Hm as [Hp Hx0].
    apply Z.ltb_lt in Hp, Hxp, Hxw. apply Z.leb_le in Hx0.
    assert (0 <= inject_Z w) as HW.
    { change 0 with (inject_Z 0). rewrite <- Zle_Qle. lia. }
    pose proof (Hdiv t1 Ht1) as Hr1.
    assert (t1 / td <= t2 / td) as Hr.
    { unfold Qdiv. apply Qmult_le_compat_r; [exact Ht12|].
      apply Qlt_le_weak, Qinv_lt_0_compat, Htd. }
    assert (Wipe.int (inject_Z w * (t1 / td))
            <= Wipe.int (inject_Z w * (t2 / td)))%Z as Hmono.
    { rewrite !int_nonneg by nra. apply Qfloor_resp_le. nra. }
    repeat (apply andb_true_intro; split);
      first [apply Z.ltb_lt | apply Z.leb_le]; lia.
Qed.

Lemma wipe_mask_grows_witness :
  Wipe.create_wipe_mask Wipe.TRANSITION_DURATION (1920, 1080)%Z 2 100 = true.
Proof.
  destruct (wipe_mask_grows Wipe.TRANSITION_DURATION (1920, 1080)%Z) as (_ & H & _).
  - reflexivity.
  - apply H; [intro E; discriminate E|cbn; lia].
Defined.

End Animations.

(** ** The generation job, in general *)

Section JobOutcomes.

Import MoviePy Py Collab Timeline Veo2 Observed.

Lemma poll_loop_returned_iff (poll : nat -> PollReply) (op : string)
  (uri : option string) :
  forall (n i : nat),
    fst (poll_loop poll op i n) = ReturnedUri uri
    <-> exists k others,
          (k < n)%nat
          /\ (forall j, (j < k)%nat -> poll (i + j)%nat = NotDone)
          /\ poll (i + k)%nat = Done (Some (uri :: others)).
Proof.
  induction n as [|n IH]; intros i.
  - cbn. split; [discriminate|]. intros (k & _ & Hk & _). lia.
  - cbn [poll_loop]. destruct (poll i) as [| | |[[|v vs]|]] eqn:Ei.
    1,2,4,6: (cbn [fst]; split; [discriminate|];
              intros (k & others & Hk & Hwait & Hdone);
              destruct k as [|k];
              [ rewrite Nat.add_0_r, Ei in Hdone; discriminate Hdone
              | specialize (Hwait 0%nat ltac:(lia));
                rewrite Nat.add_0_r, Ei in Hwait; discriminate Hwait ]).
    + destruct (poll_loop poll op (S i) n) as [exit events] eqn:El.
      cbn [fst]. specialize (IH (S i)). rewrite El in IH. cbn [fst] in IH.
      rewrite IH. split.
      * intros (k & others & Hk & Hwait & Hdone).
        exists (S k), others. split; [lia|]. split.
        -- intros [|j] Hj; [now rewrite Nat.add_0_r|].
           replace (i + S j)%nat with (S i + j)%nat by lia. apply Hwait. lia.
        -- replace (i + S k)%nat with (S i + k)%nat by lia. exact Hdone.
      * intros (k & others & Hk & Hwait & Hdone).
        destruct k as [|k];
          [rewrite Nat.add_0_r, Ei in Hdone; discriminate Hdone|].
        exists k, others. split; [lia|]. split.
        -- intros j Hj. replace (S i + j)%nat with (i + S j)%nat by lia.
           apply Hwait. lia.
        -- replace (S i + k)%nat with (i + S k)%nat by lia. exact Hdone.
    + cbn [fst]. split.
      * intros [= <-]. exists 0%nat, vs. split; [lia|]. split.
        -- intros j Hj. lia.
        -- now rewrite Nat.add_0_r.
      * intros (k & others & Hk & Hwait & Hdone).
        destruct k as [|k].
        -- rewrite Nat.add_0_r, Ei in Hdone. congruence.
        -- specialize (Hwait 0%nat ltac:(lia)).
           rewrite Nat.add_0_r, Ei in Hwait. discriminate Hwait.
Qed.

(** How long the loop sleeps: ten seconds after every "not done" answer,
    so ten seconds per request but the last, and ten seconds per request
    when the loop runs out of turns. *)
Lemma poll_loop_pauses (poll : nat -> PollReply) (op : string) :
  forall (n i : nat),
    let '(exit, events) := poll_loop poll op i n in
    match exit with
    | Exhausted =>
        status_requests events = n
        /\ pauses events = (interval_sec * Z.of_nat n)%Z
    | ReturnedUri _ | Broke =>
        (1 <= status_requests events <= n)%nat
        /\ pauses events
           = (interval_sec * (Z.of_nat (status_requests events) - 1))%Z
    end.
Proof.
  induction n as [|n IH]; intros i.
  - cbn. split; reflexivity.
  - cbn [poll_loop]. destruct (poll i) as [| | |[[|v vs]|]];
      try (cbn; split; [lia|reflexivity]).
    specialize (IH (S i)). destruct (poll_loop poll op (S i) n) as [exit events].
    unfold status_requests in *. cbn [List.filter is_status_request length pauses].
    destruct exit; destruct IH as [Hr Hp]; rewrite Hp; split; try lia.
Qed.

End JobOutcomes.

Section JobCalls.

Import MoviePy Py Collab Timeline Veo2 Observed.

Lemma bind_Normal_inv {A B} (m : M A) (k : A -> M B) (w : World)
  (b : B) (w' : World) :
  bind m k w = (Normal b, w') ->
  exists a w1, m w = (Normal a, w1) /\ k a w1 = (Normal b, w').
Proof.
  unfold bind. destruct (m w) as [[a|e|] w1]; try discriminate.
  intros E. now exists a, w1.
Qed.

Lemma bind_Normal {A B} (m : M A) (k : A -> M B) (w w1 : World) (a : A) :
  m w = (Normal a, w1) -> bind m k w = k a w1.
Proof. unfold bind. now intros ->. Qed.

Lemma bind_Raised {A B} (m : M A) (k : A -> M B) (w w1 : World) (e : exn) :
  m w = (Raised e, w1) -> bind m k w = (Raised e, w1).
Proof. unfold bind. now intros ->. Qed.

Lemma pauses_app (l1 l2 : list Event) :
  pauses (l1 ++ l2) = (pauses l1 + pauses l2)%Z.
Proof.
  induction l1 as [|e l1 IH]; [reflexivity|].
  destruct e; cbn [app pauses]; rewrite IH; lia.
Qed.

Lemma requests_app (l1 l2 : list Event) :
  requests (l1 ++ l2) = requests l1 ++ requests l2.
Proof. apply List.filter_app. Qed.

Lemma no_requests_no_status (events : list Event) :
  requests events = [] -> status_requests events = 0%nat.
Proof.
  unfold requests, status_requests.
  induction events as [|e events IH]; [reflexivity|].
  destruct e; cbn; try discriminate; exact IH.
Qed.

(** The polling loop sends status requests only. *)
Lemma poll_loop_requests (poll : nat -> PollReply) (op : string) :
  forall (n i : nat),
    length (requests (snd (poll_loop poll op i n)))
    = status_requests (snd (poll_loop poll op i n)).
Proof.
  induction n as [|n IH]; intros i; [reflexivity|].
  cbn [poll_loop]. destruct (poll i) as [| | |[[|v vs]|]]; try reflexivity.
  specialize (IH (S i)). destruct (poll_loop poll op (S i) n) as [exit events].
  unfold status_requests, requests in *.
  cbn [snd List.filter is_status_request is_request length] in *.
  now rewrite IH.
Qed.

Lemma interpolate_Some_inv
  (svc : Service) (a b : path) (prompt out : string) (w w' : World)
  (uri : string) :
  interpolate_video_veo2 svc a b prompt out w = (Normal (Some uri), w') ->
  has_file w a = true /\ has_file w b = true
  /\ auth_ok svc = true
  /\ is_Some (mime_type a) /\ is_Some (mime_type b)
  /\ exists name k others,
       submit svc = Initiated name
       /\ (k < max_iterations)%nat
       /\ (forall j, (j < k)%nat -> poll svc j = NotDone)
       /\ poll svc k = Done (Some (Some uri :: others)).
Proof.
  unfold interpolate_video_veo2.
  generalize max_iterations as n. intros n.
  unfold bind, print, emit, file_exists, guard, ret, raise.
  cbn [fs uploads trace].
  change (has_file _ a) with (has_file w a).
  change (has_file _ b) with (has_file w b).
  destruct (has_file w a); [|cbn [andb negb]; discriminate].
  destruct (has_file w b); [|cbn [andb negb]; discriminate].
  cbn [andb negb].
  destruct (auth_ok svc); [|discriminate].
  destruct (mime_type a) as [ma|]; [|discriminate].
  destruct (mime_type b) as [mb|]; [|discriminate].
  destruct (submit svc) as [| | |name]; try discriminate.
  cbn zeta.
  destruct (poll_loop (poll svc) (default "N/A" name) 0 n)
    as [exit events] eqn:El.
  destruct exit as [u| |]; try discriminate.
  intros [= -> _].
  repeat split; eauto.
  pose proof (proj1 (poll_loop_returned_iff (poll svc) (default "N/A" name)
                       (Some uri) n 0)) as H.
  rewrite El in H. destruct (H eq_refl) as (k & others & Hk & Hwait & Hdone).
  exists name, k, others. repeat split; assumption.
Qed.

(** X10: a call of [interpolate_video_veo2] returns an address only if the
    generation service reported it: both frame files were readable, the
    credentials were obtained, both file names end in .png, .jpg or .jpeg,
    the operation was started, and some status request among the first
    600, preceded by "not done" answers only, was answered "done" with
    that address as the [gcsUri] of its first video. *)
Theorem returned_uri_was_reported
  (svc : Service) (a b : path) (prompt out : string) (w w' : World)
  (uri : string) :
  interpolate_video_veo2 svc a b prompt out w = (Normal (Some uri), w') ->
  has_file w a = true /\ has_file w b = true
  /\ auth_ok svc = true
  /\ is_Some (mime_type a) /\ is_Some (mime_type b)
  /\ exists name k others,
       submit svc = Initiated name
       /\ (k < max_iterations)%nat
       /\ (forall j, (j < k)%nat -> poll svc j = NotDone)
       /\ poll svc k = Done (Some (Some uri :: others)).
Proof. apply interpolate_Some_inv. Qed.

Lemma returned_uri_was_reported_witness :
  let svc := mkService true (Initiated (Some "operations/7"))
               (fun j => if (j <? 2)%nat then NotDone
                         else Done (Some [Some "gs://bucket/t.mp4"])) in
  let w := mkWorld {[ "tmp" := ["a.png"; "b.jpg"] ]} [] [] in
  exists name k others,
    submit svc = Initiated name
    /\ (k < max_iterations)%nat
    /\ (forall j, (j < k)%nat -> poll svc j = NotDone)
    /\ poll svc k = Done (Some (Some "gs://bucket/t.mp4" :: others)).
Proof.
  intros svc w.
  destruct (interpolate_video_veo2 svc ("tmp", "a.png") ("tmp", "b.jpg")
              "prompt" "out" w) as [r w'] eqn:E.
  assert (r = Normal (Some "gs://bucket/t.mp4")) as ->.
  { vm_compute in E. now injection E as <- _. }
  exact (proj2 (proj2 (proj2 (proj2 (proj2
           (returned_uri_was_reported svc _ _ _ _ w w' _ E)))))).
Defined.

(** X11: whatever the service answers, one call of
    [interpolate_video_veo2] changes neither files nor uploads, sends at
    most one request besides its status requests, at most 600 status
    requests, and sleeps at most 600 times 10 seconds in all. *)
Theorem job_cost_is_bounded
  (svc : Service) (a b : path) (prompt out : string) (w : World) :
  let '(_, w') := interpolate_video_veo2 svc a b prompt out w in
  fs w' = fs w /\ uploads w' = uploads w
  /\ exists events,
       trace w' = trace w ++ events
       /\ (length (requests events) <= 1 + status_requests events)%nat
       /\ (status_requests events <= 600)%nat
       /\ (0 <= pauses events <= 6000)%Z.
Proof.
  unfold interpolate_video_veo2.
  change 600%nat with max_iterations.
  change 6000%Z with (interval_sec * Z.of_nat max_iterations)%Z.
  generalize max_iterations as n. intros n.
  unfold bind, print, emit, file_exists, guard, ret, raise.
  cbn [fs uploads trace].
  assert (forall evs : list Event,
             requests evs = [] -> pauses evs = 0%Z ->
             exists events,
               trace w ++ evs = trace w ++ events
               /\ (length (requests events)
                   <= 1 + status_requests events)%nat
               /\ (status_requests events <= n)%nat
               /\ (0 <= pauses events <= interval_sec * Z.of_nat n)%Z)
    as Hquiet.
  { intros evs Hr Hp. exists evs. split; [reflexivity|]. rewrite Hr, Hp.
    rewrite (no_requests_no_status evs Hr).
    unfold interval_sec. cbn [length]. lia. }
  change (has_file _ a) with (has_file w a).
  change (has_file _ b) with (has_file w b).
  destruct (has_file w a); [destruct (has_file w b)|]; cbn [andb negb];
    try (cbn [fs uploads trace]; split; [reflexivity|split; [reflexivity|]];
         rewrite <- ?app_assoc; apply Hquiet; reflexivity).
  destruct (auth_ok svc);
    [|cbn [fs uploads trace]; split; [reflexivity|split; [reflexivity|]];
      rewrite <- ?app_assoc; apply Hquiet; reflexivity].
  destruct (mime_type a) as [ma|];
    [|cbn [fs uploads trace]; split; [reflexivity|split; [reflexivity|]];
      rewrite <- ?app_assoc; apply Hquiet; reflexivity].
  destruct (mime_type b) as [mb|];
    [|cbn [fs uploads trace]; split; [reflexivity|split; [reflexivity|]];
      rewrite <- ?app_assoc; apply Hquiet; reflexivity].
  destruct (submit svc) as [| | |name]; cbn zeta.
  1-3: (cbn [fs uploads trace]; split; [reflexivity|split; [reflexivity|]];
        eexists; split; [rewrite <- !app_assoc; reflexivity|];
        cbn; unfold interval_sec; lia).
  pose proof (poll_loop_pauses (poll svc) (default "N/A" name) n 0) as Hp.
  pose proof (poll_loop_requests (poll svc) (default "N/A" name) n 0) as Hr.
  destruct (poll_loop (poll svc) (default "N/A" name) 0 n) as [exit events].
  cbn [snd] in Hr.
  assert ((status_requests events <= n)%nat
          /\ (0 <= pauses events <= interval_sec * Z.of_nat n)%Z) as [Hs Hb].
  { unfold interval_sec in *. destruct exit; destruct Hp as [H1 H2]; lia. }
  assert (forall tail,
             requests tail = [] -> pauses tail = 0%Z ->
             status_requests tail = 0%nat ->
             exists events0,
               trace w ++ [Print (info "Performing Veo 2 Interpolation")]
               ++ [PostPredict]
               ++ [Print (info ("SUCCESS (LRO Initiated): Veo 2 API call successful. Operation: "
                                +:+ default "N/A" name))]
               ++ events ++ tail
               = trace w ++ events0
               /\ (length (requests events0)
                   <= 1 + status_requests events0)%nat
               /\ (status_requests events0 <= n)%nat
               /\ (0 <= pauses events0 <= interval_sec * Z.of_nat n)%Z)
    as Hshape.
  { intros tail Ht Hpt Hst. eexists. split; [reflexivity|].
    unfold status_requests in *.
    cbn [app requests List.filter is_request is_status_request pauses length].
    fold (requests (events ++ tail)).
    rewrite requests_app, List.filter_app, pauses_app, !length_app.
    rewrite Ht, Hpt, Hst, Hr. cbn [length]. lia. }
  destruct exit; cbn [fs uploads trace];
    (split; [reflexivity|split; [reflexivity|]]).
  - destruct (Hshape [] eq_refl eq_refl eq_refl) as (ev & E & H).
    exists ev. split; [|exact H]. rewrite <- E, <- !app_assoc, app_nil_r.
    reflexivity.
  - destruct (Hshape [Print (error "ERROR: Polling timed out for operation after 600 attempts.")]
                eq_refl eq_refl eq_refl) as (ev & E & H).
    exists ev. split; [|exact H]. rewrite <- E, <- !app_assoc. reflexivity.
  - destruct (Hshape [Print (error "ERROR: Polling timed out for operation after 600 attempts.")]
                eq_refl eq_refl eq_refl) as (ev & E & H).
    exists ev. split; [|exact H]. rewrite <- E, <- !app_assoc. reflexivity.
Qed.

End JobCalls.

Section JobRefusals.

Import MoviePy Py Collab Timeline Veo2 Observed.

(** X12: no request reaches the generation service unless both frame files
    can be read, the credentials are obtained and both file names end in
    .png, .jpg or .jpeg. Short of that the call returns [None] after
    printing one error line, except for a failure to obtain the
    credentials, which is raised to the caller: [get_auth_headers] is
    called outside every [try] block. *)
Theorem no_request_unless_frames_ready
  (svc : Service) (a b : path) (prompt out : string) (w : World) :
  has_file w a = false \/ has_file w b = false \/ auth_ok svc = false
  \/ mime_type a = None \/ mime_type b = None ->
  exists r events,
    interpolate_video_veo2 svc a b prompt out w
    = (r, mkWorld (fs w) (uploads w) (trace w ++ events))
    /\ requests events = []
    /\ pauses events = 0%Z
    /\ (r = Normal None
        \/ (r = Raised GoogleAuthError
            /\ has_file w a = true /\ has_file w b = true
            /\ auth_ok svc = false)).
Proof.
  intros H. unfold interpolate_video_veo2.
  generalize max_iterations as n. intros n.
  unfold bind, print, emit, file_exists, guard, ret, raise.
  cbn [fs uploads trace].
  change (has_file _ a) with (has_file w a).
  change (has_file _ b) with (has_file w b).
  destruct (has_file w a) eqn:Ha; [destruct (has_file w b) eqn:Hb|];
    cbn [andb negb]; cbn [fs uploads trace];
    try (do 2 eexists; split; [rewrite <- app_assoc; reflexivity|];
         repeat split; left; reflexivity).
  destruct (auth_ok svc) eqn:Hauth.
  - destruct (mime_type a) as [ma|] eqn:Hma;
      [|cbn [fs uploads trace]; do 2 eexists;
        split; [rewrite <- app_assoc; reflexivity|];
        repeat split; left; reflexivity].
    destruct (mime_type b) as [mb|] eqn:Hmb;
      [|cbn [fs uploads trace]; do 2 eexists;
        split; [rewrite <- app_assoc; reflexivity|];
        repeat split; left; reflexivity].
    exfalso. destruct H as [H|[H|[H|[H|H]]]]; discriminate H.
  - do 2 eexists. split; [reflexivity|]. repeat split. right.
    repeat split; reflexivity.
Qed.

Lemma no_request_unless_frames_ready_witness :
  let svc := mkService true (Initiated None) (fun _ => NotDone) in
  let w := mkWorld {[ "tmp" := ["a.png"] ]} [] [] in
  exists r events,
    interpolate_video_veo2 svc ("tmp", "a.png") ("tmp", "b.png") "p" "out" w
    = (r, mkWorld (fs w) (uploads w) (trace w ++ events))
    /\ requests events = []
    /\ pauses events = 0%Z
    /\ (r = Normal None
        \/ (r = Raised GoogleAuthError
            /\ has_file w ("tmp", "a.png") = true
            /\ has_file w ("tmp", "b.png") = true
            /\ auth_ok svc = false)).
Proof.
  intros svc w.
  apply (no_request_unless_frames_ready svc ("tmp", "a.png") ("tmp", "b.png")
           "p" "out" w).
  right. left. vm_compute. reflexivity.
Defined.

(** X13: a generation request that is refused (HTTP error status,
    transport error or anything else going wrong with it) is sent once and
    never followed by a status request or a pause; the call returns
    [None] after printing the lines of the [except] clause that caught
    the refusal: two lines for an HTTP error status, one line for each of
    the other two. *)
Theorem rejected_submission_is_not_polled
  (svc : Service) (a b : path) (prompt out : string) (w : World)
  (start_mime end_mime : string) :
  has_file w a = true -> has_file w b = true ->
  auth_ok svc = true ->
  mime_type a = Some start_mime -> mime_type b = Some end_mime ->
  (forall name, submit svc <> Initiated name) ->
  exists lines,
    interpolate_video_veo2 svc a b prompt out w
    = (Normal None,
       mkWorld (fs w) (uploads w)
         (trace w ++ [Print (info "Performing Veo 2 Interpolation");
                      PostPredict] ++ lines))
    /\ ((submit svc = SubmitHTTPError
         /\ lines
            = [Print (error "ERROR: HTTP Error during Veo 2 API call (with bytes)");
               Print (info "This may indicate the API does not support byte content for images, expecting gcsUri.")])
        \/ (submit svc = SubmitRequestError
            /\ lines
               = [Print (error "ERROR: Network or other Request Error during Veo 2 API call (with bytes)")])
        \/ (submit svc = SubmitOtherError
            /\ lines
               = [Print (error "ERROR: An unexpected error occurred during Veo 2 API call (with bytes)")])).
Proof.
  intros Ha Hb Hauth Hma Hmb Hsub. unfold interpolate_video_veo2.
  generalize max_iterations as n. intros n.
  unfold bind, print, emit, file_exists, guard, ret, raise.
  cbn [fs uploads trace].
  change (has_file _ a) with (has_file w a).
  change (has_file _ b) with (has_file w b).
  rewrite Ha, Hb. cbn [andb negb]. rewrite Hauth, Hma, Hmb.
  destruct (submit svc) as [| | |name] eqn:Es;
    [| | |exfalso; exact (Hsub name eq_refl)];
    cbn [fs uploads trace]; eexists;
    (split; [rewrite <- !app_assoc; reflexivity|]).
  - left. split; reflexivity.
  - right. left. split; reflexivity.
  - right. right. split; reflexivity.
Qed.

Lemma rejected_submission_is_not_polled_witness :
  let svc := mkService true SubmitHTTPError (fun _ => NotDone) in
  let w := mkWorld {[ "tmp" := ["a.png"; "b.jpeg"] ]} [] [] in
  interpolate_video_veo2 svc ("tmp", "a.png") ("tmp", "b.jpeg") "p" "out" w
  = (Normal None,
     mkWorld (fs w) (uploads w)
       [Print (info "Performing Veo 2 Interpolation");
        PostPredict;
        Print (error "ERROR: HTTP Error during Veo 2 API call (with bytes)");
        Print (info "This may indicate the API does not support byte content for images, expecting gcsUri.")]).
Proof.
  intros svc w.
  destruct (rejected_submission_is_not_polled svc ("tmp", "a.png")
              ("tmp", "b.jpeg") "p" "out" w "image/png" "image/jpeg")
    as (lines & E & Hlines).
  - vm_compute. reflexivity.
  - vm_compute. reflexivity.
  - reflexivity.
  - vm_compute. reflexivity.
  - vm_compute. reflexivity.
  - intros name. discriminate.
  - rewrite E.
    destruct Hlines as [[_ ->]|[[Hs _]|[Hs _]]];
      [reflexivity|discriminate Hs|discriminate Hs].
Defined.

End JobRefusals.

Section BridgeSteps.

Import MoviePy Py Collab Timeline Veo2 Observed.

(** X14: when cv2 cannot read the last frame of the first clip or the
    first frame of the second, the pair is joined by a cut: the step
    appends nothing, prints the warning and contacts neither the
    generation service nor the bucket. *)
Theorem unreadable_frame_skips_bridge
  (env : Env) (bridge : Bridge) (tmp : string)
  (i : nat) (clip_A clip_B : Clip) (w : World) :
  is_Some (fs w !! tmp) ->
  (success_A bridge i && success_B bridge i)%bool = false ->
  exists w',
    transition_step env bridge tmp i clip_A clip_B w = (Normal [], w')
    /\ uploads w' = uploads w
    /\ trace w'
       = trace w
         ++ [Print (info "Processing transition");
             Print (warning "WARNING: Failed to extract frames. Skipping transition.")].
Proof.
  intros [files Hd] Hfail. unfold transition_step.
  rewrite Hfail. cbn [negb].
  unfold bind, print, emit, write_file, ret. cbn [fs uploads trace fst snd].
  destruct (success_A bridge i), (success_B bridge i);
    try discriminate Hfail; cbn [fs uploads trace fst snd];
    rewrite ?Hd; cbn [fs uploads trace fst snd]; rewrite ?Hd;
    eexists; (split; [reflexivity|]); cbn [fs uploads trace];
    (split; [reflexivity|]); rewrite <- app_assoc; reflexivity.
Qed.

Lemma unreadable_frame_skips_bridge_witness :
  let env0 := mkEnv true None (fun _ => true) true (fun _ => None) true in
  let bridge0 :=
    mkBridge (fun _ => true) (fun _ => false)
             (fun _ => mkService true SubmitOtherError (fun _ => NotDone))
             (fun _ => true) in
  let c := mkClip ("tmp", "a.mp4") 3 (640, 360)%Z 0 [] in
  let w := mkWorld {[ "tmp" := ["a.mp4"] ]} [] [] in
  exists w',
    transition_step env0 bridge0 "tmp" 0 c c w = (Normal [], w')
    /\ uploads w' = uploads w
    /\ trace w'
       = trace w
         ++ [Print (info "Processing transition");
             Print (warning "WARNING: Failed to extract frames. Skipping transition.")].
Proof.
  intros env0 bridge0 c w.
  apply (unreadable_frame_skips_bridge env0 bridge0 "tmp" 0%nat c c w).
  - exists ["a.mp4"]. reflexivity.
  - reflexivity.
Defined.

(** X15: a failure to obtain the credentials is not one of the failures
    that degrade to a cut: it leaves [interpolate_video_veo2] as an
    exception, which ends the loop over the pairs and the whole stitching
    step, before anything is sent to the generation service. *)
Theorem credentials_failure_aborts_stitching
  (env : Env) (bridge : Bridge) (tmp : string)
  (clip_A clip_B : Clip) (rest : list Clip) (w : World) :
  is_Some (fs w !! tmp) ->
  success_A bridge 0 = true -> success_B bridge 0 = true ->
  auth_ok (service bridge 0) = false ->
  exists w',
    build_final_sequence env bridge tmp (clip_A :: clip_B :: rest) w
    = (Raised GoogleAuthError, w')
    /\ uploads w' = uploads w
    /\ trace w'
       = trace w ++ [Print (info "Processing transition");
                     Print (info "Performing Veo 2 Interpolation")].
Proof.
  intros [files Hd] HA HB Hauth.
  unfold build_final_sequence. rewrite transitions_loop_cons.
  assert (exists w',
             transition_step env bridge tmp 0 clip_A clip_B w
             = (Raised GoogleAuthError, w')
             /\ uploads w' = uploads w
             /\ trace w'
                = trace w ++ [Print (info "Processing transition");
                              Print (info "Performing Veo 2 Interpolation")])
    as (w' & E & Hu & Ht).
  { unfold transition_step. rewrite HA, HB. cbn [andb negb].
    unfold bind at 1. unfold print at 1, emit at 1. cbn [fs uploads trace].
    unfold bind at 1. unfold write_file at 1. cbn [fs uploads trace fst snd].
    rewrite Hd.
    unfold bind at 1. unfold write_file at 1. cbn [fs uploads trace fst snd].
    rewrite lookup_insert_eq.
    unfold bind at 1. unfold interpolate_video_veo2.
    generalize max_iterations as n. intros n.
    unfold bind, print, emit, file_exists, guard, ret, raise.
    cbn [fs uploads trace].
    unfold has_file. cbn [fs fst snd]. rewrite !lookup_insert_eq.
    rewrite bool_decide_eq_true_2 by (constructor 2; constructor 1).
    rewrite bool_decide_eq_true_2 by (constructor 1).
    cbn [andb negb]. rewrite Hauth.
    eexists. split; [reflexivity|]. cbn [fs uploads trace].
    split; [reflexivity|]. rewrite <- app_assoc. reflexivity. }
  unfold bind at 1. unfold bind at 1. rewrite E.
  exists w'. split; [reflexivity|]. split; assumption.
Qed.

Lemma credentials_failure_aborts_stitching_witness :
  let env0 := mkEnv true None (fun _ => true) true (fun _ => None) true in
  let bridge0 :=
    mkBridge (fun _ => true) (fun _ => true)
             (fun _ => mkService false (Initiated None) (fun _ => NotDone))
             (fun _ => true) in
  let c := mkClip ("tmp", "a.mp4") 3 (640, 360)%Z 0 [] in
  let w := mkWorld {[ "tmp" := ["a.mp4"] ]} [] [] in
  exists w',
    build_final_sequence env0 bridge0 "tmp" [c; c] w
    = (Raised GoogleAuthError, w')
    /\ uploads w' = uploads w
    /\ trace w'
       = trace w ++ [Print (info "Processing transition");
                     Print (info "Performing Veo 2 Interpolation")].
Proof.
  intros env0 bridge0 c w.
  apply (credentials_failure_aborts_stitching env0 bridge0 "tmp" c c [] w).
  - exists ["a.mp4"]. reflexivity.
  - reflexivity.
  - reflexivity.
  - reflexivity.
Defined.

(** What a step that ends normally appends: nothing, or the one clip
    decoded from the downloaded transition, played [TRANSITION_SPEED]
    times faster. *)
Lemma transition_step_appends
  (env : Env) (bridge : Bridge) (tmp : string)
  (i : nat) (clip_A clip_B : Clip) (w w' : World) (appended : list Clip) :
  transition_step env bridge tmp i clip_A clip_B w = (Normal appended, w') ->
  appended = []
  \/ exists dur sz,
       let local_transition_path :=
         (tmp, "transition_" +:+ PyStr.str_nat i +:+ ".mp4") in
       probe env local_transition_path = Some (dur, sz)
       /\ appended
          = [mkClip local_transition_path (dur / TRANSITION_SPEED) sz 0
                    [speedx TRANSITION_SPEED]]
       /\ success_A bridge i = true /\ success_B bridge i = true
       /\ auth_ok (service bridge i) = true
       /\ transition_download_ok bridge i = true.
Proof.
  intros E. unfold transition_step in E.
  apply bind_Normal_inv in E as (? & w1 & _ & E).
  apply bind_Normal_inv in E as (? & w2 & _ & E).
  apply bind_Normal_inv in E as (? & w3 & _ & E).
  destruct (success_A bridge i) eqn:HA, (success_B bridge i) eqn:HB;
    cbn [andb negb] in E;
    try (apply bind_Normal_inv in E as (? & w4 & _ & [= <- _]); now left).
  apply bind_Normal_inv in E as (uri & w4 & Ei & E).
  destruct (truthy uri) eqn:Hu; cbn [negb] in E;
    [|apply bind_Normal_inv in E as (? & w5 & _ & [= <- _]); now left].
  assert (auth_ok (service bridge i) = true) as Hauth.
  { destruct uri as [u|]; [|discriminate Hu].
    exact (proj1 (proj2 (proj2
             (interpolate_Some_inv _ _ _ _ _ _ _ _ Ei)))). }
  apply bind_Normal_inv in E as (? & w5 & _ & E).
  apply bind_Normal_inv in E as (? & w6 & _ & E).
  apply bind_Normal_inv in E as (? & w7 & Eg & E).
  assert (transition_download_ok bridge i = true) as Hdl.
  { unfold guard in Eg. destruct (transition_download_ok bridge i);
      [reflexivity|discriminate Eg]. }
  apply bind_Normal_inv in E as (? & w8 & _ & E).
  apply bind_Normal_inv in E as (exists_ & w9 & _ & E).
  destruct exists_; cbn [negb] in E;
    [|apply bind_Normal_inv in E as (? & w10 & _ & [= <- _]); now left].
  apply bind_Normal_inv in E as (transition_clip & w10 & Ev & [= <- _]).
  right. unfold VideoFileClip in Ev.
  apply bind_Normal_inv in Ev as (? & w11 & _ & Ev).
  apply bind_Normal_inv in Ev as (? & w12 & _ & Ev).
  destruct (probe env _) as [[dur sz]|] eqn:Hp; [|discriminate Ev].
  injection Ev as <- _. exists dur, sz. cbv zeta.
  repeat split; assumption.
Qed.

(** X16: a pair contributes at most one clip, and when it does, that clip
    is the downloaded transition played five times faster: it lasts a
    fifth of what the decoder reports for transition_<i>.mp4, starts at 0
    and carries the single effect [speedx 5]. This needs both frames read,
    the credentials obtained and the download of the generated video not
    failing. *)
Theorem bridge_clip_is_sped_up
  (env : Env) (bridge : Bridge) (tmp : string)
  (i : nat) (clip_A clip_B : Clip) (w w' : World) (appended : list Clip) :
  transition_step env bridge tmp i clip_A clip_B w = (Normal appended, w') ->
  (length appended <= 1)%nat
  /\ forall x, In x appended ->
       exists dur sz,
         probe env (tmp, "transition_" +:+ PyStr.str_nat i +:+ ".mp4")
         = Some (dur, sz)
         /\ filename x = (tmp, "transition_" +:+ PyStr.str_nat i +:+ ".mp4")
         /\ (duration x * 5 == dur)%Q
         /\ size x = sz
         /\ start x = 0%Q
         /\ effects x = [speedx 5]
         /\ success_A bridge i = true /\ success_B bridge i = true
         /\ auth_ok (service bridge i) = true
         /\ transition_download_ok bridge i = true.
Proof.
  intros E.
  destruct (transition_step_appends _ _ _ _ _ _ _ _ _ E)
    as [->|(dur & sz & Hp & -> & HA & HB & Hauth & Hdl)].
  - split; [cbn; lia|]. intros x [].
  - split; [cbn; lia|]. intros x [<-|[]]. exists dur, sz.
    cbn [filename duration size start effects].
    repeat split; try assumption; try reflexivity.
    unfold TRANSITION_SPEED. field.
Qed.

Lemma bridge_clip_is_sped_up_witness :
  let env0 := mkEnv true None (fun _ => true) true
                    (fun _ => Some (5%Q, (1280, 720)%Z)) true in
  let bridge0 :=
    mkBridge (fun _ => true) (fun _ => true)
             (fun _ => mkService true (Initiated (Some "operations/1"))
                         (fun _ => Done (Some [Some "gs://bucket/t.mp4"])))
             (fun _ => true) in
  let c := mkClip ("tmp", "a.mp4") 3 (640, 360)%Z 0 [] in
  let w := mkWorld {[ "tmp" := ["a.mp4"] ]} [] [] in
  exists x w',
    transition_step env0 bridge0 "tmp" 0 c c w = (Normal [x], w')
    /\ (duration x * 5 == 5)%Q.
Proof.
  intros env0 bridge0 c w.
  destruct (transition_step env0 bridge0 "tmp" 0 c c w)
    as [r w'] eqn:E.
  assert (r = Normal [mkClip ("tmp", "transition_0.mp4") (5 / 5)
                             (1280, 720)%Z 0 [speedx 5]]) as ->.
  { vm_compute in E. injection E as <- _. reflexivity. }
  eexists _, w'. split; [reflexivity|].
  destruct (bridge_clip_is_sped_up env0 bridge0 "tmp" 0%nat c c w w' _ E)
    as (_ & H).
  destruct (H _ (or_introl eq_refl))
    as (dur & sz & Hp & _ & Hd & _).
  injection Hp as <- _. exact Hd.
Defined.

Lemma clips_removelast_last (clips : list Clip) (l : Clip) :
  last clips = Some l -> clips = removelast clips ++ [l].
Proof.
  induction clips as [|a clips IH]; [discriminate|].
  destruct clips as [|b clips].
  - intros [= ->]. reflexivity.
  - intros H. change (removelast (a :: b :: clips))
      with (a :: removelast (b :: clips)).
    cbn [app]. f_equal. apply IH. exact H.
Qed.

(** The loop over the pairs keeps the clips before the last one, in
    order, and adds at most one clip after each. *)
Lemma transitions_loop_keeps
  (env : Env) (bridge : Bridge) (tmp : string) (clips : list Clip) :
  forall (i : nat) (w w' : World) (final_sequence : list Clip),
    transitions_loop env bridge tmp i clips w = (Normal final_sequence, w') ->
    sublist (removelast clips) final_sequence
    /\ (length final_sequence <= 2 * length (removelast clips))%nat
    /\ head final_sequence = head (removelast clips).
Proof.
  induction clips as [|clip_A rest IH]; intros i w w' final_sequence E.
  - injection E as <- _. repeat split; constructor.
  - destruct rest as [|clip_B rest].
    + injection E as <- _. repeat split; constructor.
    + rewrite transitions_loop_cons in E.
      apply bind_Normal_inv in E as (appended & w1 & Es & E).
      apply bind_Normal_inv in E as (tail & w2 & El & [= <- _]).
      destruct (IH _ _ _ _ El) as (Hsub & Hlen & _).
      change (removelast (clip_A :: clip_B :: rest))
        with (clip_A :: removelast (clip_B :: rest)).
      assert (length appended <= 1)%nat as Ha.
      { destruct (transition_step_appends _ _ _ _ _ _ _ _ _ Es)
          as [->|(dur & sz & _ & -> & _)]; cbn; lia. }
      split; [|split; [|reflexivity]].
      * apply sublist_skip. apply sublist_inserts_l. exact Hsub.
      * cbn [length]. rewrite length_app. lia.
Qed.

(** X17: the sequence handed to [concatenate_videoclips] keeps every
    downloaded clip, in the order of the sorted file names: the clips are
    a subsequence of it, it starts with the first clip and ends with the
    last, and with [N] clips it has at most [2N - 1] entries (at most one
    bridge per adjacent pair). *)
Theorem final_sequence_keeps_every_clip
  (env : Env) (bridge : Bridge) (tmp : string)
  (clips final_sequence : list Clip) (w w' : World) :
  build_final_sequence env bridge tmp clips w = (Normal final_sequence, w') ->
  sublist clips final_sequence
  /\ (length clips <= length final_sequence <= 2 * length clips - 1)%nat
  /\ head final_sequence = head clips
  /\ last final_sequence = last clips.
Proof.
  intros E. unfold build_final_sequence in E.
  apply bind_Normal_inv in E as (seq & w1 & El & E).
  apply bind_Normal_inv in E as (last_clip & w2 & Eo & [= <- _]).
  destruct (last clips) as [l|] eqn:Hlast; [|discriminate Eo].
  injection Eo as -> _.
  destruct (transitions_loop_keeps _ _ _ _ _ _ _ _ El) as (Hsub & Hlen & Hhd).
  pose proof (clips_removelast_last clips last_clip Hlast) as Hsplit.
  assert (sublist clips (seq ++ [last_clip])) as Hs.
  { rewrite Hsplit at 1. apply sublist_app; [exact Hsub|reflexivity]. }
  split; [exact Hs|]. split; [|split].
  - split; [exact (sublist_length _ _ Hs)|].
    pose proof (f_equal (@length Clip) Hsplit) as Hl.
    rewrite !length_app in *. cbn [length] in *. lia.
  - rewrite Hsplit at 1.
    destruct seq as [|s0 seq], (removelast clips) as [|r0 rl];
      cbn in Hhd |- *; try discriminate; try reflexivity.
    exact Hhd.
  - rewrite last_snoc. reflexivity.
Qed.

Lemma final_sequence_keeps_every_clip_witness :
  let env0 := mkEnv true None (fun _ => true) true
                    (fun _ => Some (5%Q, (1280, 720)%Z)) true in
  let bridge0 :=
    mkBridge (fun _ => true) (fun i => negb (Nat.eqb i 0))
             (fun _ => mkService true (Initiated (Some "operations/1"))
                         (fun _ => Done (Some [Some "gs://bucket/t.mp4"])))
             (fun _ => true) in
  let a := mkClip ("tmp", "a.mp4") 3 (640, 360)%Z 0 [] in
  let b := mkClip ("tmp", "b.mp4") 4 (640, 360)%Z 0 [] in
  let c := mkClip ("tmp", "c.mp4") 6 (640, 360)%Z 0 [] in
  let w := mkWorld {[ "tmp" := ["a.mp4"; "b.mp4"; "c.mp4"] ]} [] [] in
  exists final_sequence,
    fst (build_final_sequence env0 bridge0 "tmp" [a; b; c] w)
    = Normal final_sequence
    /\ length final_sequence = 4%nat
    /\ sublist [a; b; c] final_sequence.
Proof.
  intros env0 bridge0 a b c w.
  destruct (build_final_sequence env0 bridge0 "tmp" [a; b; c] w)
    as [r w'] eqn:E.
  assert (exists x, r = Normal [a; b; x; c]) as [x ->].
  { vm_compute in E. injection E as <- _. eexists. reflexivity. }
  exists [a; b; x; c]. split; [reflexivity|]. split; [reflexivity|].
  exact (proj1 (final_sequence_keeps_every_clip env0 bridge0 "tmp" [a; b; c]
                  [a; b; x; c] w w' E)).
Defined.

End BridgeSteps.

(** ** Which objects are downloaded *)

Section Listing.

Import MoviePy Py Collab.

Lemma endswith_slash_lower (s : string) :
  PyStr.endswith s "/" = true -> PyStr.endswith (PyStr.lower s) "/" = true.
Proof.
  induction s as [|c s IH]; [discriminate|].
  rewrite endswith_unfold.
  destruct (String.eqb (String c s) "/") eqn:E.
  - apply String.eqb_eq in E. rewrite E. reflexivity.
  - intros H. cbn [PyStr.lower]. rewrite endswith_unfold, (IH H).
    match goal with |- (if ?b then _ else _) = _ => now destruct b end.
Qed.

Lemma endswith_slash_excludes (ext : string) :
  ext <> EmptyString -> PyStr.endswith ext "/" = false ->
  forall s, PyStr.endswith s "/" = true -> PyStr.endswith s ext = false.
Proof.
  intros Hne Hext. induction s as [|c s IH]; [discriminate|].
  intros H. rewrite endswith_unfold.
  destruct (String.eqb (String c s) ext) eqn:E.
  - apply String.eqb_eq in E. rewrite E, Hext in H. discriminate H.
  - rewrite endswith_unfold in H.
    destruct (String.eqb (String c s) "/") eqn:E1.
    + apply String.eqb_eq in E1. injection E1 as _ ->.
      destruct ext; [congruence|reflexivity].
    + exact (IH H).
Qed.

(** X18: in the download loop of the moviepy scripts the second half of
    the test [not name.lower().endswith(('.mp4', '.mov', '.avi')) or
    name.endswith('/')] never decides: a name ending in a slash does not
    end in one of the extensions, so a blob is downloaded exactly when its
    lowered name ends in .mp4, .mov or .avi. Every such name other than
    the folder name itself is also accepted by the filter of xfade.py. *)
Theorem trailing_slash_test_is_redundant (name : string) :
  skipped name
  = negb (PyStr.endswith_any (PyStr.lower name) [".mp4"; ".mov"; ".avi"])
  /\ forall folder_name,
       skipped name = false ->
       Xfade.is_video_blob folder_name name
       = negb (String.eqb name folder_name).
Proof.
  assert (PyStr.endswith name "/" = true ->
          PyStr.endswith_any (PyStr.lower name) [".mp4"; ".mov"; ".avi"]
          = false) as Hslash.
  { intros H. apply endswith_slash_lower in H.
    unfold PyStr.endswith_any. cbn [existsb].
    rewrite !(fun ext Hne Hext =>
                endswith_slash_excludes ext Hne Hext _ H);
      try reflexivity; discriminate. }
  split.
  - unfold skipped.
    destruct (PyStr.endswith name "/") eqn:E;
      [rewrite (Hslash eq_refl); reflexivity|].
    now rewrite orb_false_r.
  - intros folder_name. unfold skipped, Xfade.is_video_blob.
    intros H. apply orb_false_elim in H as [H _].
    apply negb_false_iff in H.
    unfold PyStr.endswith_any in *. cbn [existsb] in *.
    destruct (PyStr.endswith (PyStr.lower name) ".mp4");
      [now rewrite andb_true_r|].
    destruct (PyStr.endswith (PyStr.lower name) ".mov");
      [now rewrite andb_true_r|].
    destruct (PyStr.endswith (PyStr.lower name) ".avi");
      [now rewrite andb_true_r|].
    discriminate H.
Qed.

Lemma has_file_written (w : World) (d name : string) (files : list string)
  (u : list (string * Media)) (t : list Event) :
  has_file (mkWorld (<[d := name :: files]> (fs w)) u t) (d, name) = true.
Proof.
  unfold has_file. cbn [fs fst snd]. rewrite lookup_insert_eq.
  apply bool_decide_eq_true. constructor 1.
Qed.

Lemma has_file_kept (w : World) (d name : string) (files : list string)
  (u : list (string * Media)) (t : list Event) (p : path) :
  fs w !! d = Some files ->
  has_file w p = true ->
  has_file (mkWorld (<[d := name :: files]> (fs w)) u t) p = true.
Proof.
  intros Hd. unfold has_file. cbn [fs].
  destruct (decide (fst p = d)) as [->|Hne].
  - rewrite Hd, lookup_insert_eq. intros H.
    apply bool_decide_eq_true in H. apply bool_decide_eq_true.
    constructor 2. exact H.
  - rewrite lookup_insert_ne by congruence. trivial.
Qed.

Lemma download_loop_fetches
  (env : Env) (d : string) (blobs : list string) :
  forall w : World,
    is_Some (fs w !! d) ->
    Forall (fun name => skipped name = false -> download_ok env name = true)
           blobs ->
    exists w',
      download_loop env d blobs w
      = (Normal (map (fun name => (d, PyStr.basename name))
                     (List.filter (fun name => negb (skipped name)) blobs)),
         w')
      /\ is_Some (fs w' !! d)
      /\ uploads w' = uploads w
      /\ (forall p, has_file w p = true -> has_file w' p = true)
      /\ (forall name, In name blobs -> skipped name = false ->
                       has_file w' (d, PyStr.basename name) = true).
Proof.
  induction blobs as [|name rest IH]; intros w Hd Hok.
  - exists w. cbn. repeat split; try assumption; try tauto.
  - inversion Hok as [|? ? Hname Hrest]; subst.
    cbn [download_loop List.filter].
    destruct (skipped name) eqn:Hs; cbn [negb].
    + destruct (IH w Hd Hrest) as (w' & E & Hd' & Hu & Hkeep & Hnew).
      exists w'. repeat (split; [assumption|]).
      intros n [<-|Hin] Hn; [congruence|]. now apply Hnew.
    + destruct Hd as [files Hd].
      set (w1 := mkWorld (<[d := PyStr.basename name :: files]> (fs w))
                         (uploads w)
                         (trace w ++ [Print (info ("   - Downloaded "
                                                   +:+ PyStr.basename name))])).
      destruct (IH w1) as (w' & E & Hd' & Hu & Hkeep & Hnew);
        [cbn [w1 fs]; rewrite lookup_insert_eq; eauto|exact Hrest|].
      exists w'. split; [|split; [exact Hd'|split; [exact Hu|split]]].
      * unfold bind at 1. unfold download_to_filename, guard, bind, ret.
        rewrite (Hname eq_refl). unfold write_file. cbn [fst snd].
        rewrite Hd. unfold print, emit. cbn [fs uploads trace].
        fold w1. rewrite E. reflexivity.
      * intros p Hp. apply Hkeep. now apply has_file_kept.
      * intros n [<-|Hin] Hn; [|now apply Hnew].
        apply Hkeep. apply has_file_written.
Qed.

(** X19: when no download fails, the download loop returns one local path
    per blob whose lowered name ends in .mp4, .mov or .avi, in listing
    order, each made of the temporary directory and the base name of the
    blob; every one of these files exists afterwards, the files that
    existed before still exist, and nothing is uploaded. *)
Theorem download_loop_fetches_the_videos
  (env : Env) (d : string) (blobs : list string) (w : World) :
  is_Some (fs w !! d) ->
  Forall (fun name => skipped name = false -> download_ok env name = true)
         blobs ->
  exists w',
    download_loop env d blobs w
    = (Normal (map (fun name => (d, PyStr.basename name))
                   (List.filter (fun name => negb (skipped name)) blobs)),
       w')
    /\ is_Some (fs w' !! d)
    /\ uploads w' = uploads w
    /\ (forall p, has_file w p = true -> has_file w' p = true)
    /\ (forall name, In name blobs -> skipped name = false ->
                     has_file w' (d, PyStr.basename name) = true).
Proof. apply download_loop_fetches. Qed.

Lemma download_loop_fetches_the_videos_witness :
  let env := mkEnv true None (fun _ => true) true (fun _ => None) true in
  let w := mkWorld {[ "tmp" := [] ]} [] [] in
  exists w',
    download_loop env "tmp" ["in/"; "in/b.MP4"; "in/notes.txt"; "in/a.mov"] w
    = (Normal [("tmp", "b.MP4"); ("tmp", "a.mov")], w')
    /\ has_file w' ("tmp", "a.mov") = true.
Proof.
  intros env w.
  destruct (download_loop_fetches_the_videos env "tmp"
              ["in/"; "in/b.MP4"; "in/notes.txt"; "in/a.mov"] w)
    as (w' & E & _ & _ & _ & Hnew).
  - exists []. reflexivity.
  - repeat constructor.
  - exists w'. split; [exact E|].
    apply (Hnew "in/a.mov"); [|reflexivity].
    right. right. right. left. reflexivity.
Defined.



Lemma insert_sorted_perm {A} (key : A -> string) (a : A) (l : list A) :
  Permutation (PyStr.insert_sorted key a l) (a :: l).
Proof.
  induction l as [|x l IH]; cbn [PyStr.insert_sorted]; [reflexivity|].
  destruct (String.leb (key a) (key x)); [reflexivity|].
  rewrite IH. apply perm_swap.
Qed.

Lemma sort_by_perm {A} (key : A -> string) (l : list A) :
  Permutation (PyStr.sort_by key l) l.
Proof.
  induction l as [|x l IH]; [reflexivity|].
  change (PyStr.sort_by key (x :: l))
    with (PyStr.insert_sorted key x (PyStr.sort_by key l)).
  rewrite insert_sorted_perm. now constructor.
Qed.

Lemma insert_sorted_sorted {A} (key : A -> string) (a : A) (l : list A) :
  Sorted (fun x y => String.leb (key x) (key y) = true) l ->
  Sorted (fun x y => String.leb (key x) (key y) = true)
         (PyStr.insert_sorted key a l).
Proof.
  induction 1 as [|x l Hl IH Hhd]; cbn [PyStr.insert_sorted].
  - repeat constructor.
  - destruct (String.leb (key a) (key x)) eqn:E.
    + constructor; [now constructor|]. constructor. exact E.
    + constructor; [exact IH|].
      destruct l as [|y l]; cbn [PyStr.insert_sorted].
      * constructor. destruct (String.leb_total (key a) (key x)); congruence.
      * destruct (String.leb (key a) (key y)).
        -- constructor.
           destruct (String.leb_total (key a) (key x)); congruence.
        -- constructor. now inversion Hhd.
Qed.

Lemma sort_by_sorted {A} (key : A -> string) (l : list A) :
  Sorted (fun x y => String.leb (key x) (key y) = true) (PyStr.sort_by key l).
Proof.
  induction l as [|x l IH]; [constructor|].
  change (PyStr.sort_by key (x :: l))
    with (PyStr.insert_sorted key x (PyStr.sort_by key l)).
  now apply insert_sorted_sorted.
Qed.

(** X21: what [list_blobs_in_folder] of xfade.py returns: the listed names
    other than the folder name that end, lowered, in .mp4, .mov, .avi,
    .mkv or .webm, each as often as it is listed, arranged so that every
    name is at most its successor in string order. The call changes
    nothing. *)
Theorem listed_videos_are_filtered_and_sorted
  (env : Env) (folder_name : string) (w w' : World)
  (video_blobs : list string) :
  Xfade.list_blobs_in_folder env folder_name w = (Normal video_blobs, w') ->
  w' = w
  /\ exists blobs,
       listing env = Some blobs
       /\ Permutation video_blobs
                      (List.filter (Xfade.is_video_blob folder_name) blobs)
       /\ Sorted (fun a b => String.leb a b = true) video_blobs
       /\ forall name,
            In name video_blobs
            <-> In name blobs /\ name <> folder_name
               /\ PyStr.endswith_any (PyStr.lower name)
                    [".mp4"; ".mov"; ".avi"; ".mkv"; ".webm"] = true.
Proof.
  unfold Xfade.list_blobs_in_folder, storage_bucket, list_blobs.
  intros E.
  apply bind_Normal_inv in E as (? & w1 & Eg & E).
  apply bind_Normal_inv in E as (blobs & w2 & El & [= <- <-]).
  unfold guard in Eg. destruct (client_ok env); [|discriminate Eg].
  injection Eg as _ <-.
  unfold of_option in El. destruct (listing env) as [l|]; [|discriminate El].
  injection El as <- <-.
  split; [reflexivity|]. exists l. split; [reflexivity|].
  split; [apply sort_by_perm|]. split; [apply (sort_by_sorted (fun n => n))|].
  intros name.
  rewrite (Permutation_in' (eq_refl name) (sort_by_perm (fun n => n) _)).
  rewrite List.filter_In. unfold Xfade.is_video_blob.
  rewrite andb_true_iff, negb_true_iff, String.eqb_neq. tauto.
Qed.

Lemma listed_videos_are_filtered_and_sorted_witness :
  let env := mkEnv true (Some ["in"; "in/b.webm"; "in/notes.txt"; "in/a.MP4"])
                   (fun _ => true) true (fun _ => None) true in
  let w := mkWorld ∅ [] [] in
  Xfade.list_blobs_in_folder env "in" w = (Normal ["in/a.MP4"; "in/b.webm"], w)
  /\ Sorted (fun a b => String.leb a b = true) ["in/a.MP4"; "in/b.webm"].
Proof.
  intros env w.
  assert (Xfade.list_blobs_in_folder env "in" w
          = (Normal ["in/a.MP4"; "in/b.webm"], w)) as E
    by (vm_compute; reflexivity).
  split; [exact E|].
  destruct (listed_videos_are_filtered_and_sorted env "in" w w _ E)
    as (_ & blobs & _ & _ & Hs & _).
  exact Hs.
Defined.

End Listing.

(** ** How a run ends and what it uploads *)

Section ConductOfSteps.

Import MoviePy Py Collab Conduct.

Lemma offline_ret {A} (a : A) : offline (ret a).
Proof. intros w r w' [= _ <-]. reflexivity. Qed.

Lemma offline_raise {A} (e : exn) : offline (@raise A e).
Proof. intros w r w' [= _ <-]. reflexivity. Qed.

Lemma offline_return {A} : offline (@return_ A).
Proof. intros w r w' [= _ <-]. reflexivity. Qed.

Lemma offline_emit (evs : list Event) : offline (emit evs).
Proof. intros w r w' [= _ <-]. reflexivity. Qed.

Lemma offline_print (m : Msg) : offline (print m).
Proof. apply offline_emit. Qed.

Lemma offline_guard (b : bool) (e : exn) : offline (guard b e).
Proof. destruct b; [apply offline_ret|apply offline_raise]. Qed.

Lemma offline_of_option {A} (o : option A) (e : exn) : offline (of_option o e).
Proof. destruct o; [apply offline_ret|apply offline_raise]. Qed.

Lemma offline_of_sum {A} (r : exn + A) : offline (of_sum r).
Proof. destruct r; [apply offline_raise|apply offline_ret]. Qed.

Lemma offline_dir_exists (d : string) : offline (dir_exists d).
Proof. intros w r w' [= _ <-]. reflexivity. Qed.

Lemma offline_file_exists (p : path) : offline (file_exists p).
Proof. intros w r w' [= _ <-]. reflexivity. Qed.

Lemma offline_mkdtemp : offline mkdtemp.
Proof. intros w r w' [= _ <-]. reflexivity. Qed.

Lemma offline_rmtree (d : string) : offline (rmtree d).
Proof. intros w r w' [= _ <-]. reflexivity. Qed.

Lemma offline_write_file (p : path) : offline (write_file p).
Proof.
  intros w r w' E. unfold write_file in E.
  destruct (fs w !! fst p); injection E as _ <-; reflexivity.
Qed.

Lemma offline_bind {A B} (m : M A) (k : A -> M B) :
  offline m -> (forall a, offline (k a)) -> offline (bind m k).
Proof.
  intros Hm Hk w r w' E. unfold bind in E.
  destruct (m w) as [[a|e|] w1] eqn:Em.
  - rewrite (Hk a w1 r w' E). exact (Hm w _ w1 Em).
  - injection E as _ <-. exact (Hm w _ w1 Em).
  - injection E as _ <-. exact (Hm w _ w1 Em).
Qed.

Lemma offline_mapM {A B} (f : A -> M B) (l : list A) :
  (forall a, offline (f a)) -> offline (mapM f l).
Proof.
  intros Hf. induction l as [|a l IH]; cbn [mapM].
  - apply offline_ret.
  - apply offline_bind; [apply Hf|]. intros b.
    apply offline_bind; [exact IH|]. intros bs. apply offline_ret.
Qed.

Lemma offline_try_finally {A} (body : M A) (final : M unit) :
  offline body -> offline final -> offline (try_finally body final).
Proof.
  intros Hb Hf w r w' E. unfold try_finally in E.
  destruct (body w) as [rb w1] eqn:Eb.
  destruct (final w1) as [[[]|e|] w2] eqn:Ef; injection E as _ <-;
    rewrite (Hf w1 _ w2 Ef); exact (Hb w _ w1 Eb).
Qed.

Lemma catchable_ret {A} (a : A) : catchable (ret a).
Proof. intros w r w' e [= <- _]. discriminate. Qed.

Lemma catchable_return {A} : catchable (@return_ A).
Proof. intros w r w' e [= <- _]. discriminate. Qed.

Lemma catchable_raise {A} (e : exn) :
  is_Exception e = true -> catchable (@raise A e).
Proof. intros He w r w' e' [= <- _] [= <-]. exact He. Qed.

Lemma catchable_emit (evs : list Event) : catchable (emit evs).
Proof. intros w r w' e [= <- _]. discriminate. Qed.

Lemma catchable_print (m : Msg) : catchable (print m).
Proof. apply catchable_emit. Qed.

Lemma catchable_guard (b : bool) (e : exn) :
  is_Exception e = true -> catchable (guard b e).
Proof.
  intros He. destruct b; [apply catchable_ret|now apply catchable_raise].
Qed.

Lemma catchable_of_option {A} (o : option A) (e : exn) :
  is_Exception e = true -> catchable (of_option o e).
Proof.
  intros He. destruct o; [apply catchable_ret|now apply catchable_raise].
Qed.

Lemma catchable_of_sum {A} (r : exn + A) :
  (forall e, r = inl e -> is_Exception e = true) -> catchable (of_sum r).
Proof.
  intros He. destruct r as [e|a];
    [apply catchable_raise, He; reflexivity|apply catchable_ret].
Qed.

Lemma catchable_file_exists (p : path) : catchable (file_exists p).
Proof. intros w r w' e [= <- _]. discriminate. Qed.

Lemma catchable_write_file (p : path) : catchable (write_file p).
Proof.
  intros w r w' e E. unfold write_file in E.
  destruct (fs w !! fst p); injection E as <- _; [discriminate|].
  intros [= <-]. reflexivity.
Qed.

Lemma catchable_bind {A B} (m : M A) (k : A -> M B) :
  catchable m -> (forall a, catchable (k a)) -> catchable (bind m k).
Proof.
  intros Hm Hk w r w' e E. unfold bind in E.
  destruct (m w) as [[a|e0|] w1] eqn:Em.
  - exact (Hk a w1 r w' e E).
  - injection E as <- _. intros [= <-]. exact (Hm w _ w1 e0 Em eq_refl).
  - injection E as <- _. discriminate.
Qed.

Lemma catchable_mapM {A B} (f : A -> M B) (l : list A) :
  (forall a, catchable (f a)) -> catchable (mapM f l).
Proof.
  intros Hf. induction l as [|a l IH]; cbn [mapM].
  - apply catchable_ret.
  - apply catchable_bind; [apply Hf|]. intros b.
    apply catchable_bind; [exact IH|]. intros bs. apply catchable_ret.
Qed.

End ConductOfSteps.

Create HintDb conduct discriminated.

#[local] Hint Resolve offline_ret offline_raise offline_return offline_emit
  offline_print offline_guard offline_of_option offline_of_sum
  offline_dir_exists offline_file_exists offline_mkdtemp offline_rmtree
  offline_write_file catchable_ret catchable_return catchable_emit
  catchable_print catchable_file_exists catchable_write_file : conduct.

(** Decompose a monadic term along its binds and case distinctions. *)
Ltac stroll :=
  repeat first
    [ progress intros
    | progress cbv zeta
    | solve [eauto with conduct]
    | solve [apply catchable_raise; reflexivity]
    | solve [apply catchable_guard; reflexivity]
    | solve [apply catchable_of_option; reflexivity]
    | apply offline_bind
    | apply catchable_bind
    | apply offline_mapM
    | apply catchable_mapM
    | match goal with
      | |- Conduct.offline (if ?b then _ else _) => destruct b
      | |- Conduct.catchable (if ?b then _ else _) => destruct b
      | |- Conduct.offline (match ?x with _ => _ end) => destruct x
      | |- Conduct.catchable (match ?x with _ => _ end) => destruct x
      end ].

Section ConductOfStitching.

Import MoviePy Py Collab Conduct.

Variable env : Env.

Lemma offline_VideoFileClip (p : path) : offline (VideoFileClip env p).
Proof. unfold VideoFileClip. stroll. Qed.

Lemma catchable_VideoFileClip (p : path) : catchable (VideoFileClip env p).
Proof. unfold VideoFileClip. stroll. Qed.

Lemma offline_download (blob : string) (p : path) :
  offline (download_to_filename env blob p).
Proof. unfold download_to_filename. stroll. Qed.

Lemma catchable_download (blob : string) (p : path) :
  catchable (download_to_filename env blob p).
Proof. unfold download_to_filename. stroll. Qed.

Lemma offline_download_loop (d : string) (blobs : list string) :
  offline (download_loop env d blobs).
Proof.
  induction blobs as [|name rest IH]; cbn [download_loop]; [stroll|].
  destruct (skipped name); [exact IH|].
  apply offline_bind; [apply offline_download|]. stroll.
Qed.

Lemma catchable_download_loop (d : string) (blobs : list string) :
  catchable (download_loop env d blobs).
Proof.
  induction blobs as [|name rest IH]; cbn [download_loop]; [stroll|].
  destruct (skipped name); [exact IH|].
  apply catchable_bind; [apply catchable_download|]. stroll.
Qed.

End ConductOfStitching.

#[local] Hint Resolve offline_VideoFileClip catchable_VideoFileClip
  offline_download catchable_download offline_download_loop
  catchable_download_loop : conduct.

Section ConductOfScripts.

Import MoviePy Py Collab Conduct.

Variable env : Env.

Lemma offline_storage_bucket : offline (storage_bucket env).
Proof. unfold storage_bucket. stroll. Qed.

Lemma catchable_storage_bucket : catchable (storage_bucket env).
Proof. unfold storage_bucket. stroll. Qed.

Lemma offline_list_blobs : offline (list_blobs env).
Proof. unfold list_blobs. stroll. Qed.

Lemma catchable_list_blobs : catchable (list_blobs env).
Proof. unfold list_blobs. stroll. Qed.

Lemma offline_write_videofile (p : path) : offline (write_videofile env p).
Proof. unfold write_videofile. stroll. Qed.

Lemma catchable_write_videofile (p : path) :
  catchable (write_videofile env p).
Proof. unfold write_videofile. stroll. Qed.

Lemma catchable_upload (name : string) (content : Media) :
  catchable (upload_from_filename env name content).
Proof.
  unfold upload_from_filename. apply catchable_bind; [stroll|].
  intros _ w r w' e [= <- _]. discriminate.
Qed.

Lemma uploads_once_offline {A} (name : string) (m : M A) :
  offline m -> uploads_once name m.
Proof. intros H w r w' E. left. exact (H w r w' E). Qed.

Lemma uploads_once_bind {A B} (name : string) (m : M A) (k : A -> M B) :
  offline m -> (forall a, uploads_once name (k a)) ->
  uploads_once name (bind m k).
Proof.
  intros Hm Hk w r w' E. unfold bind in E.
  destruct (m w) as [[a|e|] w1] eqn:Em.
  - rewrite <- (Hm w _ w1 Em). exact (Hk a w1 r w' E).
  - injection E as _ <-. left. exact (Hm w _ w1 Em).
  - injection E as _ <-. left. exact (Hm w _ w1 Em).
Qed.

(** An upload followed by steps that cannot fail and upload nothing. *)
Lemma uploads_once_upload {B} (name : string) (content : Media) (k : M B) :
  offline k -> (forall w, exists b w', k w = (Normal b, w')) ->
  uploads_once name (bind (upload_from_filename env name content)
                          (fun _ => k)).
Proof.
  intros Hoff Hk w r w' E. unfold bind at 1 in E.
  unfold upload_from_filename, bind, guard, ret, raise in E.
  destruct (upload_ok env).
  - destruct (Hk (mkWorld (fs w) (uploads w ++ [(name, content)]) (trace w)))
      as (b & w2 & Ek).
    pose proof (Hoff _ _ _ Ek) as Hu. rewrite Ek in E.
    injection E as <- <-. right. split; [eauto|].
    exists content. exact Hu.
  - injection E as _ <-. left. reflexivity.
Qed.

End ConductOfScripts.

#[local] Hint Resolve offline_storage_bucket catchable_storage_bucket
  offline_list_blobs catchable_list_blobs offline_write_videofile
  catchable_write_videofile catchable_upload : conduct.

Section ConductOfPipelines.

Import MoviePy Py Collab Conduct.

Lemma cleanup_conduct (d : string) (checked_cleanup : bool) (w : World)
  (r : Outcome unit) (w' : World) :
  (if checked_cleanup
   then
     bind (dir_exists d)
       (fun exists_ : bool =>
          if exists_
          then bind (print (info "Cleaning up temporary directory"))
                 (fun _ => rmtree d)
          else ret tt)
   else
     bind (print (info "Cleaning up temporary directory..."))
       (fun _ => rmtree d)) w = (r, w') ->
  r = Normal tt /\ uploads w' = uploads w.
Proof.
  destruct checked_cleanup; unfold bind, dir_exists, print, emit, rmtree, ret;
    cbn [fs uploads trace].
  - destruct (bool_decide (is_Some (fs w !! d)));
      intros [= <- <-]; split; reflexivity.
  - intros [= <- <-]. split; reflexivity.
Qed.

(** A script built on the shared body returns normally and uploads at
    most the final video, provided its stitching step uploads nothing
    and raises nothing but [Exception]s. *)
Lemma moviepy_pipeline_conduct (env : Env)
  (FINAL_VIDEO_NAME no_videos_text : string)
  (stitch : string -> list path -> M Composite) (checked_cleanup : bool) :
  (forall d files, offline (stitch d files)) ->
  (forall d files, catchable (stitch d files)) ->
  forall w : World,
  exists w',
    moviepy_pipeline env FINAL_VIDEO_NAME no_videos_text stitch
      checked_cleanup w
    = (Normal tt, w')
    /\ (uploads w' = uploads w
        \/ exists content,
             uploads w'
             = uploads w
               ++ [(DESTINATION_PREFIX +:+ FINAL_VIDEO_NAME, content)]).
Proof.
  intros Hoff Hcatch w. unfold moviepy_pipeline, call.
  unfold bind at 1. unfold mkdtemp at 1.
  set (d := fresh (dom (fs w))).
  unfold bind at 1. unfold print at 1, emit at 1. cbn [fs uploads trace].
  match goal with
  | |- context [try_except_finally ?body ?handler ?final ?w0] =>
      set (b := body); set (w1 := w0);
      assert (catchable b) as Hc;
      [|assert (uploads_once (DESTINATION_PREFIX +:+ FINAL_VIDEO_NAME) b)
          as Hu]
  end.
  - unfold b. stroll.
  - unfold b.
    apply uploads_once_bind; [stroll|]. intros _.
    apply uploads_once_bind; [stroll|]. intros _.
    apply uploads_once_bind; [stroll|]. intros blobs.
    apply uploads_once_bind; [stroll|]. intros files.
    destruct files as [|f files]; [apply uploads_once_offline; stroll|].
    apply uploads_once_bind; [apply Hoff|]. intros final_clip.
    apply uploads_once_bind; [stroll|]. intros _.
    apply uploads_once_bind; [stroll|]. intros _.
    apply uploads_once_bind; [stroll|]. intros _.
    apply uploads_once_upload; [stroll|].
    intros w0. do 2 eexists. reflexivity.
  - unfold try_except_finally.
    destruct (b w1) as [rb w2] eqn:Eb.
    pose proof (Hu w1 rb w2 Eb) as Hup.
    assert (uploads w1 = uploads w) as Hw1 by reflexivity.
    rewrite Hw1 in Hup.
    destruct rb as [[]|e|].
    + match goal with
      | |- context [match ?f w2 with _ => _ end] =>
          destruct (f w2) as [rf w3] eqn:Ef
      end.
      apply cleanup_conduct in Ef as [-> Hf].
      exists w3. split; [reflexivity|]. rewrite Hf.
      destruct Hup as [Hup|(_ & content & Hup)]; [now left|right; eauto].
    + rewrite (Hc w1 _ w2 e Eb eq_refl).
      unfold print at 1, emit at 1.
      match goal with
      | |- context [match ?f ?w0 with _ => _ end] =>
          destruct (f w0) as [rf w3] eqn:Ef
      end.
      apply cleanup_conduct in Ef as [-> Hf].
      exists w3. split; [reflexivity|]. rewrite Hf. cbn [uploads].
      destruct Hup as [Hup|((a & Ha) & _)]; [now left|discriminate Ha].
    + match goal with
      | |- context [match ?f w2 with _ => _ end] =>
          destruct (f w2) as [rf w3] eqn:Ef
      end.
      apply cleanup_conduct in Ef as [-> Hf].
      exists w3. split; [reflexivity|]. rewrite Hf.
      destruct Hup as [Hup|((a & Ha) & _)]; [now left|discriminate Ha].
Qed.

End ConductOfPipelines.

Section ConductOfStitches.

Import MoviePy Py Collab Conduct.

Variable env : Env.

(** The placement steps fail with [IndexError] or [ValueError] only. *)
Ltac schedule_error :=
  intros e;
  repeat match goal with
         | |- context [match ?x with _ => _ end] => destruct x
         end;
  intros [= <-]; reflexivity.

Lemma concatenation_schedule_error (clips : list Clip) (e : exn) :
  Concatenation.schedule clips = inl e -> is_Exception e = true.
Proof. revert e. unfold Concatenation.schedule. schedule_error. Qed.

Lemma crossfade_schedule_error (d : Q) (clips : list Clip) (e : exn) :
  Crossfade.schedule d clips = inl e -> is_Exception e = true.
Proof. revert e. unfold Crossfade.schedule. schedule_error. Qed.

Lemma blend_schedule_error (d : Q) (clips : list Clip) (e : exn) :
  Blend.schedule d clips = inl e -> is_Exception e = true.
Proof. revert e. unfold Blend.schedule. schedule_error. Qed.

Lemma slide_schedule_error (d : Q) (clips : list Clip) (e : exn) :
  Slide.schedule d clips = inl e -> is_Exception e = true.
Proof. revert e. unfold Slide.schedule. schedule_error. Qed.

Lemma wipe_schedule_error (d : Q) (clips : list Clip) (e : exn) :
  Wipe.schedule d clips = inl e -> is_Exception e = true.
Proof. revert e. unfold Wipe.schedule. schedule_error. Qed.

Lemma offline_concatenation_stitch (d : string) (files : list path) :
  offline (Concatenation.stitch env d files).
Proof. unfold Concatenation.stitch. stroll. Qed.

Lemma catchable_concatenation_stitch (d : string) (files : list path) :
  catchable (Concatenation.stitch env d files).
Proof.
  unfold Concatenation.stitch. stroll.
  apply catchable_of_sum, concatenation_schedule_error.
Qed.

Lemma offline_fade_loop (td : Q) (files : list path) :
  forall i n, offline (FadeInOut.fade_loop td env i n files).
Proof.
  induction files as [|f rest IH]; intros i n; cbn [FadeInOut.fade_loop];
    stroll.
Qed.

Lemma catchable_fade_loop (td : Q) (files : list path) :
  forall i n, catchable (FadeInOut.fade_loop td env i n files).
Proof.
  induction files as [|f rest IH]; intros i n; cbn [FadeInOut.fade_loop];
    stroll.
Qed.

Lemma offline_fade_stitch (td : Q) (d : string) (files : list path) :
  offline (FadeInOut.stitch td env d files).
Proof.
  unfold FadeInOut.stitch.
  apply offline_bind; [stroll|]. intros _.
  apply offline_bind; [apply offline_fade_loop|]. stroll.
Qed.

Lemma catchable_fade_stitch (td : Q) (d : string) (files : list path) :
  catchable (FadeInOut.stitch td env d files).
Proof.
  unfold FadeInOut.stitch.
  apply catchable_bind; [stroll|]. intros _.
  apply catchable_bind; [apply catchable_fade_loop|]. stroll.
Qed.

Lemma offline_crossfade_stitch (td : Q) (d : string) (files : list path) :
  offline (Crossfade.stitch td env d files).
Proof. unfold Crossfade.stitch. stroll. Qed.

Lemma catchable_crossfade_stitch (td : Q) (d : string) (files : list path) :
  catchable (Crossfade.stitch td env d files).
Proof.
  unfold Crossfade.stitch. stroll.
  apply catchable_of_sum, crossfade_schedule_error.
Qed.

Lemma offline_blend_stitch (td : Q) (d : string) (files : list path) :
  offline (Blend.stitch td env d files).
Proof. unfold Blend.stitch. stroll. Qed.

Lemma catchable_blend_stitch (td : Q) (d : string) (files : list path) :
  catchable (Blend.stitch td env d files).
Proof.
  unfold Blend.stitch. stroll.
  apply catchable_of_sum, blend_schedule_error.
Qed.

Lemma offline_slide_stitch (td : Q) (d : string) (files : list path) :
  offline (Slide.stitch td env d files).
Proof. unfold Slide.stitch. stroll. Qed.

Lemma catchable_slide_stitch (td : Q) (d : string) (files : list path) :
  catchable (Slide.stitch td env d files).
Proof.
  unfold Slide.stitch. stroll.
  apply catchable_of_sum, slide_schedule_error.
Qed.

Lemma offline_wipe_stitch (td : Q) (d : string) (files : list path) :
  offline (Wipe.stitch td env d files).
Proof. unfold Wipe.stitch. stroll. Qed.

Lemma catchable_wipe_stitch (td : Q) (d : string) (files : list path) :
  catchable (Wipe.stitch td env d files).
Proof.
  unfold Wipe.stitch. stroll.
  apply catchable_of_sum, wipe_schedule_error.
Qed.

Lemma offline_interpolate (svc : Veo2.Service) (a b : path)
  (prompt out : string) :
  offline (Veo2.interpolate_video_veo2 svc a b prompt out).
Proof.
  unfold Veo2.interpolate_video_veo2.
  generalize Veo2.max_iterations as n. intros n. stroll.
Qed.

Lemma catchable_interpolate (svc : Veo2.Service) (a b : path)
  (prompt out : string) :
  catchable (Veo2.interpolate_video_veo2 svc a b prompt out).
Proof.
  unfold Veo2.interpolate_video_veo2.
  generalize Veo2.max_iterations as n. intros n. stroll.
Qed.

Lemma offline_transition_step (bridge : Veo2.Bridge) (d : string) (i : nat)
  (clip_A clip_B : Clip) :
  offline (Veo2.transition_step env bridge d i clip_A clip_B).
Proof.
  pose proof offline_interpolate as Hcall.
  unfold Veo2.transition_step. stroll.
Qed.

Lemma catchable_transition_step (bridge : Veo2.Bridge) (d : string) (i : nat)
  (clip_A clip_B : Clip) :
  catchable (Veo2.transition_step env bridge d i clip_A clip_B).
Proof.
  pose proof catchable_interpolate as Hcall.
  unfold Veo2.transition_step. stroll.
Qed.

Lemma offline_transitions_loop (bridge : Veo2.Bridge) (d : string)
  (clips : list Clip) :
  forall i, offline (Veo2.transitions_loop env bridge d i clips).
Proof.
  induction clips as [|clip_A rest IH]; intros i; [cbn; stroll|].
  destruct rest as [|clip_B rest]; [cbn; stroll|].
  rewrite transitions_loop_cons.
  apply offline_bind; [apply offline_transition_step|]. intros appended.
  apply offline_bind; [apply IH|]. stroll.
Qed.

Lemma catchable_transitions_loop (bridge : Veo2.Bridge) (d : string)
  (clips : list Clip) :
  forall i, catchable (Veo2.transitions_loop env bridge d i clips).
Proof.
  induction clips as [|clip_A rest IH]; intros i; [cbn; stroll|].
  destruct rest as [|clip_B rest]; [cbn; stroll|].
  rewrite transitions_loop_cons.
  apply catchable_bind; [apply catchable_transition_step|]. intros appended.
  apply catchable_bind; [apply IH|]. stroll.
Qed.

Lemma offline_veo2_stitch (bridge : Veo2.Bridge) (d : string)
  (files : list path) :
  offline (Veo2.stitch env bridge d files).
Proof.
  unfold Veo2.stitch, Veo2.build_final_sequence.
  apply offline_bind; [stroll|]. intros _.
  apply offline_bind; [stroll|]. intros clips.
  apply offline_bind; [|stroll].
  apply offline_bind; [apply offline_transitions_loop|]. stroll.
Qed.

Lemma catchable_veo2_stitch (bridge : Veo2.Bridge) (d : string)
  (files : list path) :
  catchable (Veo2.stitch env bridge d files).
Proof.
  unfold Veo2.stitch, Veo2.build_final_sequence.
  apply catchable_bind; [stroll|]. intros _.
  apply catchable_bind; [stroll|]. intros clips.
  apply catchable_bind; [|stroll].
  apply catchable_bind; [apply catchable_transitions_loop|]. stroll.
Qed.

End ConductOfStitches.

Section ConductOfRuns.

Import MoviePy Py Collab Conduct.

(** X22: the seven scripts built on moviepy never let an exception out:
    whatever the bucket, the decoder, the renderer and the generation
    service answer, the pipeline function returns normally. A run uploads
    nothing or exactly one object, and that object has the fixed name of
    the script's final video under the output prefix. *)
Theorem moviepy_scripts_return_normally
  (env : Env) (bridge : Veo2.Bridge) (w : World) :
  Forall (fun script : string * M unit =>
            exists w',
              snd script w = (Normal tt, w')
              /\ (uploads w' = uploads w
                  \/ exists content,
                       uploads w'
                       = uploads w
                         ++ [("CRED_exps/output_videos/" +:+ fst script,
                              content)]))
    [("concatenated_video_no_transition.mp4",
      Concatenation.process_gcs_videos_concat_only env);
     ("concatenated_fade_video.mp4", FadeInOut.process_gcs_videos env);
     ("concatenated_video_crossfade.mp4",
      Crossfade.process_gcs_videos_with_crossfade env);
     ("concatenated_video_blend.mp4",
      Blend.process_gcs_videos_with_blend env);
     ("concatenated_video_slide.mp4",
      Slide.process_gcs_videos_with_slide env);
     ("concatenated_video_wipe.mp4", Wipe.process_gcs_videos_with_wipe env);
     ("final_video_with_interpolated_transitions.mp4",
      Veo2.process_gcs_videos env bridge)].
Proof.
  repeat constructor; cbn [fst snd].
  - apply moviepy_pipeline_conduct;
      [apply offline_concatenation_stitch|apply catchable_concatenation_stitch].
  - apply moviepy_pipeline_conduct;
      [apply offline_fade_stitch|apply catchable_fade_stitch].
  - apply moviepy_pipeline_conduct;
      [apply offline_crossfade_stitch|apply catchable_crossfade_stitch].
  - apply moviepy_pipeline_conduct;
      [apply offline_blend_stitch|apply catchable_blend_stitch].
  - apply moviepy_pipeline_conduct;
      [apply offline_slide_stitch|apply catchable_slide_stitch].
  - apply moviepy_pipeline_conduct;
      [apply offline_wipe_stitch|apply catchable_wipe_stitch].
  - apply moviepy_pipeline_conduct;
      [apply offline_veo2_stitch|apply catchable_veo2_stitch].
Qed.

End ConductOfRuns.

(** ** xfade.py *)

Section XfadeSteps.

Import MoviePy Py Collab Conduct Observed.
Local Open Scope Q_scope.

Lemma ffmpeg_runs_app (l1 l2 : list Event) :
  ffmpeg_runs (l1 ++ l2) = ffmpeg_runs l1 ++ ffmpeg_runs l2.
Proof.
  induction l1 as [|e l1 IH]; [reflexivity|].
  destruct e; cbn [app ffmpeg_runs]; rewrite IH; reflexivity.
Qed.

(** What one successful ffmpeg step does. *)
Lemma stitch_two_videos_inv (tools : Xfade.Tools)
  (video1_path video2_path output_path : path) (effect : string) (td : Q)
  (w w' : World) :
  Xfade.stitch_two_videos tools video1_path video2_path output_path effect td w
  = (Normal tt, w') ->
  exists duration1 files,
    Xfade.ffprobe tools video1_path = Some duration1
    /\ Xfade.ffmpeg_ok tools output_path = true
    /\ fs w !! fst output_path = Some files
    /\ w' = mkWorld (<[fst output_path := snd output_path :: files]> (fs w))
                    (uploads w)
                    (trace w
                     ++ [Ffmpeg video1_path video2_path output_path effect td
                                (duration1 - td);
                         Print (info ("Stitched " +:+ snd video1_path
                                      +:+ " and " +:+ snd video2_path))]).
Proof.
  unfold Xfade.stitch_two_videos, Xfade.get_video_duration.
  unfold bind, of_option, emit, guard, write_file, print, emit, ret, raise.
  destruct (Xfade.ffprobe tools video1_path) as [duration1|]; [|discriminate].
  destruct (Xfade.ffmpeg_ok tools output_path); [|discriminate].
  cbn [fs uploads trace].
  destruct (fs w !! fst output_path) as [files|]; [|discriminate].
  intros [= <-]. exists duration1, files. repeat split.
  cbn [fs uploads trace]. now rewrite <- app_assoc.
Qed.

Lemma stitch_loop_chain (tools : Xfade.Tools) (temp_dir : string)
  (rest : list path) :
  forall (i : nat) (current : path) (w w' : World) (final : path),
    Xfade.stitch_loop tools temp_dir i current rest w = (Normal final, w') ->
    uploads w' = uploads w
    /\ exists events,
         trace w' = trace w ++ events
         /\ let runs := ffmpeg_runs events in
            map (fun run => snd (fst run)) runs = rest
            /\ map snd runs
               = map (fun k => (temp_dir,
                                "temp_stitch_" +:+ PyStr.str_nat (i + k)
                                +:+ ".mp4"))
                     (seq 0 (length rest))
            /\ map (fun run => fst (fst run)) runs
               = take (length rest) (current :: map snd runs)
            /\ last (current :: map snd runs) = Some final.
Proof.
  induction rest as [|next rest IH]; intros i current w w' final E.
  - injection E as <- <-. split; [reflexivity|].
    exists []. rewrite app_nil_r. repeat split.
  - cbn [Xfade.stitch_loop] in E.
    apply bind_Normal_inv in E as ([] & w1 & Es & E).
    apply stitch_two_videos_inv in Es
      as (duration1 & files & Hprobe & Hok & Hd & ->).
    destruct (IH _ _ _ _ _ E) as (Hu & events & Ht & Hsnd & Hout & Hfst & Hl).
    cbn [uploads trace] in Hu, Ht.
    split; [exact Hu|].
    eexists. split; [rewrite Ht, <- app_assoc; reflexivity|].
    cbn zeta. cbn [app ffmpeg_runs map fst snd length seq firstn].
    rewrite Hsnd, Hfst. repeat split.
    + rewrite Nat.add_0_r. f_equal. rewrite Hout, <- seq_shift, map_map.
      apply map_ext. intros k. now rewrite Nat.add_succ_r.
    + rewrite <- Hl. reflexivity.
Qed.

(** X23: the stitching loop of xfade.py is a left fold over the downloaded
    videos: it runs ffmpeg once per video after the first, in order; run
    number [k] writes temp_stitch_<k>.mp4 in the temporary directory; the
    first input of the first run is the first video and the first input of
    every later run is the output of the run before it; the path handed to
    the upload is the output of the last run, or the first video when
    there is no other. Nothing is uploaded on the way. *)
Theorem xfade_chains_the_outputs (tools : Xfade.Tools) (temp_dir : string)
  (first : path) (rest : list path) (w w' : World) (final : path) :
  Xfade.stitch_loop tools temp_dir 1 first rest w = (Normal final, w') ->
  uploads w' = uploads w
  /\ exists events,
       trace w' = trace w ++ events
       /\ let runs := ffmpeg_runs events in
          map (fun run => snd (fst run)) runs = rest
          /\ map snd runs
             = map (fun k => (temp_dir,
                              "temp_stitch_" +:+ PyStr.str_nat (1 + k)
                              +:+ ".mp4"))
                   (seq 0 (length rest))
          /\ map (fun run => fst (fst run)) runs
             = take (length rest) (first :: map snd runs)
          /\ last (first :: map snd runs) = Some final.
Proof. apply stitch_loop_chain. Qed.

Lemma xfade_chains_the_outputs_witness :
  let tools := Xfade.mkTools true true (fun _ => Some 4) (fun _ => true) in
  let w := mkWorld {[ "tmp" := ["a.mp4"; "b.mp4"; "c.mp4"] ]} [] [] in
  exists w' events,
    Xfade.stitch_loop tools "tmp" 1 ("tmp", "a.mp4")
      [("tmp", "b.mp4"); ("tmp", "c.mp4")] w
    = (Normal ("tmp", "temp_stitch_2.mp4"), w')
    /\ trace w' = trace w ++ events
    /\ map (fun run => fst (fst run)) (ffmpeg_runs events)
       = [("tmp", "a.mp4"); ("tmp", "temp_stitch_1.mp4")].
Proof.
  intros tools w.
  destruct (Xfade.stitch_loop tools "tmp" 1 ("tmp", "a.mp4")
              [("tmp", "b.mp4"); ("tmp", "c.mp4")] w) as [r w'] eqn:E.
  assert (r = Normal ("tmp", "temp_stitch_2.mp4")) as ->.
  { vm_compute in E. injection E as <- _. reflexivity. }
  destruct (xfade_chains_the_outputs tools "tmp" ("tmp", "a.mp4")
              [("tmp", "b.mp4"); ("tmp", "c.mp4")] w w' _ E)
    as (_ & events & Ht & _ & Hout & Hfst & _).
  exists w', events. split; [reflexivity|]. split; [exact Ht|].
  cbv zeta in Hout, Hfst. rewrite Hfst, Hout. reflexivity.
Defined.

Lemma stitch_loop_offsets (tools : Xfade.Tools) (temp_dir : string)
  (rest : list path) :
  forall (i : nat) (current : path) (w w' : World) (final : path),
    Xfade.stitch_loop tools temp_dir i current rest w = (Normal final, w') ->
    exists events,
      trace w' = trace w ++ events
      /\ Forall (fun e =>
                   match e with
                   | Ffmpeg video1 _ output effect td offset =>
                       effect = "fade" /\ td = 6 # 10
                       /\ Xfade.ffmpeg_ok tools output = true
                       /\ exists duration1,
                            Xfade.ffprobe tools video1 = Some duration1
                            /\ offset = duration1 - td
                   | _ => True
                   end) events.
Proof.
  induction rest as [|next rest IH]; intros i current w w' final E.
  - injection E as _ <-. exists []. rewrite app_nil_r. split; constructor.
  - cbn [Xfade.stitch_loop] in E.
    apply bind_Normal_inv in E as ([] & w1 & Es & E).
    apply stitch_two_videos_inv in Es
      as (duration1 & files & Hprobe & Hok & Hd & ->).
    destruct (IH _ _ _ _ _ E) as (events & Ht & HF).
    cbn [trace] in Ht.
    eexists. split; [rewrite Ht, <- app_assoc; reflexivity|].
    cbn [app]. constructor; [|constructor; [exact I|exact HF]].
    repeat split; try assumption. exists duration1. split; [exact Hprobe|].
    reflexivity.
Qed.

(** X24: every ffmpeg run of the stitching loop asks for the "fade"
    transition lasting 0.6 seconds, and places it 0.6 seconds before the
    end of its first input as measured by ffprobe: for the runs after the
    first, that input is the video stitched so far, so each transition
    overlaps the end of everything before it. *)
Theorem xfade_transition_offsets (tools : Xfade.Tools) (temp_dir : string)
  (first : path) (rest : list path) (w w' : World) (final : path) :
  Xfade.stitch_loop tools temp_dir 1 first rest w = (Normal final, w') ->
  exists events,
    trace w' = trace w ++ events
    /\ Forall (fun e =>
                 match e with
                 | Ffmpeg video1 _ output effect td offset =>
                     effect = "fade" /\ td = 6 # 10
                     /\ Xfade.ffmpeg_ok tools output = true
                     /\ exists duration1,
                          Xfade.ffprobe tools video1 = Some duration1
                          /\ offset = duration1 - td
                 | _ => True
                 end) events.
Proof. apply stitch_loop_offsets. Qed.

Lemma xfade_transition_offsets_witness :
  let tools :=
    Xfade.mkTools true true
      (fun p => if String.eqb (snd p) "a.mp4" then Some 4 else Some (37 # 5))
      (fun _ => true) in
  let w := mkWorld {[ "tmp" := ["a.mp4"; "b.mp4"; "c.mp4"] ]} [] [] in
  exists w' events,
    Xfade.stitch_loop tools "tmp" 1 ("tmp", "a.mp4")
      [("tmp", "b.mp4"); ("tmp", "c.mp4")] w
    = (Normal ("tmp", "temp_stitch_2.mp4"), w')
    /\ trace w' = trace w ++ events
    /\ Forall (fun e =>
                 match e with
                 | Ffmpeg video1 _ output effect td offset =>
                     effect = "fade" /\ td = 6 # 10
                     /\ Xfade.ffmpeg_ok tools output = true
                     /\ exists duration1,
                          Xfade.ffprobe tools video1 = Some duration1
                          /\ offset = duration1 - td
                 | _ => True
                 end) events.
Proof.
  intros tools w.
  destruct (Xfade.stitch_loop tools "tmp" 1 ("tmp", "a.mp4")
              [("tmp", "b.mp4"); ("tmp", "c.mp4")] w) as [r w'] eqn:E.
  assert (r = Normal ("tmp", "temp_stitch_2.mp4")) as ->.
  { vm_compute in E. injection E as <- _. reflexivity. }
  destruct (xfade_transition_offsets tools "tmp" ("tmp", "a.mp4")
              [("tmp", "b.mp4"); ("tmp", "c.mp4")] w w' _ E)
    as (events & Ht & HF).
  exists w', events. split; [reflexivity|]. split; assumption.
Defined.

End XfadeSteps.

Section XfadeRuns.

Import MoviePy Py Collab Conduct Observed.
Local Open Scope Q_scope.

Variable env : Env.
Variable tools : Xfade.Tools.

Lemma uploads_once_then {A B} (name : string) (m : M A) (k : A -> M B) :
  uploads_once name m ->
  (forall a, offline (k a)) ->
  (forall a w, exists b w', k a w = (Normal b, w')) ->
  uploads_once name (bind m k).
Proof.
  intros Hm Hoff Hk w r w' E. unfold bind in E.
  destruct (m w) as [[a|e|] w1] eqn:Em.
  - destruct (Hk a w1) as (b & w2 & Ek). rewrite Ek in E.
    injection E as <- <-. rewrite (Hoff a _ _ _ Ek).
    destruct (Hm w _ w1 Em) as [Hu|(_ & content & Hu)];
      [now left|right; eauto].
  - injection E as <- <-.
    destruct (Hm w _ w1 Em) as [Hu|((a & Ha) & _)];
      [now left|discriminate Ha].
  - injection E as <- <-.
    destruct (Hm w _ w1 Em) as [Hu|((a & Ha) & _)];
      [now left|discriminate Ha].
Qed.

Lemma uploads_once_try_finally_rmtree {A} (name d : string) (body : M A) :
  uploads_once name body -> uploads_once name (try_finally body (rmtree d)).
Proof.
  intros Hb w r w' E. unfold try_finally, rmtree in E.
  destruct (body w) as [rb w1] eqn:Eb. injection E as <- <-. cbn [uploads].
  exact (Hb w _ w1 Eb).
Qed.

Lemma uploads_once_call (name : string) (m : M unit) :
  uploads_once name m -> uploads_once name (call m).
Proof.
  intros Hm w r w' E. unfold call in E.
  destruct (m w) as [[[]|e|] w1] eqn:Em; injection E as <- <-;
    destruct (Hm w _ w1 Em) as [Hu|(Hn & Hu)]; try (now left);
    right; split; eauto.
Qed.

Lemma catchable_try_finally_rmtree {A} (d : string) (body : M A) :
  catchable body -> catchable (try_finally body (rmtree d)).
Proof.
  intros Hb w r w' e E. unfold try_finally, rmtree in E.
  destruct (body w) as [rb w1] eqn:Eb. injection E as <- _.
  exact (Hb w _ w1 e Eb).
Qed.

Lemma catchable_call (m : M unit) : catchable m -> catchable (call m).
Proof.
  intros Hm w r w' e E. unfold call in E.
  destruct (m w) as [[[]|e0|] w1] eqn:Em; injection E as <- _;
    try discriminate.
  exact (Hm w _ w1 e Em).
Qed.

Lemma offline_stitch_loop (d : string) (rest : list path) :
  forall i current, offline (Xfade.stitch_loop tools d i current rest).
Proof.
  induction rest as [|next rest IH]; intros i current;
    cbn [Xfade.stitch_loop]; [stroll|].
  apply offline_bind; [|intros _; apply IH].
  unfold Xfade.stitch_two_videos, Xfade.get_video_duration. stroll.
Qed.

Lemma catchable_stitch_loop (d : string) (rest : list path) :
  forall i current, catchable (Xfade.stitch_loop tools d i current rest).
Proof.
  induction rest as [|next rest IH]; intros i current;
    cbn [Xfade.stitch_loop]; [stroll|].
  apply catchable_bind; [|intros _; apply IH].
  unfold Xfade.stitch_two_videos, Xfade.get_video_duration. stroll.
Qed.

(** With both tools installed, [main] raises nothing but [Exception]s
    and uploads at most the final video. *)
Lemma xfade_main_conduct :
  Xfade.which_ffmpeg tools = true -> Xfade.which_ffprobe tools = true ->
  catchable (Xfade.main env tools)
  /\ uploads_once (DESTINATION_PREFIX +:+ Xfade.FINAL_FILENAME)
                  (Xfade.main env tools).
Proof.
  intros Hff Hfp. unfold Xfade.main, Xfade.check_for_ffmpeg.
  rewrite Hff, Hfp. cbn [negb orb]. split.
  - apply catchable_call.
    apply catchable_bind; [stroll|]. intros _.
    apply catchable_bind; [stroll|]. intros _.
    apply catchable_bind; [unfold Xfade.list_blobs_in_folder; stroll|].
    intros video_blobs. destruct (_ <? _)%nat; [stroll|].
    apply catchable_bind; [stroll|]. intros _.
    apply catchable_bind; [|stroll].
    apply catchable_bind; [intros w r w' e [= <- _]; discriminate|].
    intros temp_dir. apply catchable_try_finally_rmtree.
    apply catchable_bind; [stroll|]. intros _.
    apply catchable_bind.
    + apply catchable_mapM. intros blob. unfold Xfade.download_blob. stroll.
    + intros paths. destruct paths as [|first rest]; [stroll|].
      apply catchable_bind; [apply catchable_stitch_loop|]. intros final.
      unfold Xfade.upload_blob. stroll.
  - apply uploads_once_call.
    apply uploads_once_bind; [stroll|]. intros _.
    apply uploads_once_bind; [stroll|]. intros _.
    apply uploads_once_bind; [unfold Xfade.list_blobs_in_folder; stroll|].
    intros video_blobs. destruct (_ <? _)%nat;
      [apply uploads_once_offline; stroll|].
    apply uploads_once_bind; [stroll|]. intros _.
    apply uploads_once_then;
      [|stroll|intros a w; do 2 eexists; reflexivity].
    apply uploads_once_bind; [stroll|].
    intros temp_dir. apply uploads_once_try_finally_rmtree.
    apply uploads_once_bind; [stroll|]. intros _.
    apply uploads_once_bind.
    + apply offline_mapM. intros blob. unfold Xfade.download_blob. stroll.
    + intros paths. destruct paths as [|first rest];
        [apply uploads_once_offline; stroll|].
      apply uploads_once_bind; [apply offline_stitch_loop|]. intros final.
      apply uploads_once_bind; [stroll|]. intros _.
      unfold Xfade.upload_blob.
      apply uploads_once_bind; [stroll|]. intros _.
      apply uploads_once_upload; [stroll|].
      intros w. do 2 eexists. reflexivity.
Qed.

End XfadeRuns.

Section XfadeOutcomes.

Import MoviePy Py Collab Conduct Observed.

(** X25: xfade.py has no [except] clause. Its [main] ends with
    [SystemExit] exactly when ffmpeg or ffprobe is missing, and then it
    has only printed the two lines of [check_for_ffmpeg]: the bucket is
    not even listed. With both tools installed, a storage client that
    cannot be created leaves [main] as the storage error, right after the
    first printed line. An object is uploaded only by a run that ends
    normally, at most one, under the fixed name of the final video. *)
Theorem xfade_main_outcomes (env : Env) (tools : Xfade.Tools) (w : World) :
  let '(r, w') := Xfade.main env tools w in
  (r = Raised SystemExit
   <-> (Xfade.which_ffmpeg tools && Xfade.which_ffprobe tools)%bool = false)
  /\ ((Xfade.which_ffmpeg tools && Xfade.which_ffprobe tools)%bool = false ->
      w' = mkWorld (fs w) (uploads w)
             (trace w
              ++ [Print (error "CRITICAL ERROR: FFmpeg or ffprobe not found.");
                  Print (info "Please install FFmpeg and ensure it's in your system's PATH.")]))
  /\ ((Xfade.which_ffmpeg tools && Xfade.which_ffprobe tools)%bool = true ->
      client_ok env = false ->
      r = Raised GoogleCloudError
      /\ w' = mkWorld (fs w) (uploads w)
                (trace w ++ [Print (info "Listing videos...")]))
  /\ (uploads w' = uploads w
      \/ (r = Normal tt
          /\ exists content,
               uploads w'
               = uploads w
                 ++ [("CRED_exps/output_videos/final_video_with_xfade_transitions.mp4",
                      content)])).
Proof.
  destruct (Xfade.main env tools w) as [r w'] eqn:E.
  destruct (Xfade.which_ffmpeg tools && Xfade.which_ffprobe tools)%bool
    eqn:Htools.
  - apply andb_true_iff in Htools as [Hff Hfp].
    destruct (xfade_main_conduct env tools Hff Hfp) as [Hc Hu].
    split; [|split; [|split]].
    + split; [|discriminate]. intros ->.
      pose proof (Hc w _ w' SystemExit E eq_refl) as H.
      discriminate H.
    + discriminate.
    + intros _ Hclient. revert E.
      unfold Xfade.main, Xfade.check_for_ffmpeg, Xfade.list_blobs_in_folder,
        storage_bucket.
      rewrite Hff, Hfp, Hclient.
      unfold call, bind, print, emit, guard, ret, raise.
      cbn [negb orb fs uploads trace]. intros [= <- <-]. split; reflexivity.
    + destruct (Hu w r w' E) as [H|((a & ->) & H)]; [now left|right].
      destruct a. split; [reflexivity|exact H].
  - assert ((negb (Xfade.which_ffmpeg tools)
             || negb (Xfade.which_ffprobe tools))%bool = true) as Hmiss.
    { destruct (Xfade.which_ffmpeg tools), (Xfade.which_ffprobe tools);
        try reflexivity; discriminate Htools. }
    unfold Xfade.main, Xfade.check_for_ffmpeg in E. rewrite Hmiss in E.
    unfold call, bind, print, emit, raise in E. cbn [fs uploads trace] in E.
    injection E as <- <-. rewrite <- app_assoc.
    split; [split; reflexivity|]. split; [reflexivity|].
    split; [discriminate|]. left. reflexivity.
Qed.

Lemma download_blobs_ok (env : Env) (d : string) (blobs : list string) :
  forall w : World,
    is_Some (fs w !! d) ->
    Forall (fun name => download_ok env name = true) blobs ->
    exists w',
      mapM (fun blob => Xfade.download_blob env blob d) blobs w
      = (Normal (map (fun blob => (d, PyStr.basename blob)) blobs), w')
      /\ is_Some (fs w' !! d)
      /\ uploads w' = uploads w.
Proof.
  induction blobs as [|blob rest IH]; intros w Hd Hok.
  - exists w. repeat split. exact Hd.
  - inversion Hok as [|? ? Hb Hrest]; subst. destruct Hd as [files Hd].
    cbn [mapM map].
    set (w1 := mkWorld (<[d := PyStr.basename blob :: files]> (fs w))
                       (uploads w)
                       (trace w ++ [Print (info ("Downloaded " +:+ blob))])).
    assert (Xfade.download_blob env blob d w
            = (Normal (d, PyStr.basename blob), w1)) as E1.
    { unfold Xfade.download_blob, download_to_filename, bind, guard, ret,
        write_file, print, emit.
      rewrite Hb. cbn [fst snd fs uploads trace]. rewrite Hd. reflexivity. }
    destruct (IH w1) as (w' & E & Hd' & Hu);
      [cbn [w1 fs]; rewrite lookup_insert_eq; eauto|exact Hrest|].
    rewrite (bind_Normal _ _ _ _ _ E1), (bind_Normal _ _ _ _ _ E).
    exists w'. split; [reflexivity|]. split; [exact Hd'|exact Hu].
Qed.

Lemma stitch_loop_ok (tools : Xfade.Tools) (d : string) (rest : list path) :
  (forall p, is_Some (Xfade.ffprobe tools p)) ->
  (forall p, Xfade.ffmpeg_ok tools p = true) ->
  forall (i : nat) (current : path) (w : World),
    is_Some (fs w !! d) ->
    exists w',
      Xfade.stitch_loop tools d i current rest w
      = (Normal (match rest with
                 | [] => current
                 | _ :: _ =>
                     (d, "temp_stitch_"
                         +:+ PyStr.str_nat (i + length rest - 1) +:+ ".mp4")
                 end), w')
      /\ is_Some (fs w' !! d)
      /\ uploads w' = uploads w.
Proof.
  intros Hprobe Hffmpeg.
  induction rest as [|next rest IH]; intros i current w Hd.
  - exists w. repeat split. exact Hd.
  - cbn [Xfade.stitch_loop]. destruct Hd as [files Hd].
    destruct (Hprobe current) as [duration1 Hp].
    match goal with
    | |- context [Xfade.stitch_two_videos tools current next ?out ?eff ?td] =>
        assert (exists w1,
                   Xfade.stitch_two_videos tools current next out eff td w
                   = (Normal tt, w1)
                   /\ is_Some (fs w1 !! d) /\ uploads w1 = uploads w)
          as (w1 & E1 & Hd1 & Hu1)
    end.
    { unfold Xfade.stitch_two_videos, Xfade.get_video_duration, bind,
        of_option, emit, guard, write_file, print, emit, ret.
      rewrite Hp, Hffmpeg. cbn [fst snd fs uploads trace]. rewrite Hd.
      eexists. split; [reflexivity|]. cbn [fs uploads].
      rewrite lookup_insert_eq. eauto. }
    rewrite (bind_Normal _ _ _ _ _ E1).
    destruct (IH (S i) (d, "temp_stitch_" +:+ PyStr.str_nat i +:+ ".mp4")
                w1 Hd1) as (w' & E & Hd' & Hu).
    exists w'. rewrite E. split; [|split; [exact Hd'|congruence]].
    destruct rest as [|next' rest]; cbn [length].
    + replace (i + 1 - 1)%nat with i by lia. reflexivity.
    + replace (i + S (S (length rest)) - 1)%nat
        with (S i + S (length rest) - 1)%nat by lia.
      reflexivity.
Qed.

(** X26: when both tools are installed and nothing fails, xfade.py
    downloads the [N >= 2] listed videos, stitches them pairwise and
    uploads the output of the last ffmpeg run, temp_stitch_<N-1>.mp4 of
    the temporary directory, as the final video; [main] returns normally. *)
Theorem xfade_uploads_the_last_output
  (env : Env) (tools : Xfade.Tools) (w : World) (blobs : list string) :
  Xfade.which_ffmpeg tools = true -> Xfade.which_ffprobe tools = true ->
  client_ok env = true -> listing env = Some blobs ->
  upload_ok env = true ->
  (2 <= length (List.filter (Xfade.is_video_blob Xfade.SOURCE_PREFIX) blobs))%nat ->
  Forall (fun name => download_ok env name = true)
         (List.filter (Xfade.is_video_blob Xfade.SOURCE_PREFIX) blobs) ->
  (forall p, is_Some (Xfade.ffprobe tools p)) ->
  (forall p, Xfade.ffmpeg_ok tools p = true) ->
  exists w',
    Xfade.main env tools w = (Normal tt, w')
    /\ fs w' = fs w
    /\ uploads w'
       = uploads w
         ++ [("CRED_exps/output_videos/final_video_with_xfade_transitions.mp4",
              LocalFile
                (fresh (dom (fs w)),
                 "temp_stitch_"
                 +:+ PyStr.str_nat
                       (length (List.filter
                                  (Xfade.is_video_blob Xfade.SOURCE_PREFIX)
                                  blobs) - 1)
                 +:+ ".mp4"))].
Proof.
  intros Hff Hfp Hclient Hlisting Hupload Hlen Hdl Hprobe Hffmpeg.
  set (videos := List.filter (Xfade.is_video_blob Xfade.SOURCE_PREFIX) blobs)
    in *.
  set (d := fresh (dom (fs w))).
  set (sorted := PyStr.sort_by (fun name => name) videos).
  assert (length sorted = length videos) as Hsl by apply sort_by_length.
  assert (Forall (fun name => download_ok env name = true) sorted) as Hsd.
  { apply List.Forall_forall. intros name Hin.
    apply (Permutation_in _ (sort_by_perm (fun n => n) videos)) in Hin.
    exact (proj1 (List.Forall_forall _ _) Hdl name Hin). }
  destruct (Xfade.main env tools w) as [r w'] eqn:E.
  pose proof (xfade_main_untouched env tools w r w' E) as Hfs.
  revert E. unfold Xfade.main, Xfade.check_for_ffmpeg.
  rewrite Hff, Hfp. cbn [negb orb].
  unfold call. unfold bind at 1. unfold ret at 1.
  unfold bind at 1. unfold print at 1, emit at 1.
  unfold bind at 1. unfold Xfade.list_blobs_in_folder, storage_bucket,
    list_blobs, guard, of_option.
  rewrite Hclient, Hlisting.
  unfold bind at 1. unfold ret at 1. unfold bind at 1. unfold ret at 1.
  unfold ret at 1. fold videos. fold sorted. rewrite Hsl.
  destruct (Nat.ltb_spec (length videos) 2) as [Hlt|_]; [lia|].
  unfold bind at 1. unfold print at 1, emit at 1. cbn [fs uploads trace].
  unfold bind at 1. unfold bind at 1. unfold mkdtemp at 1.
  cbn [fs uploads trace]. fold d.
  unfold try_finally. unfold bind at 1. unfold print at 1, emit at 1.
  cbn [fs uploads trace].
  match goal with
  | |- context [bind (mapM _ sorted) _ ?w0] =>
      destruct (download_blobs_ok env d sorted w0) as (w1 & Em & Hd1 & Hu1);
        [cbn [fs]; rewrite lookup_insert_eq; eauto|exact Hsd|]
  end.
  rewrite (bind_Normal _ _ _ _ _ Em).
  destruct sorted as [|v0 vs] eqn:Hsorted; [cbn in Hsl; lia|].
  cbn [map].
  destruct (stitch_loop_ok tools d
              (map (fun blob => (d, PyStr.basename blob)) vs)
              Hprobe Hffmpeg 1 (d, PyStr.basename v0) w1 Hd1)
    as (w2 & Es & Hd2 & Hu2).
  rewrite (bind_Normal _ _ _ _ _ Es).
  destruct vs as [|v1 vs]; [cbn in Hsl; lia|].
  cbn [map length] in *. rewrite length_map.
  unfold bind at 1. unfold print at 1, emit at 1. cbn [fs uploads trace].
  unfold Xfade.upload_blob, storage_bucket, upload_from_filename, guard.
  rewrite Hclient, Hupload.
  unfold bind, ret, print, emit, rmtree. cbn [fs uploads trace].
  intros [= <- <-]. eexists. split; [reflexivity|].
  split; [exact Hfs|]. cbn [uploads]. rewrite Hu2, Hu1. cbn [uploads].
  replace (length videos - 1)%nat with (S (length vs)) by lia.
  reflexivity.
Qed.

Lemma xfade_uploads_the_last_output_witness :
  let env := mkEnv true (Some ["CRED_exps/input_videos";
                               "CRED_exps/input_videos/b.mkv";
                               "CRED_exps/input_videos/a.mp4";
                               "CRED_exps/input_videos/c.mov"])
                   (fun _ => true) true (fun _ => None) true in
  let tools := Xfade.mkTools true true (fun _ => Some 4%Q) (fun _ => true) in
  let w := mkWorld ∅ [] [] in
  exists w',
    Xfade.main env tools w = (Normal tt, w')
    /\ fs w' = fs w
    /\ uploads w'
       = [("CRED_exps/output_videos/final_video_with_xfade_transitions.mp4",
           LocalFile (fresh (dom (fs w)), "temp_stitch_2.mp4"))].
Proof.
  intros env tools w.
  apply (xfade_uploads_the_last_output env tools w
           ["CRED_exps/input_videos";
            "CRED_exps/input_videos/b.mkv";
            "CRED_exps/input_videos/a.mp4";
            "CRED_exps/input_videos/c.mov"]);
    try reflexivity.
  - vm_compute. lia.
  - vm_compute. repeat constructor.
  - intros p. eexists. reflexivity.
Defined.

End XfadeOutcomes.

(** ** From the placement to the uploaded video *)

Section WholeRuns.

Import MoviePy Py Collab Conduct Inputs.

Lemma cleanup_trace (d : string) (checked_cleanup : bool) (w : World)
  (r : Outcome unit) (w' : World) :
  (if checked_cleanup
   then
     bind (dir_exists d)
       (fun exists_ : bool =>
          if exists_
          then bind (print (info "Cleaning up temporary directory"))
                 (fun _ => rmtree d)
          else ret tt)
   else
     bind (print (info "Cleaning up temporary directory..."))
       (fun _ => rmtree d)) w = (r, w') ->
  exists events, trace w' = trace w ++ events.
Proof.
  destruct checked_cleanup; unfold bind, dir_exists, print, emit, rmtree, ret;
    cbn [fs uploads trace].
  - destruct (bool_decide (is_Some (fs w !! d)));
      intros [= _ <-]; cbn [trace]; eauto.
    exists []. now rewrite app_nil_r.
  - intros [= _ <-]. cbn [trace]. eauto.
Qed.

Lemma local_files_present (d : string) (blobs : list string) (w1 : World) :
  (forall name, In name blobs -> skipped name = false ->
                has_file w1 (d, PyStr.basename name) = true) ->
  forall p, In p (local_files d blobs) -> has_file w1 p = true.
Proof.
  intros Hnew p Hp. unfold local_files, sort_paths in Hp.
  apply (Permutation_in _ (sort_by_perm snd _)) in Hp.
  apply in_map_iff in Hp as (name & <- & Hin).
  apply List.filter_In in Hin as [Hin Hs].
  apply Hnew; [exact Hin|]. now apply negb_true_iff in Hs.
Qed.

(** A run whose listing and downloads succeed reaches the stitching
    step with every local file present, and ends as that step decides:
    a composition is rendered and uploaded, an exception is reported
    and nothing is uploaded. *)
Lemma moviepy_pipeline_run (env : Env)
  (FINAL_VIDEO_NAME no_videos_text : string)
  (stitch : string -> list path -> M Composite) (checked_cleanup : bool)
  (w : World) (blobs : list string) (r : Outcome Composite) :
  client_ok env = true ->
  listing env = Some blobs ->
  Forall (fun name => skipped name = false -> download_ok env name = true)
         blobs ->
  local_files (fresh (dom (fs w))) blobs <> [] ->
  (forall w1,
      is_Some (fs w1 !! fresh (dom (fs w))) ->
      (forall p, In p (local_files (fresh (dom (fs w))) blobs) ->
                 has_file w1 p = true) ->
      exists w2,
        stitch (fresh (dom (fs w))) (local_files (fresh (dom (fs w))) blobs) w1
        = (r, w2)
        /\ is_Some (fs w2 !! fresh (dom (fs w)))
        /\ uploads w2 = uploads w1) ->
  match r with
  | Normal final_clip =>
      render_ok env = true -> upload_ok env = true ->
      exists w',
        moviepy_pipeline env FINAL_VIDEO_NAME no_videos_text stitch
          checked_cleanup w
        = (Normal tt, w')
        /\ uploads w'
           = uploads w
             ++ [(DESTINATION_PREFIX +:+ FINAL_VIDEO_NAME, Rendered final_clip)]
  | Raised e =>
      is_Exception e = true ->
      exists w',
        moviepy_pipeline env FINAL_VIDEO_NAME no_videos_text stitch
          checked_cleanup w
        = (Normal tt, w')
        /\ uploads w' = uploads w
        /\ In (Print (error "An error occurred")) (trace w')
  | Returned => True
  end.
Proof.
  intros Hclient Hlisting Hdl Hne Hstitch.
  set (d := fresh (dom (fs w))) in *.
  set (w0 := mkWorld (<[d := []]> (fs w)) (uploads w)
                     (trace w ++ [Print (info ("Created temporary directory: "
                                               +:+ d));
                                  Print (info "Downloading videos...")])).
  destruct (download_loop_fetches env d blobs w0)
    as (w1 & Edl & Hd1 & Hu1 & _ & Hnew);
    [cbn [w0 fs]; rewrite lookup_insert_eq; eauto|exact Hdl|].
  destruct (Hstitch w1 Hd1 (local_files_present d blobs w1 Hnew))
    as (w2 & Es & Hd2 & Hu2).
  assert (exists f0 fl,
             map (fun name => (d, PyStr.basename name))
                 (List.filter (fun name => negb (skipped name)) blobs)
             = f0 :: fl) as (f0 & fl & Hfiles).
  { destruct (map _ _) as [|f0 fl] eqn:E; [|eauto].
    exfalso. apply Hne. unfold local_files. rewrite E. reflexivity. }
  assert (forall rest : Composite -> M unit,
             bind (storage_bucket env)
               (fun _ =>
                  bind (print (info "Downloading videos..."))
                    (fun _ =>
                       bind (list_blobs env)
                         (fun blobs0 =>
                            bind (download_loop env d blobs0)
                              (fun downloaded_files =>
                                 match downloaded_files with
                                 | [] => bind (print (warning no_videos_text))
                                           (fun _ => return_)
                                 | _ :: _ =>
                                     bind (stitch d (sort_paths downloaded_files))
                                          rest
                                 end))))
               (mkWorld (<[d := []]> (fs w)) (uploads w)
                        (trace w ++ [Print (info ("Created temporary directory: "
                                                  +:+ d))]))
             = match r with
               | Normal final_clip => rest final_clip w2
               | Raised e => (Raised e, w2)
               | Returned => (Returned, w2)
               end) as Hbody.
  { intros rest. unfold storage_bucket, list_blobs, guard, of_option.
    rewrite Hclient, Hlisting.
    unfold bind at 1. unfold ret at 1.
    unfold bind at 1. unfold print at 1, emit at 1. cbn [fs uploads trace].
    unfold bind at 1. unfold ret at 1.
    unfold bind at 1. rewrite <- app_assoc. cbn [app]. fold w0.
    rewrite Edl, Hfiles.
    change (sort_paths (f0 :: fl)) with (sort_paths (f0 :: fl)).
    rewrite <- Hfiles. fold (local_files d blobs).
    unfold bind at 1. rewrite Es. destruct r; reflexivity. }
  destruct r as [final_clip|e|];
    [intros Hrender Hupload|intros He|exact I];
    unfold moviepy_pipeline, call;
    (unfold bind at 1); (unfold mkdtemp at 1); fold d;
    (unfold bind at 1); (unfold print at 1, emit at 1);
    cbn [fs uploads trace];
    unfold try_except_finally; rewrite Hbody.
  - destruct Hd2 as [files2 Hd2].
    unfold bind at 1. unfold print at 1, emit at 1. cbn [fs uploads trace].
    unfold bind at 1. unfold write_videofile, guard. rewrite Hrender.
    unfold bind at 1. unfold ret at 1.
    unfold write_file. cbn [fs uploads trace fst snd]. rewrite Hd2.
    unfold bind at 1. unfold print at 1, emit at 1. cbn [fs uploads trace].
    unfold bind at 1. unfold upload_from_filename, guard. rewrite Hupload.
    unfold bind at 1. unfold ret at 1. cbn [fs uploads trace].
    unfold print at 1, emit at 1. cbn [fs uploads trace].
    match goal with
    | |- context [match ?f ?w3 with _ => _ end] =>
        destruct (f w3) as [rf w4] eqn:Ef
    end.
    apply cleanup_conduct in Ef as [-> Hf].
    exists w4. split; [reflexivity|]. rewrite Hf. cbn [uploads].
    now rewrite Hu2, Hu1.
  - cbv beta iota zeta. rewrite He.
    unfold print at 1, emit at 1.
    match goal with
    | |- context [match ?f ?w3 with _ => _ end] =>
        destruct (f w3) as [rf w4] eqn:Ef
    end.
    destruct (cleanup_trace _ _ _ _ _ Ef) as (events & Ht).
    apply cleanup_conduct in Ef as [-> Hf].
    exists w4. split; [reflexivity|]. rewrite Hf, Ht. cbn [uploads trace].
    split; [now rewrite Hu2, Hu1|].
    apply in_or_app. left. apply in_or_app. right. left. reflexivity.
Qed.

Lemma VideoFileClip_opened (env : Env) (p : path) (c : Clip) (w : World) :
  opened env p c -> has_file w p = true ->
  VideoFileClip env p w = (Normal c, w).
Proof.
  intros (Hp & Hf & Hs & He) Hhas.
  unfold VideoFileClip, bind, file_exists, guard, ret.
  rewrite Hhas, Hp.
  destruct c as [cf cd cs cst ce]. cbn in Hf, Hs, He |- *. now subst.
Qed.

Lemma mapM_VideoFileClip_opened (env : Env) (files : list path)
  (clips : list Clip) (w : World) :
  Forall2 (opened env) files clips ->
  (forall p, In p files -> has_file w p = true) ->
  mapM (VideoFileClip env) files w = (Normal clips, w).
Proof.
  induction 1 as [|p c files clips Hpc _ IH]; intros Hhas.
  - reflexivity.
  - cbn [mapM].
    rewrite (bind_Normal _ _ w w c
               (VideoFileClip_opened env p c w Hpc
                  (Hhas p (or_introl eq_refl)))).
    rewrite (bind_Normal _ _ w w clips);
      [reflexivity|apply IH; intros q Hq; apply Hhas; now right].
Qed.

Lemma has_file_same_fs (w w' : World) (p : path) :
  fs w' = fs w -> has_file w' p = has_file w p.
Proof. unfold has_file. now intros ->. Qed.

Lemma fade_loop_opened (td : Q) (env : Env) (files : list path)
  (clips : list Clip) :
  Forall2 (opened env) files clips ->
  forall (i n : nat) (w : World),
    (forall p, In p files -> has_file w p = true) ->
    exists w',
      FadeInOut.fade_loop td env i n files w
      = (Normal (FadeInOut.processed_from td i n clips), w')
      /\ fs w' = fs w /\ uploads w' = uploads w.
Proof.
  induction 1 as [|p c files clips Hpc Hrest IH]; intros i n w Hhas.
  - exists w. repeat split.
  - cbn [FadeInOut.fade_loop FadeInOut.processed_from].
    pose proof (VideoFileClip_opened env p c w Hpc
                  (Hhas p (or_introl eq_refl))) as Ev.
    rewrite (bind_Normal _ _ w w c Ev). cbv zeta.
    unfold bind at 1. unfold print at 1, emit at 1.
    match goal with
    | |- context [bind (FadeInOut.fade_loop td env (S i) n files) _ ?w1] =>
        destruct (IH (S i) n w1) as (w' & E & Hfs & Hu)
    end.
    { intros q Hq. rewrite (has_file_same_fs w) by reflexivity.
      apply Hhas. now right. }
    rewrite (bind_Normal _ _ _ _ _ E). exists w'. split; [reflexivity|].
    split; [exact Hfs|exact Hu].
Qed.

(** With every file decoded, each stitching step ends as its placement
    step on the decoded clips decides, and changes neither files nor
    uploads. *)
Lemma stitch_outcomes (env : Env) (d : string) (files : list path)
  (clips : list Clip) (w1 : World) :
  Forall2 (opened env) files clips ->
  (forall p, In p files -> has_file w1 p = true) ->
  Forall (fun step : M Composite * (exn + Composite) =>
            exists w2,
              fst step w1 = (outcome_of (snd step), w2)
              /\ fs w2 = fs w1 /\ uploads w2 = uploads w1)
    [(Concatenation.stitch env d files, Concatenation.schedule clips);
     (FadeInOut.stitch FadeInOut.TRANSITION_DURATION env d files,
      FadeInOut.schedule FadeInOut.TRANSITION_DURATION clips);
     (Crossfade.stitch Crossfade.TRANSITION_DURATION env d files,
      Crossfade.schedule Crossfade.TRANSITION_DURATION clips);
     (Blend.stitch Blend.TRANSITION_DURATION env d files,
      Blend.schedule Blend.TRANSITION_DURATION clips);
     (Slide.stitch Slide.TRANSITION_DURATION env d files,
      Slide.schedule Slide.TRANSITION_DURATION clips);
     (Wipe.stitch Wipe.TRANSITION_DURATION env d files,
      Wipe.schedule Wipe.TRANSITION_DURATION clips)].
Proof.
  intros Hopened Hhas.
  assert (forall (t : list Event) (u : list (string * Media)),
             mapM (VideoFileClip env) files (mkWorld (fs w1) u t)
             = (Normal clips, mkWorld (fs w1) u t)) as Hm.
  { intros t u. apply mapM_VideoFileClip_opened; [exact Hopened|].
    intros p Hp. rewrite (has_file_same_fs w1) by reflexivity.
    now apply Hhas. }
  repeat constructor; cbn [fst snd].
  - unfold Concatenation.stitch.
    unfold bind at 1. unfold print at 1, emit at 1.
    rewrite (bind_Normal _ _ _ _ _ (Hm _ _)).
    unfold of_sum, outcome_of, ret, raise.
    destruct (Concatenation.schedule clips); eexists;
      (split; [reflexivity|split; reflexivity]).
  - unfold FadeInOut.stitch.
    unfold bind at 1. unfold print at 1, emit at 1. cbv zeta.
    match goal with
    | |- context [bind (FadeInOut.fade_loop ?td env 0 ?n files) _ ?w0] =>
        destruct (fade_loop_opened td env files clips Hopened 0 n w0)
          as (w2 & E & Hfs & Hu)
    end.
    { intros p Hp. rewrite (has_file_same_fs w1) by reflexivity.
      now apply Hhas. }
    rewrite (bind_Normal _ _ _ _ _ E).
    exists w2. split; [|split; assumption].
    unfold FadeInOut.schedule, of_option, outcome_of, ret, raise. cbv zeta.
    rewrite (Forall2_length _ _ _ Hopened).
    destruct (concatenate_videoclips _ compose); reflexivity.
  - unfold Crossfade.stitch.
    unfold bind at 1. unfold print at 1, emit at 1.
    rewrite (bind_Normal _ _ _ _ _ (Hm _ _)).
    unfold bind at 1. unfold emit at 1. cbn [fs uploads trace].
    unfold of_sum, outcome_of, ret, raise.
    destruct (Crossfade.schedule _ clips); eexists;
      (split; [reflexivity|split; reflexivity]).
  - unfold Blend.stitch.
    unfold bind at 1. unfold print at 1, emit at 1.
    rewrite (bind_Normal _ _ _ _ _ (Hm _ _)).
    unfold of_sum, outcome_of, ret, raise.
    destruct (Blend.schedule _ clips); eexists;
      (split; [reflexivity|split; reflexivity]).
  - unfold Slide.stitch.
    unfold bind at 1. unfold print at 1, emit at 1.
    rewrite (bind_Normal _ _ _ _ _ (Hm _ _)).
    unfold bind at 1. unfold emit at 1. cbn [fs uploads trace].
    unfold of_sum, outcome_of, ret, raise.
    destruct (Slide.schedule _ clips); eexists;
      (split; [reflexivity|split; reflexivity]).
  - unfold Wipe.stitch.
    unfold bind at 1. unfold print at 1, emit at 1.
    rewrite (bind_Normal _ _ _ _ _ (Hm _ _)).
    unfold bind at 1. unfold emit at 1. cbn [fs uploads trace].
    unfold of_sum, outcome_of, ret, raise.
    destruct (Wipe.schedule _ clips); eexists;
      (split; [reflexivity|split; reflexivity]).
Qed.

Lemma fade_schedule_error (d : Q) (clips : list Clip) (e : exn) :
  FadeInOut.schedule d clips = inl e -> is_Exception e = true.
Proof.
  unfold FadeInOut.schedule. cbv zeta.
  destruct (concatenate_videoclips _ compose); [discriminate|].
  intros [= <-]. reflexivity.
Qed.

(** One script, from the lemmas on the shared body and on its stitching
    step. *)
Lemma planned_run (env : Env) (w : World) (blobs : list string)
  (clips : list Clip)
  (FINAL_VIDEO_NAME no_videos_text : string)
  (stitch : string -> list path -> M Composite) (checked_cleanup : bool)
  (planned : exn + Composite) :
  client_ok env = true ->
  listing env = Some blobs ->
  Forall (fun name => skipped name = false -> download_ok env name = true)
         blobs ->
  render_ok env = true -> upload_ok env = true ->
  clips <> [] ->
  Forall2 (opened env) (local_files (fresh (dom (fs w))) blobs) clips ->
  (forall e, planned = inl e -> is_Exception e = true) ->
  (forall w1,
      (forall p, In p (local_files (fresh (dom (fs w))) blobs) ->
                 has_file w1 p = true) ->
      exists w2,
        stitch (fresh (dom (fs w))) (local_files (fresh (dom (fs w))) blobs) w1
        = (outcome_of planned, w2)
        /\ fs w2 = fs w1 /\ uploads w2 = uploads w1) ->
  exists w',
    moviepy_pipeline env FINAL_VIDEO_NAME no_videos_text stitch
      checked_cleanup w
    = (Normal tt, w')
    /\ match planned with
       | inr final_clip =>
           uploads w'
           = uploads w
             ++ [(DESTINATION_PREFIX +:+ FINAL_VIDEO_NAME,
                  Rendered final_clip)]
       | inl _ =>
           uploads w' = uploads w
           /\ In (Print (error "An error occurred")) (trace w')
       end.
Proof.
  intros Hclient Hlisting Hdl Hrender Hupload Hne Hopened Herr Hstitch.
  pose proof (moviepy_pipeline_run env FINAL_VIDEO_NAME no_videos_text stitch
                checked_cleanup w blobs (outcome_of planned)
                Hclient Hlisting Hdl) as H.
  assert (local_files (fresh (dom (fs w))) blobs <> []) as Hfiles.
  { intros E. rewrite E in Hopened. inversion Hopened. congruence. }
  specialize (H Hfiles).
  assert (forall w1,
             is_Some (fs w1 !! fresh (dom (fs w))) ->
             (forall p, In p (local_files (fresh (dom (fs w))) blobs) ->
                        has_file w1 p = true) ->
             exists w2,
               stitch (fresh (dom (fs w)))
                      (local_files (fresh (dom (fs w))) blobs) w1
               = (outcome_of planned, w2)
               /\ is_Some (fs w2 !! fresh (dom (fs w)))
               /\ uploads w2 = uploads w1) as Hs.
  { intros w1 Hd Hhas. destruct (Hstitch w1 Hhas) as (w2 & E & Hfs & Hu).
    exists w2. split; [exact E|]. split; [now rewrite Hfs|exact Hu]. }
  specialize (H Hs).
  destruct planned as [e|final_clip]; cbn [outcome_of] in H.
  - apply H. now apply Herr.
  - now apply H.
Qed.

(** X27: the placement computed on the decoded clips is what a run
    uploads. When the listing, every download, the decoding of every file,
    the rendering and the upload succeed, each of concatenation.py,
    fade-in-out.py, crossfade.py, blend.py, slide.py and wipe.py returns
    normally; if its placement step succeeds on the clips decoded from the
    local files in sorted order, the run uploads exactly that composition
    under the script's fixed name; if the placement step raises (blend.py
    on a single video), the run prints the error line and uploads nothing. *)
Theorem runs_upload_what_was_planned
  (env : Env) (w : World) (blobs : list string) (clips : list Clip) :
  client_ok env = true ->
  listing env = Some blobs ->
  Forall (fun name => skipped name = false -> download_ok env name = true)
         blobs ->
  render_ok env = true -> upload_ok env = true ->
  clips <> [] ->
  Forall2 (opened env) (local_files (fresh (dom (fs w))) blobs) clips ->
  Forall (fun script : M unit * (exn + Composite) * string =>
            exists w',
              fst (fst script) w = (Normal tt, w')
              /\ match snd (fst script) with
                 | inr final_clip =>
                     uploads w'
                     = uploads w
                       ++ [("CRED_exps/output_videos/" +:+ snd script,
                            Rendered final_clip)]
                 | inl _ =>
                     uploads w' = uploads w
                     /\ In (Print (error "An error occurred")) (trace w')
                 end)
    [(Concatenation.process_gcs_videos_concat_only env,
      Concatenation.schedule clips,
      "concatenated_video_no_transition.mp4");
     (FadeInOut.process_gcs_videos env,
      FadeInOut.schedule FadeInOut.TRANSITION_DURATION clips,
      "concatenated_fade_video.mp4");
     (Crossfade.process_gcs_videos_with_crossfade env,
      Crossfade.schedule Crossfade.TRANSITION_DURATION clips,
      "concatenated_video_crossfade.mp4");
     (Blend.process_gcs_videos_with_blend env,
      Blend.schedule Blend.TRANSITION_DURATION clips,
      "concatenated_video_blend.mp4");
     (Slide.process_gcs_videos_with_slide env,
      Slide.schedule Slide.TRANSITION_DURATION clips,
      "concatenated_video_slide.mp4");
     (Wipe.process_gcs_videos_with_wipe env,
      Wipe.schedule Wipe.TRANSITION_DURATION clips,
      "concatenated_video_wipe.mp4")].
Proof.
  intros Hclient Hlisting Hdl Hrender Hupload Hne Hopened.
  assert (forall (step : M Composite * (exn + Composite)) (w1 : World),
             (forall p, In p (local_files (fresh (dom (fs w))) blobs) ->
                        has_file w1 p = true) ->
             forall stitches,
               Forall (fun step : M Composite * (exn + Composite) =>
                         exists w2,
                           fst step w1 = (outcome_of (snd step), w2)
                           /\ fs w2 = fs w1 /\ uploads w2 = uploads w1)
                      stitches ->
               In step stitches ->
               exists w2,
                 fst step w1 = (outcome_of (snd step), w2)
                 /\ fs w2 = fs w1 /\ uploads w2 = uploads w1) as Hpick.
  { intros step w1 _ stitches HF Hin.
    exact (proj1 (List.Forall_forall _ _) HF step Hin). }
  repeat constructor; cbn [fst snd].
  - apply (planned_run env w blobs clips); try assumption.
    + apply concatenation_schedule_error.
    + intros w1 Hhas.
      match goal with
      | |- exists w2, ?st w1 = (outcome_of ?pl, w2) /\ _ =>
          apply (Hpick (st, pl) w1 Hhas _
                   (stitch_outcomes env (fresh (dom (fs w)))
                      (local_files (fresh (dom (fs w))) blobs) clips w1
                      Hopened Hhas))
      end.
      left. reflexivity.
  - apply (planned_run env w blobs clips); try assumption.
    + apply fade_schedule_error.
    + intros w1 Hhas.
      match goal with
      | |- exists w2, ?st w1 = (outcome_of ?pl, w2) /\ _ =>
          apply (Hpick (st, pl) w1 Hhas _
                   (stitch_outcomes env (fresh (dom (fs w)))
                      (local_files (fresh (dom (fs w))) blobs) clips w1
                      Hopened Hhas))
      end.
      right. left. reflexivity.
  - apply (planned_run env w blobs clips); try assumption.
    + apply crossfade_schedule_error.
    + intros w1 Hhas.
      match goal with
      | |- exists w2, ?st w1 = (outcome_of ?pl, w2) /\ _ =>
          apply (Hpick (st, pl) w1 Hhas _
                   (stitch_outcomes env (fresh (dom (fs w)))
                      (local_files (fresh (dom (fs w))) blobs) clips w1
                      Hopened Hhas))
      end.
      right. right. left. reflexivity.
  - apply (planned_run env w blobs clips); try assumption.
    + apply blend_schedule_error.
    + intros w1 Hhas.
      match goal with
      | |- exists w2, ?st w1 = (outcome_of ?pl, w2) /\ _ =>
          apply (Hpick (st, pl) w1 Hhas _
                   (stitch_outcomes env (fresh (dom (fs w)))
                      (local_files (fresh (dom (fs w))) blobs) clips w1
                      Hopened Hhas))
      end.
      right. right. right. left. reflexivity.
  - apply (planned_run env w blobs clips); try assumption.
    + apply slide_schedule_error.
    + intros w1 Hhas.
      match goal with
      | |- exists w2, ?st w1 = (outcome_of ?pl, w2) /\ _ =>
          apply (Hpick (st, pl) w1 Hhas _
                   (stitch_outcomes env (fresh (dom (fs w)))
                      (local_files (fresh (dom (fs w))) blobs) clips w1
                      Hopened Hhas))
      end.
      right. right. right. right. left. reflexivity.
  - apply (planned_run env w blobs clips); try assumption.
    + apply wipe_schedule_error.
    + intros w1 Hhas.
      match goal with
      | |- exists w2, ?st w1 = (outcome_of ?pl, w2) /\ _ =>
          apply (Hpick (st, pl) w1 Hhas _
                   (stitch_outcomes env (fresh (dom (fs w)))
                      (local_files (fresh (dom (fs w))) blobs) clips w1
                      Hopened Hhas))
      end.
      right. right. right. right. right. left. reflexivity.
Qed.

Lemma runs_upload_what_was_planned_witness :
  let env := mkEnv true (Some ["in/"; "in/b.mp4"; "in/a.MOV"])
                   (fun _ => true) true
                   (fun p => if String.eqb (snd p) "a.MOV"
                             then Some (3%Q, (1920, 1080)%Z)
                             else Some (4%Q, (1280, 720)%Z))
                   true in
  let w := mkWorld ∅ [] [] in
  let d := fresh (dom (fs w)) in
  let a := mkClip (d, "a.MOV") 3 (1920, 1080)%Z 0 [] in
  let b := mkClip (d, "b.mp4") 4 (1280, 720)%Z 0 [] in
  exists w' final_clip,
    Crossfade.process_gcs_videos_with_crossfade env w = (Normal tt, w')
    /\ Crossfade.schedule Crossfade.TRANSITION_DURATION [a; b]
       = inr final_clip
    /\ uploads w'
       = [("CRED_exps/output_videos/concatenated_video_crossfade.mp4",
           Rendered final_clip)].
Proof.
  intros env w d a b.
  assert (Forall2 (opened env) (local_files (fresh (dom (fs w)))
                                  ["in/"; "in/b.mp4"; "in/a.MOV"]) [a; b])
    as Hopened.
  { vm_compute. repeat constructor. }
  pose proof (runs_upload_what_was_planned env w
                ["in/"; "in/b.mp4"; "in/a.MOV"] [a; b]
                eq_refl eq_refl
                ltac:(repeat constructor) eq_refl eq_refl
                ltac:(discriminate) Hopened) as H.
  apply Forall_cons_iff in H as [_ H].
  apply Forall_cons_iff in H as [_ H].
  apply Forall_cons_iff in H as [(w' & E & Hu) _].
  cbn [fst snd] in E, Hu.
  destruct (Crossfade.schedule Crossfade.TRANSITION_DURATION [a; b])
    as [e|final_clip] eqn:Ep; [discriminate Ep|].
  exists w', final_clip. split; [exact E|]. split; [reflexivity|exact Hu].
Defined.

End WholeRuns.

(** ** Degradation of a failed bridge to a hard cut: the whole run *)

Section FailedBridges.

Import MoviePy Py Collab Timeline Veo2 Inputs.

(** With every job failing, the sequence handed to
    [concatenate_videoclips] is the clip list itself. *)
Lemma build_final_sequence_all_failed
  (env : Env) (bridge : Bridge) (tmp : string) (clips : list Clip)
  (w : World) :
  clips <> [] ->
  is_Some (fs w !! tmp) ->
  (forall i, (i < length clips - 1)%nat ->
             success_A bridge i = true
             /\ success_B bridge i = true
             /\ job_fails (service bridge i)) ->
  exists w',
    build_final_sequence env bridge tmp clips w = (Normal clips, w')
    /\ is_Some (fs w' !! tmp)
    /\ uploads w' = uploads w
    /\ exists events,
         trace w' = trace w ++ events
         /\ ((2 <= length clips)%nat -> In skipping_line events).
Proof.
  intros Hne Hd Hall.
  destruct (transitions_loop_all_failed env bridge tmp clips 0 w Hd Hall)
    as (w' & E & Hd' & Hu & events & Ht & Hin).
  exists w'. split.
  - unfold build_final_sequence, bind. rewrite E.
    destruct (exists_last Hne) as (front & x & ->).
    rewrite last_snoc, removelast_last. reflexivity.
  - split; [exact Hd'|]. split; [exact Hu|].
    exists events. split; [exact Ht|exact Hin].
Qed.

(** The stitching step of concatenation.py on decoded files. *)
Lemma concatenation_stitch_decoded
  (env : Env) (d : string) (files : list path) (clips : list Clip)
  (w : World) :
  Forall2 (opened env) files clips ->
  (forall p, In p files -> has_file w p = true) ->
  exists w1,
    Concatenation.stitch env d files w
    = (outcome_of (Concatenation.schedule clips), w1)
    /\ fs w1 = fs w /\ uploads w1 = uploads w.
Proof.
  intros Hopened Hhas.
  pose proof (stitch_outcomes env d files clips w Hopened Hhas) as H.
  apply Forall_cons_iff in H as [H _]. exact H.
Qed.

(** The stitching step of veo2_interpolation.py on decoded files, every
    job failing: it returns what the placement step of concatenation.py
    returns on the same clips. *)
Lemma veo2_stitch_all_failed
  (env : Env) (bridge : Bridge) (tmp : string) (files : list path)
  (clips : list Clip) (w : World) :
  clips <> [] ->
  Forall2 (opened env) files clips ->
  (forall p, In p files -> has_file w p = true) ->
  is_Some (fs w !! tmp) ->
  (forall i, (i < length clips - 1)%nat ->
             success_A bridge i = true
             /\ success_B bridge i = true
             /\ job_fails (service bridge i)) ->
  exists w2,
    Veo2.stitch env bridge tmp files w
    = (outcome_of (Concatenation.schedule clips), w2)
    /\ is_Some (fs w2 !! tmp)
    /\ uploads w2 = uploads w
    /\ ((2 <= length clips)%nat -> In skipping_line (trace w2)).
Proof.
  intros Hne Hopened Hhas Hd Hall.
  unfold Veo2.stitch.
  unfold bind at 1. unfold print at 1, emit at 1.
  set (w0 := mkWorld (fs w) (uploads w)
               (trace w
                ++ [Print (info "Processing videos and generating transitions...")])).
  assert (mapM (VideoFileClip env) files w0 = (Normal clips, w0)) as Em.
  { apply mapM_VideoFileClip_opened; [exact Hopened|].
    intros p Hp. rewrite (has_file_same_fs w) by reflexivity.
    now apply Hhas. }
  rewrite (bind_Normal _ _ _ _ _ Em).
  destruct (build_final_sequence_all_failed env bridge tmp clips w0 Hne Hd Hall)
    as (w1 & Eb & Hd1 & Hu1 & events & Ht1 & Hin).
  rewrite (bind_Normal _ _ _ _ _ Eb).
  unfold bind, print, emit, of_option, ret, raise. cbn [fs uploads trace].
  unfold Concatenation.schedule, outcome_of.
  destruct (concatenate_videoclips clips chain) as [final_clip|];
    eexists; (split; [reflexivity|]); cbn [fs uploads trace];
    (split; [exact Hd1|]); (split; [exact Hu1|]);
    intros Hlen; rewrite Ht1; apply in_or_app; left; apply in_or_app; right;
    exact (Hin Hlen).
Qed.

(** C3: the polling loop stops for good at the ceiling of
    [max_iterations] = 600 status requests.  When the job of a pair ends
    failed or timed out, [transition_step] ends normally with no clip to
    insert and the warning as its last printed line, so that the loop of
    [process_gcs_videos] puts the second clip of the pair right after the
    first.  With every job failing, the sequence handed to
    [concatenate_videoclips] is the clip list itself; the stitching step
    of veo2_interpolation.py then returns the very plan the stitching
    step of concatenation.py (the Cut pipeline) returns on the same
    files, having printed the warning and uploaded nothing; and the whole
    run of [process_gcs_videos] returns normally and uploads the video
    rendered from that plan, as the run of concatenation.py does under
    its own name. *)
Theorem failed_bridge_degrades_to_cut
  (env : Env) (bridge : Bridge) (tmp : string) :
  (forall (poll : nat -> PollReply) (op : string),
      (status_requests (snd (poll_loop poll op 0 max_iterations)) <= 600)%nat
      /\ ((forall j, (j < 600)%nat -> poll j = NotDone) ->
          fst (poll_loop poll op 0 max_iterations) = Exhausted
          /\ status_requests (snd (poll_loop poll op 0 max_iterations))
             = 600%nat))
  /\ (forall (i : nat) (clip_A clip_B : Clip) (rest : list Clip) (w : World),
         is_Some (fs w !! tmp) ->
         success_A bridge i = true -> success_B bridge i = true ->
         job_fails (service bridge i) ->
         exists w',
           transition_step env bridge tmp i clip_A clip_B w = (Normal [], w')
           /\ uploads w' = uploads w
           /\ last (trace w') = Some skipping_line
           /\ transitions_loop env bridge tmp i (clip_A :: clip_B :: rest) w
              = bind (transitions_loop env bridge tmp (S i) (clip_B :: rest))
                  (fun final_sequence => ret (clip_A :: final_sequence)) w')
  /\ (forall (files : list path) (clips : list Clip) (w : World),
         clips <> [] ->
         Forall2 (opened env) files clips ->
         (forall p, In p files -> has_file w p = true) ->
         is_Some (fs w !! tmp) ->
         (forall i, (i < length clips - 1)%nat ->
                    success_A bridge i = true
                    /\ success_B bridge i = true
                    /\ job_fails (service bridge i)) ->
         exists cut_plan w0 w1 w2,
           build_final_sequence env bridge tmp clips w = (Normal clips, w0)
           /\ Concatenation.schedule clips = inr cut_plan
           /\ Concatenation.stitch env tmp files w = (Normal cut_plan, w1)
           /\ Veo2.stitch env bridge tmp files w = (Normal cut_plan, w2)
           /\ uploads w2 = uploads w
           /\ ((2 <= length clips)%nat -> In skipping_line (trace w2)))
  /\ (forall (blobs : list string) (clips : list Clip) (w : World),
         client_ok env = true ->
         listing env = Some blobs ->
         Forall (fun name => skipped name = false ->
                             download_ok env name = true) blobs ->
         render_ok env = true -> upload_ok env = true ->
         clips <> [] ->
         Forall2 (opened env) (local_files (fresh (dom (fs w))) blobs) clips ->
         (forall i, (i < length clips - 1)%nat ->
                    success_A bridge i = true
                    /\ success_B bridge i = true
                    /\ job_fails (service bridge i)) ->
         exists cut_plan w1 w2,
           Concatenation.schedule clips = inr cut_plan
           /\ Concatenation.process_gcs_videos_concat_only env w
              = (Normal tt, w1)
           /\ uploads w1
              = uploads w
                ++ [("CRED_exps/output_videos/concatenated_video_no_transition.mp4",
                     Rendered cut_plan)]
           /\ Veo2.process_gcs_videos env bridge w = (Normal tt, w2)
           /\ uploads w2
              = uploads w
                ++ [("CRED_exps/output_videos/final_video_with_interpolated_transitions.mp4",
                     Rendered cut_plan)]).
Proof.
  assert (forall clips : list Clip,
             clips <> [] ->
             exists cut_plan, Concatenation.schedule clips = inr cut_plan)
    as Hplan.
  { intros [|c0 rest] Hne; [contradiction|].
    unfold Concatenation.schedule. cbn [concatenate_videoclips]. eauto. }
  split; [|split; [|split]].
  - intros poll op. split.
    + apply (poll_loop_requests_bound poll op max_iterations 0).
    + intros Hall.
      change max_iterations with (600 + 0)%nat.
      rewrite (poll_loop_waiting poll op 600 0 0) by exact Hall.
      cbn [fst snd poll_loop]. split; [reflexivity|].
      rewrite app_nil_r. apply status_requests_waiting.
  - intros i clip_A clip_B rest w Hd HA HB Hjob.
    destruct (transition_step_degrades env bridge tmp i clip_A clip_B w
                Hd HA HB Hjob) as (w' & E & _ & Hu & Hl & _).
    exists w'. split; [exact E|]. split; [exact Hu|]. split; [exact Hl|].
    rewrite transitions_loop_cons. unfold bind at 1. rewrite E.
    reflexivity.
  - intros files clips w Hne Hopened Hhas Hd Hall.
    destruct (Hplan clips Hne) as (cut_plan & Ep).
    destruct (build_final_sequence_all_failed env bridge tmp clips w
                Hne Hd Hall) as (w0 & E0 & _).
    destruct (concatenation_stitch_decoded env tmp files clips w
                Hopened Hhas) as (w1 & E1 & _).
    destruct (veo2_stitch_all_failed env bridge tmp files clips w
                Hne Hopened Hhas Hd Hall) as (w2 & E2 & _ & Hu2 & Hin).
    rewrite Ep in E1, E2. cbn [outcome_of] in E1, E2.
    exists cut_plan, w0, w1, w2.
    split; [exact E0|]. split; [exact Ep|]. split; [exact E1|].
    split; [exact E2|]. split; [exact Hu2|exact Hin].
  - intros blobs clips w Hclient Hlisting Hdl Hrender Hupload Hne Hopened Hall.
    destruct (Hplan clips Hne) as (cut_plan & Ep).
    assert (local_files (fresh (dom (fs w))) blobs <> []) as Hfiles.
    { intros E. rewrite E in Hopened. inversion Hopened. congruence. }
    pose proof (moviepy_pipeline_run env Concatenation.FINAL_VIDEO_NAME
                  "No video files found. Exiting." (Concatenation.stitch env)
                  true w blobs (Normal cut_plan)
                  Hclient Hlisting Hdl Hfiles) as Hcut.
    pose proof (moviepy_pipeline_run env Veo2.FINAL_VIDEO_NAME
                  "No video files found. Exiting." (Veo2.stitch env bridge)
                  false w blobs (Normal cut_plan)
                  Hclient Hlisting Hdl Hfiles) as Hbridge.
    cbv beta iota in Hcut, Hbridge.
    destruct Hcut as (w1 & E1 & Hu1); [|exact Hrender|exact Hupload|].
    { intros w0 Hd Hhas.
      destruct (concatenation_stitch_decoded env (fresh (dom (fs w)))
                  _ clips w0 Hopened Hhas) as (w3 & E3 & Hfs3 & Hu3).
      rewrite Ep in E3. exists w3. split; [exact E3|].
      split; [now rewrite Hfs3|exact Hu3]. }
    destruct Hbridge as (w2 & E2 & Hu2); [|exact Hrender|exact Hupload|].
    { intros w0 Hd Hhas.
      destruct (veo2_stitch_all_failed env bridge (fresh (dom (fs w)))
                  _ clips w0 Hne Hopened Hhas Hd Hall)
        as (w3 & E3 & Hd3 & Hu3 & _).
      rewrite Ep in E3. exists w3. split; [exact E3|].
      split; [exact Hd3|exact Hu3]. }
    exists cut_plan, w1, w2.
    split; [exact Ep|]. split; [exact E1|]. split; [exact Hu1|].
    split; [exact E2|exact Hu2].
Qed.

Lemma failed_bridge_degrades_to_cut_witness :
  let env := mkEnv true (Some ["in/b.mp4"; "in/a.mp4"])
                   (fun _ => true) true
                   (fun p => if String.eqb (snd p) "a.mp4"
                             then Some (3%Q, (1920, 1080)%Z)
                             else Some (4%Q, (1920, 1080)%Z))
                   true in
  let svc := mkService true (Initiated (Some "operations/7"))
               (fun j => if (j <? 2)%nat then NotDone else PollRequestError) in
  let bridge := mkBridge (fun _ => true) (fun _ => true) (fun _ => svc)
                         (fun _ => true) in
  let w := mkWorld ∅ [] [] in
  let d := fresh (dom (fs w)) in
  let a := mkClip (d, "a.mp4") 3 (1920, 1080)%Z 0 [] in
  let b := mkClip (d, "b.mp4") 4 (1920, 1080)%Z 0 [] in
  exists cut_plan w1 w2,
    Concatenation.schedule [a; b] = inr cut_plan
    /\ Concatenation.process_gcs_videos_concat_only env w = (Normal tt, w1)
    /\ uploads w1
       = [("CRED_exps/output_videos/concatenated_video_no_transition.mp4",
           Rendered cut_plan)]
    /\ Veo2.process_gcs_videos env bridge w = (Normal tt, w2)
    /\ uploads w2
       = [("CRED_exps/output_videos/final_video_with_interpolated_transitions.mp4",
           Rendered cut_plan)].
Proof.
  intros env svc bridge w d a b.
  destruct (failed_bridge_degrades_to_cut env bridge d) as (_ & _ & _ & H).
  apply (H ["in/b.mp4"; "in/a.mp4"] [a; b] w).
  - reflexivity.
  - reflexivity.
  - repeat constructor.
  - reflexivity.
  - reflexivity.
  - discriminate.
  - vm_compute. repeat constructor.
  - intros i Hi. cbn in Hi. assert (i = 0)%nat as -> by lia.
    split; [reflexivity|]. split; [reflexivity|]. split; [reflexivity|].
    exists (Some "operations/7"). split; [reflexivity|].
    left. vm_compute. reflexivity.
Defined.

End FailedBridges.

(** ** resolution.py and aspect_ratio.py: one upload per file *)

Section PerFileRuns.

Import MoviePy Py Collab Conduct.

(** The end of a case: what was returned and what was uploaded. *)
Ltac settled :=
  cbv beta iota zeta; cbn [fs uploads trace fst snd];
  intros [= <- <-]; cbn [uploads];
  first [ left; split; reflexivity
        | right; eexists; repeat split; reflexivity ].

Lemma resolution_process_blob_outcome (env : Env) (d blob_name : string)
  (w : World) (r : Outcome unit) (w' : World) :
  Resolution.process_blob env d blob_name w = (r, w') ->
  (r = Normal tt
   /\ uploads w' = uploads w ++ [Resolution.upload_of d blob_name])
  \/ (exists e, r = Raised e /\ is_Exception e = true
                /\ uploads w' = uploads w).
Proof.
  unfold Resolution.process_blob, Resolution.upload_of, download_to_filename,
    VideoFileClip, write_videofile, upload_from_filename, bind, print, emit,
    guard, write_file, file_exists, has_file, ret, raise.
  cbv beta iota zeta. cbn [fs uploads trace fst snd].
  destruct (download_ok env blob_name); [|settled].
  cbv beta iota zeta. cbn [fs uploads trace fst snd].
  destruct (fs w !! d) as [files|] eqn:Hd; [|settled].
  cbv beta iota zeta. cbn [fs uploads trace fst snd].
  rewrite !lookup_insert_eq.
  rewrite bool_decide_eq_true_2 by constructor.
  cbv beta iota zeta. cbn [fs uploads trace fst snd].
  destruct (probe env (d, PyStr.basename blob_name)) as [[dur sz]|];
    [|settled].
  cbv beta iota zeta. cbn [fs uploads trace fst snd].
  destruct (render_ok env); [|settled].
  cbv beta iota zeta. cbn [fs uploads trace fst snd].
  rewrite !lookup_insert_eq.
  destruct (upload_ok env); settled.
Qed.

Lemma resolution_process_all_outcome (env : Env) (d : string)
  (blobs : list string) :
  forall (w : World) (r : Outcome unit) (w' : World),
    Resolution.process_all env d blobs w = (r, w') ->
    (r = Normal tt
     /\ uploads w' = uploads w ++ map (Resolution.upload_of d) blobs)
    \/ (exists e k,
          r = Raised e /\ is_Exception e = true
          /\ (k < length blobs)%nat
          /\ uploads w'
             = uploads w ++ map (Resolution.upload_of d) (take k blobs)).
Proof.
  induction blobs as [|b rest IH]; intros w r w' E.
  - injection E as <- <-. left. split; [reflexivity|].
    now rewrite app_nil_r.
  - cbn [Resolution.process_all] in E. unfold bind in E.
    destruct (Resolution.process_blob env d b w) as [rb w1] eqn:Eb.
    destruct (resolution_process_blob_outcome env d b w rb w1 Eb)
      as [[-> Hu]|(e & -> & He & Hu)].
    + destruct (IH w1 r w' E) as [[-> Hu']|(e & k & -> & He & Hk & Hu')].
      * left. split; [reflexivity|].
        rewrite Hu', Hu, <- app_assoc. reflexivity.
      * right. exists e, (S k). repeat split; [exact He|cbn; lia|].
        rewrite Hu', Hu, <- app_assoc. reflexivity.
    + injection E as <- <-. right. exists e, 0%nat.
      repeat split; [exact He|cbn; lia|].
      rewrite Hu. cbn. now rewrite app_nil_r.
Qed.

Lemma confined_resolution_process_all (env : Env) (d : string)
  (blobs : list string) :
  confined d (Resolution.process_all env d blobs).
Proof.
  induction blobs as [|b rest IH]; cbn [Resolution.process_all]; [walk|].
  apply confined_bind; [|intros _; exact IH].
  unfold Resolution.process_blob. walk.
Qed.

Lemma resize_videos_untouched (env : Env) :
  untouched (Resolution.resize_videos_in_gcs env).
Proof.
  unfold Resolution.resize_videos_in_gcs. apply untouched_call.
  intros w r w' E. unfold bind at 1 in E. unfold mkdtemp at 1 in E.
  set (d := fresh (dom (fs w))) in *.
  unfold bind at 1 in E. unfold print at 1, emit at 1 in E.
  cbn [fs uploads trace] in E.
  apply (try_except_finally_deletes d) in E.
  - rewrite E. cbn [fs]. rewrite delete_insert_eq.
    apply delete_id, mkdtemp_fresh.
  - pose proof (confined_resolution_process_all env d) as Hall. walk.
  - walk.
  - intros w0 r0 w0'. apply (cleanup_deletes d false).
Qed.

(** X28: resolution.py takes every listed blob whose name does not
    end in a slash, video or not, and handles them one at a time in
    listing order: download, decode, render, upload under the base name
    in the 1080p folder.  The function always returns normally and
    leaves the local file system as it found it; what it has uploaded is
    what belongs to the first [k] blobs, and if [k] is not all of them,
    the run failed at blob [k], printed the error line and left the
    later blobs alone while the earlier uploads stay in the bucket. *)
Theorem resize_uploads_in_listing_order (env : Env) (w : World) :
  let d := fresh (dom (fs w)) in
  let blobs_to_process :=
    match listing env with
    | Some blobs => Resolution.to_process blobs
    | None => []
    end in
  exists w' k,
    Resolution.resize_videos_in_gcs env w = (Normal tt, w')
    /\ fs w' = fs w
    /\ (k <= length blobs_to_process)%nat
    /\ uploads w'
       = uploads w
         ++ map (Resolution.upload_of d) (take k blobs_to_process)
    /\ ((k < length blobs_to_process)%nat ->
        In (Print (error "An error occurred")) (trace w')).
Proof.
  intros d blobs_to_process.
  destruct (Resolution.resize_videos_in_gcs env w) as [r w'] eqn:E.
  pose proof (resize_videos_untouched env w r w' E) as Hfs.
  revert E. unfold Resolution.resize_videos_in_gcs, call.
  unfold bind at 1. unfold mkdtemp at 1. fold d.
  unfold bind at 1. unfold print at 1, emit at 1. cbn [fs uploads trace].
  unfold try_except_finally.
  match goal with
  | |- context [let '(r0, w1) := ?body ?w0 in _] =>
      set (b := body); set (w0' := w0);
      assert (forall rb w2,
                 b w0' = (rb, w2) ->
                 ((rb = Normal tt \/ rb = Returned)
                  /\ uploads w2
                     = uploads w ++ map (Resolution.upload_of d)
                                       blobs_to_process)
                 \/ (exists e k,
                       rb = Raised e /\ is_Exception e = true
                       /\ (k <= length blobs_to_process)%nat
                       /\ uploads w2
                          = uploads w
                            ++ map (Resolution.upload_of d)
                                   (take k blobs_to_process))) as Hb
  end.
  { intros rb w2. unfold b, storage_bucket, list_blobs, guard, of_option.
    unfold blobs_to_process.
    destruct (client_ok env).
    - unfold bind at 1. unfold ret at 1.
      destruct (listing env) as [blobs|].
      + unfold bind at 1. unfold ret at 1. cbv zeta.
        destruct (Resolution.to_process blobs) as [|b0 rest] eqn:Hto.
        * unfold bind, print, emit, return_. intros [= <- <-].
          left. split; [now right|]. cbn. now rewrite app_nil_r.
        * unfold bind at 1. unfold print at 1, emit at 1.
          intros Ep.
          destruct (resolution_process_all_outcome env d _ _ _ _ Ep)
            as [[-> Hu]|(e & k & -> & He & Hk & Hu)].
          -- left. split; [now left|exact Hu].
          -- right. exists e, k. repeat split; [exact He|lia|exact Hu].
      + unfold bind, raise. intros [= <- <-]. right.
        exists GoogleCloudError, 0%nat.
        split; [reflexivity|]. split; [reflexivity|]. split; [cbn; lia|].
        cbn [uploads firstn map]. now rewrite app_nil_r.
    - unfold bind, raise. intros [= <- <-]. right.
      exists GoogleCloudError, 0%nat.
      split; [reflexivity|]. split; [reflexivity|]. split; [lia|].
      rewrite take_0. cbn [uploads map]. now rewrite app_nil_r. }
  destruct (b w0') as [rb w2] eqn:Eb.
  destruct (Hb rb w2 eq_refl) as [[Hr Hu]|(e & k & -> & He & Hk & Hu)].
  - destruct Hr as [->| ->]; cbv beta iota zeta;
      unfold bind, print, emit, rmtree; cbn [fs uploads trace];
      intros [= <- <-]; eexists; exists (length blobs_to_process);
      (split; [reflexivity|]); (split; [exact Hfs|]);
      (split; [lia|]); cbn [uploads];
      rewrite take_ge by lia; (split; [exact Hu|lia]).
  - cbv beta iota zeta. rewrite He.
    unfold bind, print, emit, rmtree; cbn [fs uploads trace].
    intros [= <- <-]. eexists. exists k.
    split; [reflexivity|]. split; [exact Hfs|]. split; [exact Hk|].
    cbn [uploads trace]. split; [exact Hu|]. intros _.
    apply in_or_app. left. apply in_or_app. right. left. reflexivity.
Qed.

Lemma aspect_process_blob_outcome (env : Env) (d blob_name : string)
  (w : World) (r : Outcome unit) (w' : World) :
  AspectRatio.process_blob env d blob_name w = (r, w') ->
  (r = Normal tt
   /\ uploads w'
      = uploads w
        ++ (if AspectRatio.converted env d blob_name
            then [AspectRatio.upload_of d blob_name] else []))
  \/ (exists e, r = Raised e /\ is_Exception e = true
                /\ uploads w' = uploads w).
Proof.
  unfold AspectRatio.process_blob, AspectRatio.converted,
    AspectRatio.upload_of.
  destruct (PyStr.endswith blob_name "/").
  { intros [= <- <-]. left. split; [reflexivity|]. cbn [negb andb].
    now rewrite app_nil_r. }
  cbn [negb andb].
  unfold download_to_filename, VideoFileClip, write_videofile,
    upload_from_filename, bind, print, emit, guard, write_file, file_exists,
    has_file, ret, raise.
  cbv beta iota zeta. cbn [fs uploads trace fst snd].
  destruct (download_ok env blob_name); [|settled].
  cbv beta iota zeta. cbn [fs uploads trace fst snd].
  destruct (fs w !! d) as [files|] eqn:Hd; [|settled].
  cbv beta iota zeta. cbn [fs uploads trace fst snd].
  rewrite !lookup_insert_eq.
  rewrite bool_decide_eq_true_2 by constructor.
  cbv beta iota zeta. cbn [fs uploads trace fst snd].
  destruct (probe env (d, PyStr.basename blob_name)) as [[dur [w0 h0]]|];
    [|settled].
  cbv beta iota zeta. cbn [fs uploads trace fst snd size].
  destruct (h0 =? 0)%Z.
  { cbv beta iota zeta. cbn [fs uploads trace fst snd negb andb].
    intros [= <- <-]. left. split; [reflexivity|].
    cbn [uploads]. now rewrite app_nil_r. }
  cbn [negb andb].
  assert (forall (k : World -> Outcome unit * World) (P : Prop),
             (forall t, k (mkWorld (<[d := PyStr.basename blob_name :: files]>
                                      (fs w)) (uploads w) t) = (r, w') -> P) ->
             (let (o, w1) :=
                (if AspectRatio.math_isclose (AspectRatio.truediv w0 h0)
                      (AspectRatio.truediv 16 9) AspectRatio.rel_tol
                 then
                   fun w1 =>
                     (Normal tt,
                      mkWorld (fs w1) (uploads w1)
                        (trace w1
                         ++ [Print (info "Processing 16:9 video -> 9:16 (Center Crop)...")]))
                 else
                   if AspectRatio.math_isclose (AspectRatio.truediv w0 h0)
                        (AspectRatio.truediv 9 16) AspectRatio.rel_tol
                   then
                     fun w1 =>
                       (Normal tt,
                        mkWorld (fs w1) (uploads w1)
                          (trace w1
                           ++ [Print (info "Processing 9:16 video -> 16:9 (Pillarbox)...")]))
                   else
                     fun w1 =>
                       (Normal tt,
                        mkWorld (fs w1) (uploads w1)
                          (trace w1
                           ++ [Print (info "SKIPPING: not 16:9 or 9:16")])))
                  (mkWorld (<[d := PyStr.basename blob_name :: files]> (fs w))
                           (uploads w)
                           (trace w
                            ++ [Print (info ("Downloading "
                                             +:+ PyStr.basename blob_name))]))
              in match o with
                 | Normal _ => k w1
                 | Raised e => (Raised e, w1)
                 | Returned => (Returned, w1)
                 end) = (r, w') -> P) as Hline.
  { intros k P HP.
    destruct (AspectRatio.math_isclose _ (AspectRatio.truediv 16 9) _);
      [|destruct (AspectRatio.math_isclose _ (AspectRatio.truediv 9 16) _)];
      cbv beta iota zeta; cbn [fs uploads trace]; apply HP. }
  apply Hline. intros t.
  destruct (AspectRatio.processed (w0, h0)) as [processed_clip|].
  - cbv beta iota zeta. cbn [fs uploads trace fst snd].
    destruct (render_ok env); [|settled].
    cbv beta iota zeta. cbn [fs uploads trace fst snd].
    rewrite !lookup_insert_eq.
    destruct (upload_ok env); settled.
  - intros [= <- <-]. left. split; [reflexivity|].
    cbn [uploads]. now rewrite app_nil_r.
Qed.

Lemma aspect_process_all_outcome (env : Env) (d : string)
  (blobs : list string) :
  forall (w : World) (r : Outcome unit) (w' : World),
    AspectRatio.process_all env d blobs w = (r, w') ->
    (r = Normal tt
     /\ uploads w'
        = uploads w
          ++ map (AspectRatio.upload_of d)
                 (List.filter (AspectRatio.converted env d) blobs))
    \/ (exists e k,
          r = Raised e /\ is_Exception e = true
          /\ (k < length blobs)%nat
          /\ uploads w'
             = uploads w
               ++ map (AspectRatio.upload_of d)
                      (List.filter (AspectRatio.converted env d)
                                   (take k blobs))).
Proof.
  induction blobs as [|b rest IH]; intros w r w' E.
  - injection E as <- <-. left. split; [reflexivity|].
    now rewrite app_nil_r.
  - cbn [AspectRatio.process_all] in E. unfold bind in E.
    destruct (AspectRatio.process_blob env d b w) as [rb w1] eqn:Eb.
    destruct (aspect_process_blob_outcome env d b w rb w1 Eb)
      as [[-> Hu]|(e & -> & He & Hu)].
    + destruct (IH w1 r w' E) as [[-> Hu']|(e & k & -> & He & Hk & Hu')].
      * left. split; [reflexivity|].
        rewrite Hu', Hu, <- app_assoc. cbn [List.filter].
        destruct (AspectRatio.converted env d b); reflexivity.
      * right. exists e, (S k). repeat split; [exact He|cbn; lia|].
        rewrite Hu', Hu, <- app_assoc. cbn [firstn List.filter].
        destruct (AspectRatio.converted env d b); reflexivity.
    + injection E as <- <-. right. exists e, 0%nat.
      repeat split; [exact He|cbn; lia|].
      rewrite Hu. cbn. now rewrite app_nil_r.
Qed.

Lemma confined_aspect_process_all (env : Env) (d : string)
  (blobs : list string) :
  confined d (AspectRatio.process_all env d blobs).
Proof.
  induction blobs as [|b rest IH]; cbn [AspectRatio.process_all]; [walk|].
  apply confined_bind; [|intros _; exact IH].
  unfold AspectRatio.process_blob. walk.
Qed.

Lemma process_aspect_ratio_untouched (env : Env) :
  untouched (AspectRatio.process_aspect_ratio_in_gcs env).
Proof.
  unfold AspectRatio.process_aspect_ratio_in_gcs. apply untouched_call.
  intros w r w' E. unfold bind at 1 in E. unfold mkdtemp at 1 in E.
  set (d := fresh (dom (fs w))) in *.
  unfold bind at 1 in E. unfold print at 1, emit at 1 in E.
  cbn [fs uploads trace] in E.
  apply (try_except_finally_deletes d) in E.
  - rewrite E. cbn [fs]. rewrite delete_insert_eq.
    apply delete_id, mkdtemp_fresh.
  - pose proof (confined_aspect_process_all env d) as Hall. walk.
  - walk.
  - intros w0 r0 w0'. apply (cleanup_deletes d false).
Qed.

(** X29: aspect_ratio.py goes through the listed blobs in order, one at
    a time, skipping the names that end in a slash.  The function always
    returns normally and leaves the local file system as it found it.
    Among the first [k] blobs it has uploaded, under the base name in
    the altered_aspect_ratio folder, exactly those whose decoded frame
    has a height other than 0 and a ratio that [math.isclose], computed
    on doubles as Python does, finds within 2 percent of 16:9 or of 9:16;
    if [k] is not all of the blobs, the run failed at blob [k], printed
    the error line and left the later blobs alone. *)
Theorem aspect_run_uploads_the_converted (env : Env) (w : World) :
  let d := fresh (dom (fs w)) in
  let blobs_to_process :=
    match listing env with Some blobs => blobs | None => [] end in
  exists w' k,
    AspectRatio.process_aspect_ratio_in_gcs env w = (Normal tt, w')
    /\ fs w' = fs w
    /\ (k <= length blobs_to_process)%nat
    /\ uploads w'
       = uploads w
         ++ map (AspectRatio.upload_of d)
                (List.filter (AspectRatio.converted env d)
                             (take k blobs_to_process))
    /\ ((k < length blobs_to_process)%nat ->
        In (Print (error "An error occurred")) (trace w')).
Proof.
  intros d blobs_to_process.
  destruct (AspectRatio.process_aspect_ratio_in_gcs env w) as [r w'] eqn:E.
  pose proof (process_aspect_ratio_untouched env w r w' E) as Hfs.
  revert E. unfold AspectRatio.process_aspect_ratio_in_gcs, call.
  unfold bind at 1. unfold mkdtemp at 1. fold d.
  unfold bind at 1. unfold print at 1, emit at 1. cbn [fs uploads trace].
  unfold try_except_finally.
  match goal with
  | |- context [let '(r0, w1) := ?body ?w0 in _] =>
      set (b := body); set (w0' := w0);
      assert (forall rb w2,
                 b w0' = (rb, w2) ->
                 (rb = Normal tt
                  /\ uploads w2
                     = uploads w
                       ++ map (AspectRatio.upload_of d)
                              (List.filter (AspectRatio.converted env d)
                                           blobs_to_process))
                 \/ (exists e k,
                       rb = Raised e /\ is_Exception e = true
                       /\ (k <= length blobs_to_process)%nat
                       /\ uploads w2
                          = uploads w
                            ++ map (AspectRatio.upload_of d)
                                   (List.filter
                                      (AspectRatio.converted env d)
                                      (take k blobs_to_process)))) as Hb
  end.
  { intros rb w2. unfold b, storage_bucket, list_blobs, guard, of_option.
    unfold blobs_to_process.
    destruct (client_ok env).
    - unfold bind at 1. unfold ret at 1.
      destruct (listing env) as [blobs|].
      + unfold bind at 1. unfold ret at 1.
        unfold bind at 1. unfold print at 1, emit at 1.
        intros Ep.
        destruct (aspect_process_all_outcome env d _ _ _ _ Ep)
          as [[-> Hu]|(e & k & -> & He & Hk & Hu)].
        * left. split; [reflexivity|exact Hu].
        * right. exists e, k. repeat split; [exact He|lia|exact Hu].
      + unfold bind, raise. intros [= <- <-]. right.
        exists GoogleCloudError, 0%nat.
        split; [reflexivity|]. split; [reflexivity|]. split; [cbn; lia|].
        cbn [uploads firstn List.filter map]. now rewrite app_nil_r.
    - unfold bind, raise. intros [= <- <-]. right.
      exists GoogleCloudError, 0%nat.
      split; [reflexivity|]. split; [reflexivity|]. split; [lia|].
      rewrite take_0. cbn [uploads List.filter map]. now rewrite app_nil_r. }
  destruct (b w0') as [rb w2] eqn:Eb.
  destruct (Hb rb w2 eq_refl) as [[-> Hu]|(e & k & -> & He & Hk & Hu)].
  - cbv beta iota zeta.
    unfold bind, print, emit, rmtree; cbn [fs uploads trace].
    intros [= <- <-]. eexists. exists (length blobs_to_process).
    split; [reflexivity|]. split; [exact Hfs|]. split; [lia|].
    cbn [uploads]. rewrite take_ge by lia. split; [exact Hu|lia].
  - cbv beta iota zeta. rewrite He.
    unfold bind, print, emit, rmtree; cbn [fs uploads trace].
    intros [= <- <-]. eexists. exists k.
    split; [reflexivity|]. split; [exact Hfs|]. split; [exact Hk|].
    cbn [uploads trace]. split; [exact Hu|]. intros _.
    apply in_or_app. left. apply in_or_app. right. left. reflexivity.
Qed.

(** The usual sizes are converted. *)
Example usual_sizes_are_converted :
  AspectRatio.processed (1920, 1080)%Z
  = Some (AspectRatio.Crop (inject_Z 1920 / 2 - inject_Z 1080 * (9 / 16) / 2)
                           (inject_Z 1080 * (9 / 16)))
  /\ AspectRatio.processed (1080, 1920)%Z
     = Some (AspectRatio.Pillarbox (1920, 1080)%Z)
  /\ AspectRatio.processed (1000, 1000)%Z = None.
Proof. repeat split; vm_compute; reflexivity. Qed.

(** A frame whose ratio is 2 percent off to the last digit is skipped:
    on doubles the difference is a hair above the tolerance.  Read over
    exact rationals the same frame would pass. *)
Example edge_sizes_are_skipped :
  AspectRatio.processed (784, 450)%Z = None
  /\ AspectRatio.processed (450, 784)%Z = None
  /\ AspectRatio.processed (1600, 882)%Z = None
  /\ AspectRatio.convert (784, 450)%Z <> None.
Proof.
  split; [vm_compute; reflexivity|]. split; [vm_compute; reflexivity|].
  split; [vm_compute; reflexivity|]. vm_compute. discriminate.
Qed.

(** A run over a folder marker, a landscape video, a video 2 percent off
    and a portrait video uploads the first and the last video. *)
Example aspect_run_on_three_videos :
  let env :=
    mkEnv true
      (Some ["in/"; "in/wide.mp4"; "in/edge.mp4"; "in/tall.mp4"])
      (fun _ => true) true
      (fun p =>
         if String.eqb (snd p) "wide.mp4" then Some (5%Q, (1920, 1080)%Z)
         else if String.eqb (snd p) "edge.mp4" then Some (5%Q, (784, 450)%Z)
         else Some (5%Q, (1080, 1920)%Z))
      true in
  let w := mkWorld ∅ [] [] in
  exists w',
    AspectRatio.process_aspect_ratio_in_gcs env w = (Normal tt, w')
    /\ map fst (uploads w')
       = ["CRED_exps/output_videos/altered_aspect_ratio/wide.mp4";
          "CRED_exps/output_videos/altered_aspect_ratio/tall.mp4"].
Proof.
  intros env w.
  destruct (AspectRatio.process_aspect_ratio_in_gcs env w) as [r w'] eqn:E.
  vm_compute in E. injection E as <- <-.
  eexists. split; reflexivity.
Qed.

End PerFileRuns.

Section AspectGeometry.

Import MoviePy Py Collab.
Local Open Scope Q_scope.

Lemma inject_Z_lt (x y : Z) : (x < y)%Z <-> inject_Z x < inject_Z y.
Proof. unfold Qlt, inject_Z. cbn [Qnum Qden]. lia. Qed.

Lemma isclose_bounds (a b rel_tol : Q) :
  0 < a -> 0 < b ->
  AspectRatio.isclose a b rel_tol = true ->
  a - b <= rel_tol * Qmax a b /\ b - a <= rel_tol * Qmax a b.
Proof.
  intros Ha Hb H. unfold AspectRatio.isclose in H.
  apply Qle_bool_iff in H.
  rewrite (Qabs_pos a), (Qabs_pos b) in H by lra.
  apply Qabs_Qle_condition in H. lra.
Qed.

(** X30: what aspect_ratio.py does to a frame [w] by [h].  When it
    crops (ratio within 2 percent of 16:9) the frame is wider than high
    and the window kept is [h * 9/16] wide, centred, and lies inside the
    frame.  When it pillarboxes (ratio within 2 percent of 9:16) the
    frame is higher than wide and the canvas is the transposed frame,
    [h] wide and [w] high: the clip, which is not resized, is narrower
    than the canvas and higher than it.  The two cases exclude each
    other, and a square frame is left alone. *)
Theorem aspect_conversion_geometry (w h : Z) :
  (0 < w)%Z -> (0 < h)%Z ->
  match AspectRatio.convert (w, h) with
  | Some (AspectRatio.Crop x1 crop_width) =>
      (h < w)%Z
      /\ crop_width == inject_Z h * (9 / 16)
      /\ x1 == (inject_Z w - crop_width) / 2
      /\ 0 < x1 /\ x1 + crop_width < inject_Z w
      /\ AspectRatio.isclose (inject_Z w / inject_Z h) (9 / 16) (2 # 100)
         = false
  | Some (AspectRatio.Pillarbox target_size) =>
      (w < h)%Z /\ target_size = (h, w)
  | None => True
  end
  /\ (w = h -> AspectRatio.convert (w, h) = None).
Proof.
  intros Hw Hh.
  assert (0 < inject_Z w) as HW by (now apply (inject_Z_lt 0 w)).
  assert (0 < inject_Z h) as HH by (now apply (inject_Z_lt 0 h)).
  set (W := inject_Z w) in *. set (H := inject_Z h) in *.
  assert (0 < W / H) as Har by (apply Qlt_shift_div_l; lra).
  assert (W == (W / H) * H) as HWH by (field; lra).
  assert (16 / 9 == 16 # 9) as Hwide by reflexivity.
  assert (9 / 16 == 9 # 16) as Htall by reflexivity.
  assert (forall a b, 0 < a -> 0 < b ->
                      AspectRatio.isclose a b (2 # 100) = true ->
                      (98 # 100) * b <= a /\ (98 # 100) * a <= b) as Hclose.
  { intros a b Ha Hb Hc. destruct (isclose_bounds _ _ _ Ha Hb Hc) as [H1 H2].
    destruct (Q.max_spec a b) as [[Hlt Hm]|[Hle Hm]];
      rewrite Hm in H1, H2; lra. }
  split.
  - unfold AspectRatio.convert. fold W H.
    set (ar := W / H) in *. clearbody ar.
    destruct (AspectRatio.isclose ar (16 / 9) (2 # 100)) eqn:E1.
    + destruct (Hclose ar (16 / 9) Har eq_refl E1) as [Hlo Hhi].
      rewrite Hwide in Hlo, Hhi.
      assert (1 < ar) as Hgt by lra.
      assert (H < W) as HltQ by nra.
      split; [apply inject_Z_lt; exact HltQ|].
      split; [reflexivity|]. split; [field|].
      split; [|split].
      * assert (W / 2 - H * (9 / 16) / 2 == W * (1 # 2) - H * (9 # 32))
          as -> by field.
        lra.
      * assert (W / 2 - H * (9 / 16) / 2 + H * (9 / 16)
                == W * (1 # 2) + H * (9 # 32)) as -> by field.
        lra.
      * destruct (AspectRatio.isclose ar (9 / 16) (2 # 100)) eqn:E2;
          [|reflexivity].
        destruct (Hclose ar (9 / 16) Har eq_refl E2) as [Hlo2 Hhi2].
        rewrite Htall in Hlo2, Hhi2. lra.
    + destruct (AspectRatio.isclose ar (9 / 16) (2 # 100)) eqn:E2;
        [|exact I].
      destruct (Hclose ar (9 / 16) Har eq_refl E2) as [Hlo Hhi].
      rewrite Htall in Hlo, Hhi.
      assert (ar < 1) as Hlt1 by lra.
      assert (W < H) as HltQ by nra.
      split; [apply inject_Z_lt; exact HltQ|reflexivity].
  - intros ->. unfold AspectRatio.convert. fold H.
    assert (H / H == 1) as Hone by (field; lra).
    assert (0 < H / H) as Hpos by (rewrite Hone; reflexivity).
    set (ar := H / H) in *. clearbody ar.
    destruct (AspectRatio.isclose ar (16 / 9) (2 # 100)) eqn:E1.
    { destruct (Hclose ar (16 / 9) Hpos eq_refl E1) as [H1 H2].
      rewrite Hwide in H1, H2. lra. }
    destruct (AspectRatio.isclose ar (9 / 16) (2 # 100)) eqn:E2;
      [|reflexivity].
    destruct (Hclose ar (9 / 16) Hpos eq_refl E2) as [H1 H2].
    rewrite Htall in H1, H2. lra.
Qed.

Lemma aspect_conversion_geometry_witness :
  AspectRatio.convert (1920, 1080)%Z
  = Some (AspectRatio.Crop (inject_Z 1920 / 2 - inject_Z 1080 * (9 / 16) / 2)
                           (inject_Z 1080 * (9 / 16)))
  /\ (1080 < 1920)%Z.
Proof.
  split; [vm_compute; reflexivity|].
  pose proof (aspect_conversion_geometry 1920 1080 eq_refl eq_refl) as [H _].
  assert (AspectRatio.convert (1920, 1080)%Z
          = Some (AspectRatio.Crop
                    (inject_Z 1920 / 2 - inject_Z 1080 * (9 / 16) / 2)
                    (inject_Z 1080 * (9 / 16)))) as E
    by (vm_compute; reflexivity).
  rewrite E in H. exact (proj1 H).
Defined.

End AspectGeometry.
